(** * Multi-modal reasoning service: a shallow embedding and its properties

    This development embeds the chart-analysis pipeline, the visual-text
    linker, the relevance scorer and the multi-modal search of
    [backend/app/services/multimodal_service.py], together with the
    visual-link listing endpoint of [backend/main.py], and proves the
    properties stated for them.

    Conventions of the embedding:
    - a Python [str] is a [string] whose characters are read as the code
      points U+0000..U+00FF;
    - a Python [float] is a binary64 number ([PrimFloat.float]): scores are
      multiplied, clamped and compared as the processor does it.  The
      relevance of a text is kept as the exact quotient of two counts ([Q]);
      the float the scorer returns is the binary64 number nearest to this
      quotient ([Py.float_of_Q]), which is what [/] between two [int]
      computes;
    - values produced by [json.loads] are dynamically typed ([Py.value]);
    - an operation that may raise returns [Py.exc]; every [try/except] of the
      source is a [Py.try_except] in the model;
    - the language model behind the service is an oracle: each remote call
      either fails or gives a reply, and nothing is assumed about it. *)

From Stdlib Require Import List String Ascii Bool Arith ZArith NArith QArith Qabs Qminmax Lia.
From Stdlib Require Import Permutation Sorted DecimalString Floats.
Import ListNotations.

#[local] Set Warnings "-register-all,-inexact-float".
Local Open Scope list_scope.
Local Open Scope string_scope.

(* ================================================================== *)
(** * Python values and the operations the service uses on them *)
(* ================================================================== *)

Module Py.

(** Exceptions, all of them subclasses of [Exception]. *)
Inductive exn : Type :=
| AttributeError
| TypeError
| KeyError
| JSONDecodeError
| OverflowError
| RuntimeError
| RemoteError.

Inductive exc (A : Type) : Type :=
| Ok (a : A)
| Raise (e : exn).
Arguments Ok {A} a.
Arguments Raise {A} e.

Definition bind {A B : Type} (m : exc A) (k : A -> exc B) : exc B :=
  match m with
  | Ok a => k a
  | Raise e => Raise e
  end.

(** [try: body / except Exception: return default]. *)
Definition try_except {A : Type} (body : exc A) (default : A) : A :=
  match body with
  | Ok a => a
  | Raise _ => default
  end.

Definition raises {A : Type} (m : exc A) : bool :=
  match m with
  | Ok _ => false
  | Raise _ => true
  end.

(** ** Floats

    [round_Q q] is the binary64 number nearest to the rational [q], ties to
    even, infinite beyond the range: the quotient is cut after at least 64
    bits, with one more bit that tells whether anything was cut, and
    rounded once. *)
Definition float : Type := PrimFloat.float.

Definition round_Q (q : Q) : float :=
  let n := Qnum q in
  let d := Z.pos (Qden q) in
  if (n =? 0)%Z then 0%float
  else
    let k := Z.max 0 (Z.log2 d - Z.log2 (Z.abs n) + 64) in
    let (quotient, remainder) := Z.div_eucl (Z.abs n * 2 ^ k) d in
    let m := (2 * quotient + (if remainder =? 0 then 0 else 1))%Z in
    let x := SF2Prim (binary_normalize prec emax m (- k - 1) false) in
    if (n <? 0)%Z then (- x)%float else x.

(** The float a decimal text denotes, and the float [a / b] of two
    integers. *)
Definition float_of_Q (q : Q) : float := round_Q (Qred q).

(** [float(z)] before the range check. *)
Definition float_of_Z (z : Z) : float := float_of_Q (inject_Z z).

(** [min(a, b)]: the first argument unless the second is smaller. *)
Definition min (a b : float) : float := if PrimFloat.ltb b a then b else a.

(** Dynamically typed values, as [json.loads] builds them.  A float other
    than [NaN], [Infinity] and [-Infinity] carries the decimal number its
    text reads, of which it is the nearest binary64 number, and the text
    [repr] prints for it. *)
Inductive value : Type :=
| VNone
| VBool (b : bool)
| VInt (z : Z)
| VFloat (q : Q) (repr : string)
| VNaN
| VInf (negative : bool)
| VStr (s : string)
| VList (l : list value)
| VDict (d : list (string * value)).

(** ** Strings *)

Definition code (c : ascii) : N := N_of_ascii c.

Definition in_range (lo hi n : N) : bool := (N.leb lo n && N.leb n hi)%bool.

(** [str.lower] on one character: A-Z and the Latin-1 capitals. *)
Definition lower_char (c : ascii) : ascii :=
  let n := code c in
  if (in_range 65 90 n || (in_range 192 222 n && negb (N.eqb n 215)))%bool
  then ascii_of_N (n + 32)
  else c.

Fixpoint lower (s : string) : string :=
  match s with
  | EmptyString => EmptyString
  | String c s' => String (lower_char c) (lower s')
  end.

(** [str.isspace] on one character. *)
Definition isspace (c : ascii) : bool :=
  let n := code c in
  (in_range 9 13 n || in_range 28 32 n || N.eqb n 133 || N.eqb n 160)%bool.

(** [str.split()] with no argument: the maximal runs of non-space
    characters, in order. *)
Fixpoint split (s : string) : list string :=
  match s with
  | EmptyString => []
  | String c s' =>
      if isspace c then split s'
      else
        match s' with
        | EmptyString => [String c EmptyString]
        | String c' _ =>
            if isspace c' then String c EmptyString :: split s'
            else
              match split s' with
              | t :: ts => String c t :: ts
              | [] => [String c EmptyString]
              end
        end
  end.

(** The line feed, written [\n] in the source. *)
Definition nl : string := String (ascii_of_N 10) EmptyString.

(** [sep.join(parts)]. *)
Fixpoint join (sep : string) (parts : list string) : string :=
  match parts with
  | [] => EmptyString
  | [p] => p
  | p :: ps => p ++ sep ++ join sep ps
  end.

(** [s[:n]]. *)
Fixpoint take (n : nat) (s : string) : string :=
  match n, s with
  | S n', String c s' => String c (take n' s')
  | _, _ => EmptyString
  end.

(** [needle in hay] for two strings: substring containment. *)
Fixpoint str_contains (needle hay : string) : bool :=
  (String.prefix needle hay ||
   match hay with
   | EmptyString => false
   | String _ hay' => str_contains needle hay'
   end)%bool.

Definition is_upper (c : ascii) : bool := in_range 65 90 (code c).
Definition is_lower (c : ascii) : bool := in_range 97 122 (code c).
Definition upper_char (c : ascii) : ascii :=
  if is_lower c then ascii_of_N (code c - 32) else c.

(** [str.title] for strings of ASCII characters: a letter that follows a
    letter is lower-cased, any other letter is upper-cased. *)
Fixpoint title_from (previous_is_cased : bool) (s : string) : string :=
  match s with
  | EmptyString => EmptyString
  | String c s' =>
      let cased := (is_upper c || is_lower c)%bool in
      String (if previous_is_cased then lower_char c else upper_char c)
             (title_from cased s')
  end.

Definition title (s : string) : string := title_from false s.

Definition chars (s : string) : list string :=
  map (fun c => String c EmptyString) (list_ascii_of_string s).

(** ** [repr] and [str] *)

Definition hex_digit (n : N) : ascii :=
  if N.ltb n 10 then ascii_of_N (48 + n) else ascii_of_N (87 + n).

Definition printable (c : ascii) : bool :=
  let n := code c in
  (in_range 32 126 n || (in_range 161 255 n && negb (N.eqb n 173)))%bool.

Definition escape_char (quote : ascii) (c : ascii) : string :=
  let n := code c in
  if N.eqb n 92 then "\\"
  else if Ascii.eqb c quote then String "\" (String c EmptyString)
  else if N.eqb n 9 then "\t"
  else if N.eqb n 10 then "\n"
  else if N.eqb n 13 then "\r"
  else if printable c then String c EmptyString
  else String "\" (String "x" (String (hex_digit (n / 16))
                                 (String (hex_digit (n mod 16)) EmptyString))).

Definition has_char (c : ascii) (s : string) : bool :=
  existsb (Ascii.eqb c) (list_ascii_of_string s).

(** [repr] of a string: single quotes, unless the string holds a single
    quote and no double quote. *)
Definition single_quote : ascii := ascii_of_N 39.
Definition double_quote : ascii := ascii_of_N 34.

Definition repr_str (s : string) : string :=
  let quote : ascii :=
    if (has_char single_quote s && negb (has_char double_quote s))%bool
    then double_quote else single_quote in
  String quote
    (concat EmptyString (map (escape_char quote) (list_ascii_of_string s))
     ++ String quote EmptyString).

Definition str_int (z : Z) : string := NilZero.string_of_int (Z.to_int z).

Fixpoint repr (v : value) : string :=
  match v with
  | VNone => "None"
  | VBool true => "True"
  | VBool false => "False"
  | VInt z => str_int z
  | VFloat _ r => r
  | VNaN => "nan"
  | VInf false => "inf"
  | VInf true => "-inf"
  | VStr s => repr_str s
  | VList l => "[" ++ join ", " (map repr l) ++ "]"
  | VDict d =>
      "{" ++ join ", " (map (fun kv => repr_str (fst kv) ++ ": " ++ repr (snd kv)) d) ++ "}"
  end.

(** [str(v)], which is what an f-string field prints. *)
Definition str (v : value) : string :=
  match v with
  | VStr s => s
  | _ => repr v
  end.

(** ** Truth value, numbers *)

Definition truthy (v : value) : bool :=
  match v with
  | VNone => false
  | VBool b => b
  | VInt z => negb (Z.eqb z 0)
  | VFloat q _ => negb (PrimFloat.eqb (float_of_Q q) 0)
  | VNaN => true
  | VInf _ => true
  | VStr s => negb (String.eqb s EmptyString)
  | VList l => match l with [] => false | _ => true end
  | VDict d => match d with [] => false | _ => true end
  end.

(** A number is an [int] (a [bool] is one) or a [float]. *)
Inductive number : Type :=
| NInt (z : Z)
| NFloat (x : float).

Definition as_number (v : value) : option number :=
  match v with
  | VBool b => Some (NInt (if b then 1 else 0))
  | VInt z => Some (NInt z)
  | VFloat q _ => Some (NFloat (float_of_Q q))
  | VNaN => Some (NFloat nan)
  | VInf negative => Some (NFloat (if negative then neg_infinity else infinity))
  | _ => None
  end.

(** The conversion of an operand to [float] that arithmetic with a float
    performs: an [int] beyond the range raises. *)
Definition to_float (n : number) : exc float :=
  match n with
  | NInt z =>
      let x := float_of_Z z in
      if PrimFloat.is_infinity x then Raise OverflowError else Ok x
  | NFloat x => Ok x
  end.

(** The float operand that [v] gives in arithmetic with a float. *)
Definition as_float (v : value) : exc float :=
  match as_number v with
  | Some n => to_float n
  | None => Raise TypeError
  end.

(** [x * v] for a float [x]. *)
Definition float_mul (x : float) (v : value) : exc float :=
  bind (as_float v) (fun y => Ok (x * y)%float).

(** [n - v] for an int [n]: an [int] against an [int], a [float] against a
    [float]. *)
Definition int_sub (n : Z) (v : value) : exc number :=
  match as_number v with
  | Some (NInt z) => Ok (NInt (n - z))
  | Some (NFloat y) => bind (to_float (NInt n)) (fun x => Ok (NFloat (x - y)%float))
  | None => Raise TypeError
  end.

(** [abs(d) <= 1]. *)
Definition abs_le_1 (d : number) : bool :=
  match d with
  | NInt z => (Z.abs z <=? 1)%Z
  | NFloat x => PrimFloat.leb (PrimFloat.abs x) 1
  end.

(** A value that [json.dumps(..., allow_nan=False)] accepts: no float in it
    is a NaN or an infinity. *)
Fixpoint json_compliant (v : value) : bool :=
  match v with
  | VFloat q _ => PrimFloat.is_finite (float_of_Q q)
  | VNaN => false
  | VInf _ => false
  | VList l => forallb json_compliant l
  | VDict d => forallb (fun kv => json_compliant (snd kv)) d
  | _ => true
  end.

(** ** Dictionaries: insertion-ordered, one entry per key *)

Fixpoint dict_get {V : Type} (d : list (string * V)) (k : string) : option V :=
  match d with
  | [] => None
  | (k', v) :: d' => if String.eqb k k' then Some v else dict_get d' k
  end.

(** [d[k] = v]: an existing key keeps its position. *)
Fixpoint dict_set {V : Type} (d : list (string * V)) (k : string) (v : V)
  : list (string * V) :=
  match d with
  | [] => [(k, v)]
  | (k', v') :: d' =>
      if String.eqb k k' then (k, v) :: d' else (k', v') :: dict_set d' k v
  end.

Definition dict_has {V : Type} (d : list (string * V)) (k : string) : bool :=
  match dict_get d k with Some _ => true | None => false end.

Definition keys {V : Type} (d : list (string * V)) : list string := map fst d.
Definition values {V : Type} (d : list (string * V)) : list V := map snd d.

(** ** Dynamic operations *)

(** [v.get(k, default)]. *)
Definition get (v : value) (k : string) (default : value) : exc value :=
  match v with
  | VDict d => Ok (match dict_get d k with Some x => x | None => default end)
  | _ => Raise AttributeError
  end.

Definition is_str (k : string) (v : value) : bool :=
  match v with
  | VStr s => String.eqb k s
  | _ => false
  end.

(** [k in v] for a string [k]. *)
Definition contains (k : string) (v : value) : exc bool :=
  match v with
  | VDict d => Ok (dict_has d k)
  | VList l => Ok (existsb (is_str k) l)
  | VStr s => Ok (str_contains k s)
  | _ => Raise TypeError
  end.

(** [v[k]] for a string [k]. *)
Definition getitem (v : value) (k : string) : exc value :=
  match v with
  | VDict d => match dict_get d k with Some x => Ok x | None => Raise KeyError end
  | _ => Raise TypeError
  end.

(** [v[:n]]. *)
Definition slice_to (n : nat) (v : value) : exc value :=
  match v with
  | VList l => Ok (VList (firstn n l))
  | VStr s => Ok (VStr (take n s))
  | _ => Raise TypeError
  end.

(** The elements a [for] loop over [v] visits. *)
Definition iter (v : value) : exc (list value) :=
  match v with
  | VList l => Ok l
  | VStr s => Ok (map VStr (chars s))
  | VDict d => Ok (map VStr (keys d))
  | _ => Raise TypeError
  end.

Fixpoint all_str (l : list value) : exc (list string) :=
  match l with
  | [] => Ok []
  | VStr s :: l' => bind (all_str l') (fun ss => Ok (s :: ss))
  | _ :: _ => Raise TypeError
  end.

(** [sep.join(v)]. *)
Definition join_value (sep : string) (v : value) : exc string :=
  bind (iter v) (fun items => bind (all_str items) (fun ss => Ok (join sep ss))).

(** ** [list.sort]

    [lt a b] is [key(a) < key(b)].  The list is sorted as CPython sorts a
    list of fewer than 64 elements: the run the list starts with is found
    (and reversed when it descends strictly), then the other elements are
    inserted one by one at the place a binary search gives.  Longer lists
    are merged from such runs, which gives the same list whenever [<] orders
    the keys, as it does for floats without a NaN. *)
Section Sort.

Context {A : Type}.
Variable lt : A -> A -> bool.

(** The elements after [previous] that continue a run that does not
    descend, and the rest. *)
Fixpoint ascending_run (previous : A) (l : list A) : list A * list A :=
  match l with
  | [] => ([], [])
  | x :: l' =>
      if lt x previous then ([], l)
      else let (run, rest) := ascending_run x l' in (x :: run, rest)
  end.

(** The same for a run that descends strictly. *)
Fixpoint descending_run (previous : A) (l : list A) : list A * list A :=
  match l with
  | [] => ([], [])
  | x :: l' =>
      if lt x previous
      then let (run, rest) := descending_run x l' in (x :: run, rest)
      else ([], l)
  end.

(** [count_run]: the first run, in ascending order, and the rest. *)
Definition count_run (l : list A) : list A * list A :=
  match l with
  | [] => ([], [])
  | [x] => ([x], [])
  | x :: y :: l' =>
      if lt y x
      then let (run, rest) := descending_run y l' in (rev (x :: y :: run), rest)
      else let (run, rest) := ascending_run y l' in (x :: y :: run, rest)
  end.

(** The binary search of [binarysort] between the positions [l] and [r]. *)
Fixpoint bisect (fuel : nat) (pivot : A) (sorted : list A) (l r : nat) : nat :=
  match fuel with
  | O => l
  | S fuel' =>
      if (l <? r)%nat then
        let p := (l + (r - l) / 2)%nat in
        match nth_error sorted p with
        | Some x =>
            if lt pivot x then bisect fuel' pivot sorted l p
            else bisect fuel' pivot sorted (S p) r
        | None => l
        end
      else l
  end.

Definition binary_insert (sorted : list A) (pivot : A) : list A :=
  let l := bisect (List.length sorted) pivot sorted 0 (List.length sorted) in
  (firstn l sorted ++ pivot :: skipn l sorted)%list.

Definition binarysort (run rest : list A) : list A :=
  fold_left binary_insert rest run.

(** [l.sort(key=...)]. *)
Definition list_sort (l : list A) : list A :=
  let (run, rest) := count_run l in binarysort run rest.

(** [l.sort(key=..., reverse=True)]: the list is reversed, sorted, and
    reversed again. *)
Definition list_sort_reverse (l : list A) : list A := rev (list_sort (rev l)).

End Sort.

End Py.

Notation "x <- m ;; k" := (Py.bind m (fun x => k))
  (at level 61, m at next level, right associativity).

(** ** Blocks: code that updates a state and may raise part-way

    A [try] body that mutates a list or an object as it goes is a [block]:
    it returns the state reached and the exception, if one was raised.  What
    was done before the exception stays done. *)

Module Block.

Definition t (S : Type) : Type := S -> S * option Py.exn.

Definition skip {S : Type} : t S := fun s => (s, None).

Definition seq {S : Type} (b1 b2 : t S) : t S :=
  fun s =>
    match b1 s with
    | (s', None) => b2 s'
    | (s', Some e) => (s', Some e)
    end.

(** Evaluate an expression, then continue with its value. *)
Definition eval {S A : Type} (m : Py.exc A) (k : A -> t S) : t S :=
  fun s =>
    match m with
    | Py.Ok a => k a s
    | Py.Raise e => (s, Some e)
    end.

Definition modify {S : Type} (f : S -> S) : t S := fun s => (f s, None).

Definition when {S : Type} (b : bool) (body : t S) : t S :=
  if b then body else skip.

Fixpoint for_each {S A : Type} (l : list A) (body : A -> t S) : t S :=
  match l with
  | [] => skip
  | x :: l' => seq (body x) (for_each l' body)
  end.

End Block.

Notation "b1 ;;; b2" := (Block.seq b1 b2) (at level 62, right associativity).

(* ================================================================== *)
(** * The records of [app.models.schemas] *)
(* ================================================================== *)

Module Schemas.

(** Modelled from the spec: [app/models/schemas.py] is not among the
    sources.  The records have the fields the specification lists for them
    (sections 3 and 6) and the source reads or passes to the constructors. *)

Inductive SourceType : Type :=
| DOCUMENT
| IMAGE.

Module SearchResult.
Record t : Type := mk {
  id : string;
  title : string;
  content : string;
  source_type : SourceType;
  url : option string;
  confidence_score : Py.float;
  metadata : list (string * Py.value)
}.
End SearchResult.

Module DocumentImage.
Record t : Type := mk {
  id : string;
  document_id : string;
  page_number : Z;
  image_type : string;
  description : option string;
  image_url : option string;
  metadata : list (string * Py.value)
}.
End DocumentImage.

Module DocumentChunk.
Record t : Type := mk {
  id : string;
  document_id : string;
  content : string;
  page_number : Z;
  metadata : list (string * Py.value)
}.
End DocumentChunk.

End Schemas.

(* ================================================================== *)
(** * [multimodal_service.py] *)
(* ================================================================== *)

Module ChartAnalysis.
(** [image_id] is the attribute [_get_chart_analysis_by_image_id] probes with
    [hasattr]; [None] when the object has no such attribute. *)
Record t : Type := mk {
  chart_type : Py.value;
  data_insights : Py.value;
  text_content : string;
  confidence : Py.value;
  queryable_facts : list Py.value;
  image_id : option string
}.

Definition __init__ (chart_type data_insights : Py.value) (text_content : string)
    (confidence : Py.value) : t :=
  mk chart_type data_insights text_content confidence [] None.

Definition set_queryable_facts (a : t) (facts : list Py.value) : t :=
  mk (chart_type a) (data_insights a) (text_content a) (confidence a) facts (image_id a).
End ChartAnalysis.

Module VisualTextLink.
Record t : Type := mk {
  visual_id : string;
  text_chunks : Py.value;
  relationship : Py.value;
  confidence : Py.value
}.
End VisualTextLink.

(** ** The language model as an oracle *)

(** A reply text together with what [json.loads] makes of it: [parsed] is
    [None] when the text is not JSON. *)
Record response : Type := mk_response {
  text : string;
  parsed : option Py.value
}.

Definition plain (s : string) : response := mk_response s None.

(** One remote call: it raises, or it answers without any text, or it
    answers with a text. *)
Inductive remote : Type :=
| Fails
| NoText
| Replies (r : response).

Definition json_loads (r : response) : Py.exc Py.value :=
  match parsed r with
  | Some v => Py.Ok v
  | None => Py.Raise Py.JSONDecodeError
  end.

Module MultiModalService.

Import Schemas.

(** [self], with [settings.ai_provider]; a client is [true] when set. *)
Record t : Type := mk {
  ai_provider : string;
  genai_client : bool;
  claude_client : bool;
  chart_cache : list (string * ChartAnalysis.t);
  visual_text_links : list (string * VisualTextLink.t)
}.

Definition set_chart_cache (self : t) (c : list (string * ChartAnalysis.t)) : t :=
  mk (ai_provider self) (genai_client self) (claude_client self) c (visual_text_links self).

Definition set_visual_text_links (self : t) (c : list (string * VisualTextLink.t)) : t :=
  mk (ai_provider self) (genai_client self) (claude_client self) (chart_cache self) c.

(** [__init__] before any client is configured. *)
Definition __init__ (ai_provider : string) (genai_client claude_client : bool) : t :=
  mk ai_provider genai_client claude_client [] [].

(** *** Helper methods for AI analysis *)

Definition remote_call (w : remote) : Py.exc (option response) :=
  match w with
  | Fails => Py.Raise Py.RemoteError
  | NoText => Py.Ok None
  | Replies r => Py.Ok (Some r)
  end.

Definition _analyze_with_gemini (w : remote) : response :=
  Py.try_except
    (r <- remote_call w ;;
     Py.Ok match r with
           | Some r => if String.eqb (text r) EmptyString
                       then plain "No response generated" else r
           | None => plain "No response generated"
           end)
    (plain "Analysis failed").

Definition _analyze_with_claude (w : remote) : response :=
  Py.try_except
    (r <- remote_call w ;;
     Py.Ok match r with
           | Some r => r
           | None => plain "No response generated"
           end)
    (plain "Analysis failed").

Definition _analyze_with_gemini_text_only (w : remote) : response :=
  Py.try_except
    (r <- remote_call w ;;
     Py.Ok match r with
           | Some r => if String.eqb (text r) EmptyString
                       then plain "No response" else r
           | None => plain "No response"
           end)
    (plain "Analysis failed").

Definition _analyze_with_claude_text_only (w : remote) : response :=
  Py.try_except
    (r <- remote_call w ;;
     Py.Ok match r with
           | Some r => r
           | None => plain "No response"
           end)
    (plain "Analysis failed").

(** The test [settings.ai_provider == ... and self....] that every stage
    starts with. *)
Inductive provider : Type :=
| Gemini
| Claude
| NoProvider.

Definition provider_of (self : t) : provider :=
  if (String.eqb (ai_provider self) "gemini" && genai_client self)%bool then Gemini
  else if (String.eqb (ai_provider self) "claude" && claude_client self)%bool then Claude
  else NoProvider.

(** [try: return json.loads(response) / except json.JSONDecodeError:
    return fallback]. *)
Definition loads_or (r : response) (fallback : Py.value) : Py.exc Py.value :=
  match json_loads r with
  | Py.Ok v => Py.Ok v
  | Py.Raise Py.JSONDecodeError => Py.Ok fallback
  | Py.Raise e => Py.Raise e
  end.

(** *** Stage 1: structure identification *)

Definition unknown_structure : Py.value :=
  Py.VDict [("type", Py.VStr "unknown"); ("confidence", Py.VFloat 0 "0.0")].

Definition structure_fallback (r : response) : Py.value :=
  Py.VDict [("type", Py.VStr "chart");
            ("title", Py.VStr "Unknown Chart");
            ("confidence", Py.VFloat (3 # 10) "0.3");
            ("raw_response", Py.VStr (text r))].

Definition _identify_chart_structure (self : t) (w : remote) : Py.value :=
  Py.try_except
    match provider_of self with
    | Gemini => let r := _analyze_with_gemini w in loads_or r (structure_fallback r)
    | Claude => let r := _analyze_with_claude w in loads_or r (structure_fallback r)
    | NoProvider => Py.Ok unknown_structure
    end
    unknown_structure.

(** *** Stage 2: data extraction *)

Definition data_fallback (r : response) : Py.value :=
  Py.VDict [("raw_analysis", Py.VStr (text r)); ("data_points", Py.VList [])].

Definition _extract_chart_data (self : t) (w : remote) (metadata : Py.value)
  : Py.value :=
  Py.try_except
    (chart_type <- Py.get metadata "type" (Py.VStr "unknown") ;;
     match provider_of self with
     | Gemini => let r := _analyze_with_gemini w in loads_or r (data_fallback r)
     | Claude => let r := _analyze_with_claude w in loads_or r (data_fallback r)
     | NoProvider => Py.Ok (Py.VDict [])
     end)
    (Py.VDict []).

(** *** Stage 3: description synthesis *)

Definition _generate_chart_text_description (self : t) (w : remote)
    (metadata data_insights : Py.value) (context : string) : string :=
  Py.try_except
    (chart_type <- Py.get metadata "type" (Py.VStr "chart") ;;
     title <- Py.get metadata "title" (Py.VStr "Untitled Chart") ;;
     let description :=
       match provider_of self with
       | Gemini => text (_analyze_with_gemini w)
       | Claude => text (_analyze_with_claude w)
       | NoProvider =>
           "Chart of type " ++ Py.str chart_type ++ " with title " ++ Py.str title
       end in
     key_statistics <- Py.get data_insights "key_statistics" Py.VNone ;;
     if Py.truthy key_statistics then
       stats <- Py.getitem data_insights "key_statistics" ;;
       let description := description ++ Py.nl ++ Py.nl ++ "Key Statistics: " in
       has_highest <- Py.contains "highest" stats ;;
       description <-
         (if has_highest : bool then
            highest <- Py.getitem stats "highest" ;;
            v <- Py.get highest "value" Py.VNone ;;
            Py.Ok (description ++ "Highest value: " ++ Py.str v ++ " ")
          else Py.Ok description) ;;
       has_lowest <- Py.contains "lowest" stats ;;
       description <-
         (if has_lowest : bool then
            lowest <- Py.getitem stats "lowest" ;;
            v <- Py.get lowest "value" Py.VNone ;;
            Py.Ok (description ++ "Lowest value: " ++ Py.str v ++ " ")
          else Py.Ok description) ;;
       has_average <- Py.contains "average" stats ;;
       description <-
         (if has_average : bool then
            average <- Py.getitem stats "average" ;;
            Py.Ok (description ++ "Average: " ++ Py.str average ++ " ")
          else Py.Ok description) ;;
       Py.Ok description
     else Py.Ok description)
    "Chart description generation failed".

(** *** Stage 4: fact extraction *)

Definition append_fact (s : string) : Block.t (list Py.value) :=
  Block.modify (fun facts => (facts ++ [Py.VStr s])%list).

Definition type_fact (metadata : Py.value) : Block.t (list Py.value) :=
  Block.eval (Py.get metadata "type" Py.VNone) (fun t =>
  Block.when (Py.truthy t)
    (Block.eval (Py.getitem metadata "type") (fun t =>
     append_fact ("This is a " ++ Py.str t)))).

Definition title_fact (metadata : Py.value) : Block.t (list Py.value) :=
  Block.eval (Py.get metadata "title" Py.VNone) (fun t =>
  Block.when (Py.truthy t)
    (Block.eval (Py.getitem metadata "title") (fun t =>
     append_fact ("Chart title: " ++ Py.str t)))).

Definition point_fact (point : Py.value) : Block.t (list Py.value) :=
  Block.eval (Py.contains "category" point) (fun has_category =>
  Block.when has_category
    (Block.eval (Py.contains "value" point) (fun has_value =>
     Block.when has_value
       (Block.eval (Py.getitem point "category") (fun category =>
        Block.eval (Py.getitem point "value") (fun v =>
        append_fact (Py.str category ++ ": " ++ Py.str v))))))).

Definition data_point_facts (data_insights : Py.value) : Block.t (list Py.value) :=
  Block.eval (Py.get data_insights "data_points" Py.VNone) (fun p =>
  Block.when (Py.truthy p)
    (Block.eval (Py.getitem data_insights "data_points") (fun points =>
     Block.eval (Py.slice_to 10 points) (fun first =>
     Block.eval (Py.iter first) (fun items =>
     Block.for_each items point_fact))))).

Definition trend_facts (data_insights : Py.value) : Block.t (list Py.value) :=
  Block.eval (Py.get data_insights "trends" Py.VNone) (fun t =>
  Block.when (Py.truthy t)
    (Block.eval (Py.getitem data_insights "trends") (fun trends =>
     Block.eval (Py.iter trends) (fun items =>
     Block.for_each items (fun trend => append_fact ("Trend: " ++ Py.str trend)))))).

(** [if key in stats and stats[key]: facts.append(label: value (category))]. *)
Definition extreme_fact (label key : string) (stats : Py.value)
  : Block.t (list Py.value) :=
  Block.eval (Py.contains key stats) (fun present =>
  Block.when present
    (Block.eval (Py.getitem stats key) (fun entry =>
     Block.when (Py.truthy entry)
       (Block.eval (Py.get entry "value" Py.VNone) (fun v =>
        Block.eval (Py.get entry "category" Py.VNone) (fun category =>
        append_fact (label ++ Py.str v ++ " (" ++ Py.str category ++ ")"))))))).

Definition average_fact (stats : Py.value) : Block.t (list Py.value) :=
  Block.eval (Py.contains "average" stats) (fun present =>
  Block.when present
    (Block.eval (Py.getitem stats "average") (fun average =>
     append_fact ("Average value: " ++ Py.str average)))).

Definition statistic_facts (data_insights : Py.value) : Block.t (list Py.value) :=
  Block.eval (Py.get data_insights "key_statistics" (Py.VDict [])) (fun stats =>
    extreme_fact "Highest value: " "highest" stats ;;;
    extreme_fact "Lowest value: " "lowest" stats ;;;
    average_fact stats).

Definition insight_facts (data_insights : Py.value) : Block.t (list Py.value) :=
  Block.eval (Py.get data_insights "insights" Py.VNone) (fun i =>
  Block.when (Py.truthy i)
    (Block.eval (Py.getitem data_insights "insights") (fun insights =>
     Block.eval (Py.iter insights) (fun items =>
     Block.modify (fun facts => (facts ++ items)%list))))).

Definition _extract_queryable_facts (metadata data_insights : Py.value)
    (text_content : string) : list Py.value :=
  fst ((type_fact metadata ;;;
        title_fact metadata ;;;
        data_point_facts data_insights ;;;
        trend_facts data_insights ;;;
        statistic_facts data_insights ;;;
        insight_facts data_insights) []).

(** *** The pipeline *)

(** What the outside world contributes to one [analyze_chart_to_text]: the
    outcome of the remote call of each stage and the identifier [uuid4]
    draws.  The image and the prompts only travel to the remote call. *)
Record chart_world : Type := mk_chart_world {
  structure_reply : remote;
  data_reply : remote;
  description_reply : remote;
  uuid4 : string
}.

Definition default_analysis : ChartAnalysis.t :=
  ChartAnalysis.__init__ (Py.VStr "unknown") (Py.VDict []) "Chart analysis failed"
                         (Py.VFloat 0 "0.0").

(** The body of the [try] of [analyze_chart_to_text]. *)
Definition analyze_chart_body (self : t) (w : chart_world) (context : string)
  : Py.exc (ChartAnalysis.t * t) :=
  let chart_metadata := _identify_chart_structure self (structure_reply w) in
  let data_insights := _extract_chart_data self (data_reply w) chart_metadata in
  let text_content :=
    _generate_chart_text_description self (description_reply w)
                                     chart_metadata data_insights context in
  let queryable_facts :=
    _extract_queryable_facts chart_metadata data_insights text_content in
  chart_type <- Py.get chart_metadata "type" (Py.VStr "unknown") ;;
  confidence <- Py.get chart_metadata "confidence" (Py.VFloat (1 # 2) "0.5") ;;
  let analysis :=
    ChartAnalysis.set_queryable_facts
      (ChartAnalysis.__init__ chart_type data_insights text_content confidence)
      queryable_facts in
  Py.Ok (analysis,
         set_chart_cache self (Py.dict_set (chart_cache self) (uuid4 w) analysis)).

Definition analyze_chart_to_text (self : t) (w : chart_world) (context : string)
  : ChartAnalysis.t * t :=
  Py.try_except (analyze_chart_body self w context) (default_analysis, self).

(** *** Visual-text links *)

(** [abs(chunk.page_number - image.page_number) <= 1]. *)
Definition near_page (image : DocumentImage.t) (chunk : DocumentChunk.t) : bool :=
  (Z.abs (DocumentChunk.page_number chunk - DocumentImage.page_number image) <=? 1)%Z.

Definition related_chunks (image : DocumentImage.t) (text_chunks : list DocumentChunk.t)
  : list DocumentChunk.t :=
  filter (near_page image) text_chunks.

Definition relationship_fallback (text_chunks : list DocumentChunk.t) : Py.value :=
  Py.VList
    [Py.VDict
       [("relationship", Py.VStr "general");
        ("text_chunks",
         Py.VList (map (fun chunk => Py.VStr (Py.take 100 (DocumentChunk.content chunk)))
                       (firstn 2 text_chunks)));
        ("confidence", Py.VFloat (3 # 10) "0.3");
        ("explanation", Py.VStr "Basic proximity relationship")]].

Definition _analyze_visual_text_relationships (self : t) (w : remote)
    (image : DocumentImage.t) (text_chunks : list DocumentChunk.t) : Py.value :=
  Py.try_except
    match provider_of self with
    | Gemini =>
        loads_or (_analyze_with_gemini_text_only w) (relationship_fallback text_chunks)
    | Claude =>
        loads_or (_analyze_with_claude_text_only w) (relationship_fallback text_chunks)
    | NoProvider => Py.Ok (Py.VList [])
    end
    (Py.VList []).

(** The state of the loop of [create_visual_text_links]: the local list
    [links] and the cache [self.visual_text_links]. *)
Definition link_state : Type :=
  (list VisualTextLink.t * list (string * VisualTextLink.t))%type.

Definition add_link (link : VisualTextLink.t) : Block.t link_state :=
  Block.modify (fun st : link_state =>
    ((fst st ++ [link])%list,
     Py.dict_set (snd st) (VisualTextLink.visual_id link) link)).

Definition link_relationship (image : DocumentImage.t) (relationship : Py.value)
  : Block.t link_state :=
  Block.eval (Py.getitem relationship "text_chunks") (fun text_chunks =>
  Block.eval (Py.getitem relationship "relationship") (fun kind =>
  Block.eval (Py.getitem relationship "confidence") (fun confidence =>
  add_link (VisualTextLink.mk (DocumentImage.id image) text_chunks kind confidence)))).

(** One turn of the loop; [w] is the outcome of the remote call this image
    would make. *)
Definition link_image (self : t) (text_chunks : list DocumentChunk.t)
    (image : DocumentImage.t) (w : remote) : Block.t link_state :=
  let related := related_chunks image text_chunks in
  match related with
  | [] => Block.skip
  | _ :: _ =>
      let relationships := _analyze_visual_text_relationships self w image related in
      Block.eval (Py.iter relationships) (fun items =>
      Block.for_each items (link_relationship image))
  end.

Fixpoint link_images (self : t) (text_chunks : list DocumentChunk.t)
    (images : list DocumentImage.t) (oracle : nat -> remote) (i : nat)
  : Block.t link_state :=
  match images with
  | [] => Block.skip
  | image :: images' =>
      link_image self text_chunks image (oracle i) ;;;
      link_images self text_chunks images' oracle (S i)
  end.

(** [oracle i] is the outcome of the remote call for the [i]-th image. *)
Definition create_visual_text_links (self : t) (oracle : nat -> remote)
    (images : list DocumentImage.t) (text_chunks : list DocumentChunk.t)
  : list VisualTextLink.t * t :=
  match link_images self text_chunks images oracle 0 ([], visual_text_links self) with
  | ((links, cache), None) => (links, set_visual_text_links self cache)
  | ((_, cache), Some _) => ([], set_visual_text_links self cache)
  end.

(** *** Relevance *)

Definition py_set (words : list string) : list string := nodup string_dec words.

Definition intersection (a b : list string) : list string :=
  filter (fun w => existsb (String.eqb w) b) a.

Definition str_lower (v : Py.value) : Py.exc string :=
  match v with
  | Py.VStr s => Py.Ok (Py.lower s)
  | _ => Py.Raise Py.AttributeError
  end.

(** The quotient [len(intersection) / max(len(query_words), 1)] as the
    exact rational; the float that the division returns is the nearest
    binary64 number ([relevance] below). *)
Definition text_relevance_body (query text : Py.value) : Py.exc Q :=
  q <- str_lower query ;;
  let query_words := py_set (Py.split q) in
  t <- str_lower text ;;
  let text_words := py_set (Py.split t) in
  let overlap := List.length (intersection query_words text_words) in
  Py.Ok (Z.of_nat overlap # Pos.of_nat (Nat.max (List.length query_words) 1)).

Definition _calculate_text_relevance (query text : Py.value) : Q :=
  Py.try_except (text_relevance_body query text) 0%Q.

(** *** Search results live in a store: the service updates them in place *)

Module Heap.
Definition ref : Type := nat.
Definition t : Type := list SearchResult.t.

Definition read (h : t) (r : ref) : option SearchResult.t := nth_error h r.

Fixpoint write (h : t) (r : ref) (x : SearchResult.t) : t :=
  match h, r with
  | [], _ => []
  | _ :: h', O => x :: h'
  | y :: h', S r' => y :: write h' r' x
  end.

Definition alloc (h : t) (x : SearchResult.t) : ref * t :=
  (List.length h, (h ++ [x])%list).
End Heap.

Definition _get_chart_analysis_by_image_id (self : t) (image_id : string)
  : option ChartAnalysis.t :=
  find (fun analysis =>
          match ChartAnalysis.image_id analysis with
          | Some i => String.eqb i image_id
          | None => false
          end)
       (Py.values (chart_cache self)).

(** *** Stage 1 of the search: visual context for a text result *)

Definition same_document_near_page (text_result : SearchResult.t)
    (img : DocumentImage.t) : Py.exc bool :=
  let document_id :=
    match Py.dict_get (SearchResult.metadata text_result) "document_id" with
    | Some v => v
    | None => Py.VNone
    end in
  if Py.is_str (DocumentImage.document_id img) document_id then
    let page_number :=
      match Py.dict_get (SearchResult.metadata text_result) "page_number" with
      | Some v => v
      | None => Py.VInt 0
      end in
    d <- Py.int_sub (DocumentImage.page_number img) page_number ;;
    Py.Ok (Py.abs_le_1 d)
  else Py.Ok false.

Fixpoint filter_exc {A : Type} (p : A -> Py.exc bool) (l : list A) : Py.exc (list A) :=
  match l with
  | [] => Py.Ok []
  | x :: l' =>
      keep <- p x ;;
      rest <- filter_exc p l' ;;
      Py.Ok (if keep : bool then x :: rest else rest)
  end.

Definition is_chart_like (image_type : string) : bool :=
  existsb (String.eqb image_type) ["chart"; "graph"; "diagram"].

Definition image_context (self : t) (img : DocumentImage.t) : list string :=
  ((match DocumentImage.description img with
    | Some d => if String.eqb d EmptyString then [] else [("Related image: " ++ d)%string]
    | None => []
    end) ++
   (if is_chart_like (DocumentImage.image_type img) then
      match _get_chart_analysis_by_image_id self (DocumentImage.id img) with
      | Some chart_analysis =>
          [("Chart data: "
             ++ Py.take 200 (ChartAnalysis.text_content chart_analysis))%string]
      | None => []
      end
    else []))%list.

Definition visual_context (self : t) (related_images : list DocumentImage.t)
  : list string :=
  flat_map (image_context self) (firstn 3 related_images).

Definition add_visual_context (text_result : SearchResult.t) (context : list string)
  : SearchResult.t :=
  SearchResult.mk
    (SearchResult.id text_result)
    (SearchResult.title text_result)
    (SearchResult.content text_result ++ Py.nl ++ Py.nl ++ "Visual Context: "
       ++ Py.join " " context)
    (SearchResult.source_type text_result)
    (SearchResult.url text_result)
    (SearchResult.confidence_score text_result)
    (Py.dict_set (SearchResult.metadata text_result) "visual_enhancements"
                 (Py.VInt (Z.of_nat (List.length context)))).

(** The object [text_result] after the body of the [try]. *)
Definition enhance_body (self : t) (text_result : SearchResult.t)
    (image_results : list DocumentImage.t) : Py.exc SearchResult.t :=
  related_images <- filter_exc (same_document_near_page text_result) image_results ;;
  match related_images with
  | [] => Py.Ok text_result
  | _ :: _ =>
      match visual_context self related_images with
      | [] => Py.Ok text_result
      | context => Py.Ok (add_visual_context text_result context)
      end
  end.

(** The result is the reference it was given; the object behind it may have
    changed. *)
Definition _enhance_text_with_visual_context (self : t) (h : Heap.t)
    (text_result : Heap.ref) (image_results : list DocumentImage.t) : Heap.t :=
  match Heap.read h text_result with
  | Some obj =>
      Heap.write h text_result
                 (Py.try_except (enhance_body self obj image_results) obj)
  | None => h
  end.

(** *** Stages 2 and 3: the caches *)

(** The float [_calculate_text_relevance] returns. *)
Definition relevance (query text : Py.value) : Py.float :=
  Py.float_of_Q (_calculate_text_relevance query text).

(** [relevance > 0.3]. *)
Definition above_threshold (relevance : Py.float) : bool :=
  PrimFloat.ltb 0.3 relevance.

Definition search_state : Type := (list Heap.ref * Heap.t)%type.

(** [results.append(SearchResult(...))]. *)
Definition append_result (x : SearchResult.t) : Block.t search_state :=
  Block.modify (fun st : search_state =>
    let (r, h) := Heap.alloc (snd st) x in ((fst st ++ [r])%list, h)).

Definition str_title (v : Py.value) : Py.exc string :=
  match v with
  | Py.VStr s => Py.Ok (Py.title s)
  | _ => Py.Raise Py.AttributeError
  end.

Definition chart_result (chart_id : string) (analysis : ChartAnalysis.t)
    (relevance : Py.float) : Py.exc SearchResult.t :=
  chart_title <- str_title (ChartAnalysis.chart_type analysis) ;;
  score <- Py.float_mul relevance (ChartAnalysis.confidence analysis) ;;
  Py.Ok (SearchResult.mk
           ("chart_" ++ chart_id)
           (chart_title ++ " Chart")
           (ChartAnalysis.text_content analysis)
           IMAGE
           None
           score
           [("chart_type", ChartAnalysis.chart_type analysis);
            ("data_insights", ChartAnalysis.data_insights analysis);
            ("queryable_facts", Py.VList (ChartAnalysis.queryable_facts analysis))]).

Definition chart_relevance (query : Py.value) (analysis : ChartAnalysis.t)
  : Py.float :=
  relevance query (Py.VStr (ChartAnalysis.text_content analysis)).

Definition search_chart (query : Py.value) (entry : string * ChartAnalysis.t)
  : Block.t search_state :=
  let relevance := chart_relevance query (snd entry) in
  Block.when (above_threshold relevance)
    (Block.eval (chart_result (fst entry) (snd entry) relevance) append_result).

Definition _search_chart_analyses (self : t) (query : Py.value) (h : Heap.t)
  : search_state :=
  fst (Block.for_each (chart_cache self) (search_chart query) ([], h)).

Definition link_result (visual_id : string) (link : VisualTextLink.t)
    (combined_text : string) (relevance : Py.float) : Py.exc SearchResult.t :=
  score <- Py.float_mul relevance (VisualTextLink.confidence link) ;;
  Py.Ok (SearchResult.mk
           ("link_" ++ visual_id)
           ("Visual-Text Link (" ++ Py.str (VisualTextLink.relationship link) ++ ")")
           ("Relationship: " ++ Py.str (VisualTextLink.relationship link) ++ ". "
              ++ Py.take 300 combined_text)
           IMAGE
           None
           score
           [("visual_id", Py.VStr visual_id);
            ("relationship", VisualTextLink.relationship link);
            ("link_confidence", VisualTextLink.confidence link)]).

Definition search_link (query : Py.value) (entry : string * VisualTextLink.t)
  : Block.t search_state :=
  Block.eval (Py.join_value " " (VisualTextLink.text_chunks (snd entry)))
    (fun combined_text =>
       let relevance := relevance query (Py.VStr combined_text) in
       Block.when (above_threshold relevance)
         (Block.eval (link_result (fst entry) (snd entry) combined_text relevance)
                     append_result)).

Definition _search_visual_text_links (self : t) (query : Py.value) (h : Heap.t)
  : search_state :=
  fst (Block.for_each (visual_text_links self) (search_link query) ([], h)).

(** *** Stage 4: ranking *)

Definition set_confidence_score (x : SearchResult.t) (score : Py.float)
  : SearchResult.t :=
  SearchResult.mk (SearchResult.id x) (SearchResult.title x) (SearchResult.content x)
                  (SearchResult.source_type x) (SearchResult.url x) score
                  (SearchResult.metadata x).

Definition ranked_score (result : SearchResult.t) : Py.float :=
  let base_score := SearchResult.confidence_score result in
  let base_score :=
    if Py.dict_has (SearchResult.metadata result) "visual_enhancements"
    then (base_score * 1.2)%float else base_score in
  let base_score :=
    if Py.dict_has (SearchResult.metadata result) "chart_type"
    then (base_score * 1.3)%float else base_score in
  let base_score :=
    if Py.dict_has (SearchResult.metadata result) "relationship"
    then (base_score * 1.1)%float else base_score in
  Py.min base_score 1%float.

Definition rescore (h : Heap.t) (r : Heap.ref) : Heap.t :=
  match Heap.read h r with
  | Some result => Heap.write h r (set_confidence_score result (ranked_score result))
  | None => h
  end.

Definition score_of (h : Heap.t) (r : Heap.ref) : Py.float :=
  match Heap.read h r with
  | Some result => SearchResult.confidence_score result
  | None => 0%float
  end.

(** [key(a) < key(b)] for the key [lambda x: x.confidence_score]. *)
Definition score_lt (h : Heap.t) (a b : Heap.ref) : bool :=
  PrimFloat.ltb (score_of h a) (score_of h b).

Definition _rank_multimodal_results (self : t) (query : Py.value)
    (st : search_state) : search_state :=
  let h := fold_left rescore (fst st) (snd st) in
  (Py.list_sort_reverse (score_lt h) (fst st), h).

(** *** The search *)

(** The argument [text_results]: a list of results; an object that cannot
    be iterated ([None]); or an iterable that yields some results and then
    raises, as a generator that fails part-way does. *)
Inductive results_arg : Type :=
| ArgNone
| ArgList (l : list Heap.ref)
| ArgFailing (yielded : list Heap.ref) (e : Py.exn).

(** What [for result in text_results] visits, and the exception that ends
    the loop, if any. *)
Definition iter_results (a : results_arg) : list Heap.ref * option Py.exn :=
  match a with
  | ArgList l => (l, None)
  | ArgNone => ([], Some Py.TypeError)
  | ArgFailing yielded e => (yielded, Some e)
  end.

(** The body of the [try] of [multi_modal_search], with the store as it is
    when the body ends or raises. *)
Definition multi_modal_search_body (self : t) (query : Py.value)
    (text_results : results_arg) (image_results : list DocumentImage.t)
    (h : Heap.t) : Heap.t * Py.exc (list Heap.ref) :=
  let (refs, failure) := iter_results text_results in
  let h := fold_left (fun h result =>
             _enhance_text_with_visual_context self h result image_results)
           refs h in
  match failure with
  | Some e => (h, Py.Raise e)
  | None =>
      let enhanced_results := refs in
      let (chart_results, h) := _search_chart_analyses self query h in
      let enhanced_results := (enhanced_results ++ chart_results)%list in
      let (link_results, h) := _search_visual_text_links self query h in
      let enhanced_results := (enhanced_results ++ link_results)%list in
      let (ranked_results, h) :=
        _rank_multimodal_results self query (enhanced_results, h) in
      (h, Py.Ok ranked_results)
  end.

Definition multi_modal_search (self : t) (query : Py.value)
    (text_results : results_arg) (image_results : list DocumentImage.t)
    (h : Heap.t) : results_arg * Heap.t :=
  match multi_modal_search_body self query text_results image_results h with
  | (h', Py.Ok ranked_results) => (ArgList ranked_results, h')
  | (h', Py.Raise _) => (text_results, h')
  end.

End MultiModalService.

(* ================================================================== *)
(** * [main.py]: the visual-link listing *)
(* ================================================================== *)

Module Main.

(** The answer to a request: status 200 with the encoded return value of
    the handler; the status and detail of the [HTTPException] the handler
    raised; or the framework's own status 500, when an exception leaves the
    handler. *)
Inductive http (A : Type) : Type :=
| Http200 (body : A)
| HTTPException (status_code : nat) (detail : string)
| InternalServerError.
Arguments Http200 {A} body.
Arguments HTTPException {A} status_code detail.
Arguments InternalServerError {A}.

(** What becomes of the value a handler returns: the framework encodes it
    with [json.dumps(..., allow_nan=False)], outside the handler's [try], so
    a NaN or an infinity in it ends the request with the framework's 500. *)
Definition respond {A : Type} (compliant : A -> bool) (body : A) : http A :=
  if compliant body then Http200 body else InternalServerError.

Record link_view : Type := mk_link_view {
  visual_id : string;
  relationship : Py.value;
  confidence : Py.value;
  text_snippets : Py.value
}.

Record links_page : Type := mk_links_page {
  document_id : string;
  visual_text_links : list link_view;
  total_links : nat
}.

Definition view_compliant (v : link_view) : bool :=
  (Py.json_compliant (relationship v) && Py.json_compliant (confidence v)
   && Py.json_compliant (text_snippets v))%bool.

Definition page_compliant (page : links_page) : bool :=
  forallb view_compliant (visual_text_links page).

Definition matches (document_id : string) (link : VisualTextLink.t) : bool :=
  Py.str_contains document_id (VisualTextLink.visual_id link).

Definition view (link : VisualTextLink.t) : Py.exc link_view :=
  text_snippets <- Py.slice_to 3 (VisualTextLink.text_chunks link) ;;
  Py.Ok (mk_link_view (VisualTextLink.visual_id link)
                      (VisualTextLink.relationship link)
                      (VisualTextLink.confidence link)
                      text_snippets).

Fixpoint document_links (document_id : string) (links : list VisualTextLink.t)
  : Py.exc (list link_view) :=
  match links with
  | [] => Py.Ok []
  | link :: links' =>
      if matches document_id link then
        v <- view link ;;
        rest <- document_links document_id links' ;;
        Py.Ok (v :: rest)
      else document_links document_id links'
  end.

Definition get_visual_text_links (multimodal_service : option MultiModalService.t)
    (document_id : string) : http links_page :=
  match multimodal_service with
  | None => HTTPException 503 "Multi-modal service not initialized"
  | Some service =>
      let links := MultiModalService.visual_text_links service in
      match document_links document_id (Py.values links) with
      | Py.Ok document_links =>
          respond page_compliant
                  (mk_links_page document_id document_links (List.length document_links))
      | Py.Raise _ => HTTPException 500 "Failed to retrieve visual links"
      end
  end.

End Main.

(* ================================================================== *)
(** * Properties *)
(* ================================================================== *)

Import Schemas.
Import MultiModalService.

Local Open Scope Q_scope.

(** ** Replies used in the examples

    [json_dumps v] is a JSON text that [json.loads] reads back as [v], for
    values whose strings need no escaping; [json_reply v] is the remote
    outcome that answers with it. *)

Definition json_quoted (s : string) : string :=
  (String Py.double_quote s ++ String Py.double_quote EmptyString)%string.

Fixpoint json_dumps (v : Py.value) : string :=
  match v with
  | Py.VNone => "null"
  | Py.VBool true => "true"
  | Py.VBool false => "false"
  | Py.VInt z => Py.str_int z
  | Py.VFloat _ r => r
  | Py.VNaN => "NaN"
  | Py.VInf false => "Infinity"
  | Py.VInf true => "-Infinity"
  | Py.VStr s => json_quoted s
  | Py.VList l => "[" ++ Py.join ", " (map json_dumps l) ++ "]"
  | Py.VDict d =>
      "{" ++ Py.join ", "
               (map (fun kv => json_quoted (fst kv) ++ ": " ++ json_dumps (snd kv)) d)
          ++ "}"
  end%string.

Definition json_reply (v : Py.value) : remote :=
  Replies (mk_response (json_dumps v) (Some v)).

(** ** General facts: exceptions, floats, lists *)

Lemma try_except_raises {A : Type} (m : Py.exc A) (d : A) :
  Py.raises m = true -> Py.try_except m d = d.
Proof. destruct m; simpl; [discriminate | reflexivity]. Qed.

Lemma Zpos_of_nat (n : nat) : (1 <= n)%nat -> Z.pos (Pos.of_nat n) = Z.of_nat n.
Proof.
  intros Hn.
  rewrite <- positive_nat_Z, Nat2Pos.id by lia.
  reflexivity.
Qed.

(** ** The order of binary64 numbers *)

Section FloatOrder.

Definition not_nan (x : Py.float) : Prop := PrimFloat.is_nan x = false.

(** A place on the number line for every float but NaN: the sign class,
    then the exponent, then the significand. *)
Definition rank (x : spec_float) : Z * Z * Z :=
  match x with
  | S754_zero _ => (0, 0, 0)
  | S754_infinity negative => (if negative then -2 else 2, 0, 0)
  | S754_nan => (0, 0, 0)
  | S754_finite negative m e =>
      if negative then (-1, - e, - Z.pos m) else (1, e, Z.pos m)
  end%Z.

Definition rank_lt (a b : Z * Z * Z) : Prop :=
  (fst (fst a) < fst (fst b)
   \/ (fst (fst a) = fst (fst b)
       /\ (snd (fst a) < snd (fst b)
           \/ (snd (fst a) = snd (fst b) /\ snd a < snd b))))%Z.

Lemma SFltb_rank (x y : spec_float) :
  x <> S754_nan -> y <> S754_nan ->
  (SFltb x y = true <-> rank_lt (rank x) (rank y)).
Proof.
  intros Hx Hy. unfold SFltb, rank_lt.
  destruct x as [sx|sx| |sx mx ex]; try congruence;
    destruct y as [sy|sy| |sy my ey]; try congruence;
    try destruct sx; try destruct sy; cbn [SFcompare rank fst snd];
    try (split; [discriminate | intros H; exfalso; lia]);
    try (split; [intros _; lia | reflexivity]).
  - change (PosDef.Pos.compare_cont Eq mx my) with (Pos.compare mx my).
    destruct (Z.compare_spec ex ey); [destruct (Pos.compare_spec mx my)| |];
      cbn [CompOpp]; split; try discriminate; try reflexivity; intros; try lia.
  - change (PosDef.Pos.compare_cont Eq mx my) with (Pos.compare mx my).
    destruct (Z.compare_spec ex ey); [destruct (Pos.compare_spec mx my)| |];
      split; try discriminate; try reflexivity; intros; try lia.
Qed.

Lemma SFeqb_rank (x y : spec_float) :
  x <> S754_nan -> y <> S754_nan ->
  (SFeqb x y = true <-> rank x = rank y).
Proof.
  intros Hx Hy. unfold SFeqb.
  destruct x as [sx|sx| |sx mx ex]; try congruence;
    destruct y as [sy|sy| |sy my ey]; try congruence;
    try destruct sx; try destruct sy; cbn [SFcompare rank fst snd];
    try (split; [discriminate | intros H; exfalso; inversion H; lia]);
    try (split; [discriminate | intros H; discriminate]);
    try (split; reflexivity).
  - change (PosDef.Pos.compare_cont Eq mx my) with (Pos.compare mx my).
    destruct (Z.compare_spec ex ey); [destruct (Pos.compare_spec mx my)| |];
      cbn [CompOpp]; split; try discriminate; try reflexivity;
      intros H'; inversion H'; subst; try lia; try f_equal; lia.
  - change (PosDef.Pos.compare_cont Eq mx my) with (Pos.compare mx my).
    destruct (Z.compare_spec ex ey); [destruct (Pos.compare_spec mx my)| |];
      split; try discriminate; try reflexivity;
      intros H'; inversion H'; subst; try lia; try f_equal; lia.
Qed.

Lemma not_nan_spec (x : Py.float) : not_nan x -> Prim2SF x <> S754_nan.
Proof.
  unfold not_nan, PrimFloat.is_nan. rewrite eqb_spec. intros H E.
  rewrite E in H. discriminate.
Qed.

Lemma ltb_rank (x y : Py.float) :
  not_nan x -> not_nan y ->
  (PrimFloat.ltb x y = true <-> rank_lt (rank (Prim2SF x)) (rank (Prim2SF y))).
Proof.
  intros Hx Hy. rewrite ltb_spec. apply SFltb_rank; apply not_nan_spec; assumption.
Qed.

Lemma eqb_rank (x y : Py.float) :
  not_nan x -> not_nan y ->
  (PrimFloat.eqb x y = true <-> rank (Prim2SF x) = rank (Prim2SF y)).
Proof.
  intros Hx Hy. rewrite eqb_spec. apply SFeqb_rank; apply not_nan_spec; assumption.
Qed.

Lemma ltb_false_rank (x y : Py.float) :
  not_nan x -> not_nan y ->
  (PrimFloat.ltb x y = false <-> ~ rank_lt (rank (Prim2SF x)) (rank (Prim2SF y))).
Proof.
  intros Hx Hy. rewrite <- ltb_rank by assumption.
  destruct (PrimFloat.ltb x y); split; congruence.
Qed.

Lemma ltb_asym (x y : Py.float) :
  not_nan x -> not_nan y -> PrimFloat.ltb x y = true -> PrimFloat.ltb y x = false.
Proof.
  intros Hx Hy. rewrite ltb_rank, ltb_false_rank by assumption.
  unfold rank_lt. lia.
Qed.

Lemma ltb_neg_trans (x y z : Py.float) :
  not_nan x -> not_nan y -> not_nan z ->
  PrimFloat.ltb y x = false -> PrimFloat.ltb z y = false -> PrimFloat.ltb z x = false.
Proof.
  intros Hx Hy Hz. rewrite !ltb_false_rank by assumption.
  unfold rank_lt. lia.
Qed.

Lemma SFeqb_refl (x : spec_float) : x <> S754_nan -> SFeqb x x = true.
Proof.
  intros H. apply SFeqb_rank; [exact H | exact H | reflexivity].
Qed.

Lemma spec_not_nan (x : Py.float) : Prim2SF x <> S754_nan -> not_nan x.
Proof.
  intros H. unfold not_nan, PrimFloat.is_nan. rewrite eqb_spec, SFeqb_refl by exact H.
  reflexivity.
Qed.

Lemma eqb_not_nan (x y : Py.float) :
  PrimFloat.eqb x y = true -> not_nan x /\ not_nan y.
Proof.
  rewrite eqb_spec. unfold SFeqb. intros H.
  split; apply spec_not_nan; intros E; rewrite E in H.
  - discriminate.
  - destruct (Prim2SF x); discriminate.
Qed.

(** Of two equal keys neither is below the other. *)
Lemma eqb_not_ltb (x y : Py.float) :
  PrimFloat.eqb x y = true -> PrimFloat.ltb x y = false.
Proof.
  intros H. destruct (eqb_not_nan x y H) as [Hx Hy].
  apply ltb_false_rank; [assumption | assumption |].
  apply eqb_rank in H; [|assumption|assumption]. rewrite H. unfold rank_lt. lia.
Qed.

Lemma ltb_irrefl (x : Py.float) : PrimFloat.ltb x x = false.
Proof.
  destruct (PrimFloat.is_nan x) eqn:E.
  - rewrite ltb_spec. destruct (Prim2SF x) eqn:Ex; try reflexivity;
      assert (H : not_nan x) by (apply spec_not_nan; rewrite Ex; discriminate);
      unfold not_nan in H; congruence.
  - apply ltb_false_rank; [exact E | exact E |]. unfold rank_lt. lia.
Qed.

Lemma SFleb_rank (x y : spec_float) :
  x <> S754_nan -> y <> S754_nan ->
  (SFleb x y = true <-> ~ rank_lt (rank y) (rank x)).
Proof.
  intros Hx Hy. unfold SFleb, rank_lt.
  destruct x as [sx|sx| |sx mx ex]; try congruence;
    destruct y as [sy|sy| |sy my ey]; try congruence;
    try destruct sx; try destruct sy; cbn [SFcompare rank fst snd];
    try (split; [discriminate | intros H; exfalso; lia]);
    try (split; [intros _; lia | reflexivity]).
  - change (PosDef.Pos.compare_cont Eq mx my) with (Pos.compare mx my).
    destruct (Z.compare_spec ex ey); [destruct (Pos.compare_spec mx my)| |];
      cbn [CompOpp]; split; try discriminate; try reflexivity; intros; try lia.
  - change (PosDef.Pos.compare_cont Eq mx my) with (Pos.compare mx my).
    destruct (Z.compare_spec ex ey); [destruct (Pos.compare_spec mx my)| |];
      split; try discriminate; try reflexivity; intros; try lia.
Qed.

Lemma ltb_false_leb (x y : Py.float) :
  not_nan x -> not_nan y ->
  (PrimFloat.ltb x y = false <-> PrimFloat.leb y x = true).
Proof.
  intros Hx Hy. rewrite ltb_false_rank by assumption.
  rewrite leb_spec. symmetry. apply SFleb_rank; apply not_nan_spec; assumption.
Qed.
End FloatOrder.

(** Two duplicate-free lists with the same elements have the same length. *)
Lemma NoDup_same_length {A : Type} (l1 l2 : list A) :
  NoDup l1 -> NoDup l2 -> (forall x, In x l1 <-> In x l2) ->
  List.length l1 = List.length l2.
Proof.
  intros H1 H2 H. apply Permutation_length.
  apply NoDup_Permutation; assumption.
Qed.

(** ** The relevance scorer *)

Section Relevance.

(** The tokens of a text, in the specification's words: lower-case, then
    split on whitespace. *)
Definition tokens (s : string) : list string := Py.split (Py.lower s).

Lemma py_set_NoDup (l : list string) : NoDup (py_set l).
Proof. apply NoDup_nodup. Qed.

Lemma py_set_In (l : list string) (w : string) : In w (py_set l) <-> In w l.
Proof. apply nodup_In. Qed.

Lemma intersection_In (a b : list string) (w : string) :
  In w (intersection a b) <-> In w a /\ In w b.
Proof.
  unfold intersection. rewrite filter_In, existsb_exists.
  split.
  - intros [Ha [x [Hx E]]]. apply String.eqb_eq in E. subst. auto.
  - intros [Ha Hb]. split; [assumption|]. exists w. split; [assumption|].
    apply String.eqb_refl.
Qed.

Lemma intersection_NoDup (a b : list string) : NoDup a -> NoDup (intersection a b).
Proof. apply NoDup_filter. Qed.

Lemma intersection_length (a b : list string) :
  (List.length (intersection a b) <= List.length a)%nat.
Proof. apply filter_length_le. Qed.

Lemma intersection_self (a : list string) : intersection a a = a.
Proof.
  unfold intersection. apply forallb_filter_id.
  apply forallb_forall. intros w Hw. apply existsb_exists.
  exists w. split; [assumption | apply String.eqb_refl].
Qed.

Lemma text_relevance_str (query text : string) :
  _calculate_text_relevance (Py.VStr query) (Py.VStr text) =
  Z.of_nat (List.length (intersection (py_set (tokens query)) (py_set (tokens text))))
  # Pos.of_nat (Nat.max (List.length (py_set (tokens query))) 1).
Proof. reflexivity. Qed.

(** The [try] body raises exactly when an argument is not a string. *)
Lemma text_relevance_body_raises (query text : Py.value) :
  Py.raises (text_relevance_body query text) = true <->
  (forall s, query <> Py.VStr s) \/ (forall s, text <> Py.VStr s).
Proof.
  unfold text_relevance_body.
  destruct query; simpl;
    try (split; [intros _; left; intros s; discriminate | reflexivity]).
  destruct text; simpl;
    try (split; [intros _; right; intros s'; discriminate | reflexivity]).
  split; [discriminate|].
  intros [H | H]; [destruct (H s) | destruct (H s0)]; reflexivity.
Qed.

Lemma text_relevance_bounds (query text : Py.value) :
  0 <= _calculate_text_relevance query text <= 1.
Proof.
  unfold _calculate_text_relevance, text_relevance_body.
  destruct query; simpl; try (split; discriminate).
  destruct text; simpl; try (split; discriminate).
  set (qw := py_set (Py.split (Py.lower s))).
  set (tw := py_set (Py.split (Py.lower s0))).
  pose proof (intersection_length qw tw) as Hle.
  unfold Qle; simpl. rewrite Zpos_of_nat by lia. lia.
Qed.

End Relevance.

(** C3 (as amended).  For all strings [query] and [text], the relevance is
    the number of common tokens over [max(number of query tokens, 1)], where
    a token set is counted by any duplicate-free enumeration of the
    lower-cased, whitespace-split words; it lies in [[0,1]]; it is 0 against
    the empty text; it is 1 for a query against itself as soon as the query
    has at least one token; and when the body fails (an argument is not a
    string) the result is 0.0 and nothing is raised. *)
Theorem relevance_token_overlap :
  forall query text : string,
    (forall qs common : list string,
        NoDup qs -> NoDup common ->
        (forall w, In w qs <-> In w (tokens query)) ->
        (forall w, In w common <-> In w (tokens query) /\ In w (tokens text)) ->
        _calculate_text_relevance (Py.VStr query) (Py.VStr text) ==
        Z.of_nat (List.length common) # Pos.of_nat (Nat.max (List.length qs) 1))
    /\ 0 <= _calculate_text_relevance (Py.VStr query) (Py.VStr text) <= 1
    /\ _calculate_text_relevance (Py.VStr query) (Py.VStr EmptyString) == 0
    /\ (tokens query <> [] ->
        _calculate_text_relevance (Py.VStr query) (Py.VStr query) == 1)
    /\ (forall q t : Py.value,
          Py.raises (text_relevance_body q t) = true ->
          _calculate_text_relevance q t == 0).
Proof.
  intros query text. repeat split.
  - intros qs common Hqs Hcommon Hq Hc.
    rewrite text_relevance_str.
    assert (E1 : List.length (intersection (py_set (tokens query)) (py_set (tokens text)))
                 = List.length common).
    { apply NoDup_same_length; [apply intersection_NoDup, py_set_NoDup | assumption |].
      intros w. rewrite intersection_In, !py_set_In, Hc. reflexivity. }
    assert (E2 : List.length (py_set (tokens query)) = List.length qs).
    { apply NoDup_same_length; [apply py_set_NoDup | assumption |].
      intros w. rewrite py_set_In, Hq. reflexivity. }
    rewrite E1, E2. reflexivity.
  - apply text_relevance_bounds.
  - apply text_relevance_bounds.
  - rewrite text_relevance_str. unfold tokens at 2. simpl.
    assert (E : intersection (py_set (tokens query)) [] = []).
    { unfold intersection. induction (py_set (tokens query)); simpl; auto. }
    rewrite E. reflexivity.
  - intros Hne. rewrite text_relevance_str, intersection_self.
    assert (Hpos : (1 <= List.length (py_set (tokens query)))%nat).
    { destruct (py_set (tokens query)) eqn:E; simpl; [|lia].
      exfalso. destruct (tokens query) as [|w ws] eqn:E'; [congruence|].
      assert (Hin : In w (py_set (w :: ws))) by (apply py_set_In; left; reflexivity).
      rewrite E in Hin. destruct Hin. }
    unfold Qeq; simpl. rewrite Nat.max_l by lia. rewrite Zpos_of_nat by lia. lia.
  - intros q t H. unfold _calculate_text_relevance.
    rewrite try_except_raises by assumption. reflexivity.
Qed.

(** The theorem at the query ["Sales growth"] and the text ["sales up"]:
    one common token out of two. *)
Lemma relevance_token_overlap_witness :
  _calculate_text_relevance (Py.VStr "Sales growth") (Py.VStr "sales up") == 1 # 2
  /\ _calculate_text_relevance (Py.VStr "Sales growth") (Py.VStr "Sales growth") == 1
  /\ _calculate_text_relevance Py.VNone (Py.VStr "sales up") == 0.
Proof.
  destruct (relevance_token_overlap "Sales growth" "sales up")
    as [Hformula [_ [_ [Hself Hfail]]]].
  split; [| split].
  - apply (Hformula ["sales"; "growth"]%string ["sales"]%string).
    + repeat constructor; simpl; intuition discriminate.
    + repeat constructor; simpl; intuition discriminate.
    + intros w; reflexivity.
    + intros w; simpl; intuition (subst; try discriminate; auto).
  - apply Hself. discriminate.
  - apply Hfail. reflexivity.
Defined.

(** C3 as stated fails at the empty query: it has no tokens at all, hence
    no duplicate and no empty token, and its relevance against itself is 0
    because of the guard [max(len(query_words), 1)]. *)
Lemma relevance_self_empty_query :
  NoDup (tokens EmptyString)
  /\ ~ In EmptyString (tokens EmptyString)
  /\ _calculate_text_relevance (Py.VStr EmptyString) (Py.VStr EmptyString) == 0
  /\ ~ _calculate_text_relevance (Py.VStr EmptyString) (Py.VStr EmptyString) == 1.
Proof.
  split; [constructor|]. split; [intros []|]. split; [reflexivity|].
  discriminate.
Qed.

(** ** Fact extraction *)

Section Facts.

Definition field (d : list (string * Py.value)) (k : string) : Py.value :=
  match Py.dict_get d k with
  | Some v => v
  | None => Py.VNone
  end.


Definition statistics (d : list (string * Py.value)) : list (string * Py.value) :=
  match Py.dict_get d "key_statistics" with
  | Some (Py.VDict st) => st
  | _ => []
  end.


(** The facts in the specification's words, part by part. *)
Definition a_type_fact (m : list (string * Py.value)) : list string :=
  if Py.truthy (field m "type") then ["This is a " ++ Py.str (field m "type")] else [].

Definition a_title_fact (m : list (string * Py.value)) : list string :=
  if Py.truthy (field m "title") then ["Chart title: " ++ Py.str (field m "title")]
  else [].








(** A block that ends normally after appending [l]. *)
Definition appends (b : Block.t (list Py.value)) (l : list Py.value) : Prop :=
  forall facts, b facts = ((facts ++ l)%list, None).





Ltac block_unfold :=
  unfold append_fact, Block.eval, Block.when, Block.skip, Block.modify,
    Py.get, Py.getitem, Py.contains, Py.dict_has.

Ltac block_done :=
  cbv beta iota;
  first [ reflexivity | cbn [map]; rewrite app_nil_r; reflexivity ].

Lemma appends_type_fact m :
  appends (type_fact (Py.VDict m)) (map Py.VStr (a_type_fact m)).
Proof.
  intros facts. unfold type_fact, a_type_fact, field. block_unfold.
  destruct (Py.dict_get m "type") as [v|]; cbv beta iota; [|block_done].
  destruct (Py.truthy v); block_done.
Qed.

Lemma appends_title_fact m :
  appends (title_fact (Py.VDict m)) (map Py.VStr (a_title_fact m)).
Proof.
  intros facts. unfold title_fact, a_title_fact, field. block_unfold.
  destruct (Py.dict_get m "title") as [v|]; cbv beta iota; [|block_done].
  destruct (Py.truthy v); block_done.
Qed.











End Facts.



(** ** The chart pipeline *)

Section ChartPipeline.

Definition is_dict (v : Py.value) : bool :=
  match v with
  | Py.VDict _ => true
  | _ => false
  end.

Lemma get_raises (v : Py.value) (k : string) (default : Py.value) :
  Py.raises (Py.get v k default) = negb (is_dict v).
Proof. destruct v; reflexivity. Qed.

(** The [try] body of the pipeline raises exactly when the structure stage
    handed over something that is not a dictionary. *)
Lemma analyze_chart_body_raises (self : t) (w : chart_world) (context : string) :
  Py.raises (analyze_chart_body self w context)
  = negb (is_dict (_identify_chart_structure self (structure_reply w))).
Proof.
  unfold analyze_chart_body.
  destruct (_identify_chart_structure self (structure_reply w)); reflexivity.
Qed.

(** What the pipeline builds when the structure stage gave a dictionary. *)
Definition built_analysis (self : t) (w : chart_world) (context : string)
  : ChartAnalysis.t :=
  let chart_metadata := _identify_chart_structure self (structure_reply w) in
  let data_insights := _extract_chart_data self (data_reply w) chart_metadata in
  let text_content :=
    _generate_chart_text_description self (description_reply w)
                                     chart_metadata data_insights context in
  ChartAnalysis.mk
    (Py.try_except (Py.get chart_metadata "type" (Py.VStr "unknown")) Py.VNone)
    data_insights
    text_content
    (Py.try_except (Py.get chart_metadata "confidence" (Py.VFloat (1 # 2) "0.5")) Py.VNone)
    (_extract_queryable_facts chart_metadata data_insights text_content)
    None.

Lemma analyze_chart_ok (self : t) (w : chart_world) (context : string) :
  is_dict (_identify_chart_structure self (structure_reply w)) = true ->
  analyze_chart_to_text self w context
  = (built_analysis self w context,
     set_chart_cache self
       (Py.dict_set (chart_cache self) (uuid4 w) (built_analysis self w context))).
Proof.
  unfold analyze_chart_to_text, analyze_chart_body, built_analysis.
  destruct (_identify_chart_structure self (structure_reply w));
    try discriminate.
  reflexivity.
Qed.

Lemma identify_no_provider (self : t) (w : remote) :
  provider_of self = NoProvider ->
  _identify_chart_structure self w = unknown_structure.
Proof. unfold _identify_chart_structure. intros ->. reflexivity. Qed.

(** The object the pipeline returns never has an [image_id] attribute. *)
Lemma analyze_chart_image_id (self : t) (w : chart_world) (context : string) :
  ChartAnalysis.image_id (fst (analyze_chart_to_text self w context)) = None.
Proof.
  destruct (is_dict (_identify_chart_structure self (structure_reply w))) eqn:E.
  - rewrite analyze_chart_ok by assumption. reflexivity.
  - unfold analyze_chart_to_text. rewrite try_except_raises; [reflexivity|].
    rewrite analyze_chart_body_raises, E. reflexivity.
Qed.

End ChartPipeline.

(** C1 (as amended).  [analyze_chart_to_text] is total: it never raises.
    When an exception escapes the stages (exactly when the structure stage
    handed over a value that is not a dictionary) it returns the default
    analysis and caches nothing; otherwise it returns the analysis built from
    the stages' values, each stage having replaced its own failure by its own
    fallback, and caches it.  When no model client is configured, the
    analysis has chart type ["unknown"] and confidence [0.0]. *)
Theorem analyze_chart_degrades :
  forall (self : t) (w : chart_world) (context : string),
    (Py.raises (analyze_chart_body self w context) = true ->
     analyze_chart_to_text self w context = (default_analysis, self))
    /\ (Py.raises (analyze_chart_body self w context) = true <->
        is_dict (_identify_chart_structure self (structure_reply w)) = false)
    /\ (Py.raises (analyze_chart_body self w context) = false ->
        analyze_chart_to_text self w context
        = (built_analysis self w context,
           set_chart_cache self
             (Py.dict_set (chart_cache self) (uuid4 w)
                          (built_analysis self w context))))
    /\ (provider_of self = NoProvider ->
        ChartAnalysis.chart_type (fst (analyze_chart_to_text self w context))
          = Py.VStr "unknown"
        /\ ChartAnalysis.confidence (fst (analyze_chart_to_text self w context))
          = Py.VFloat 0 "0.0").
Proof.
  intros self w context.
  split; [| split; [| split; [| intros H; split]]].
  - intros H. unfold analyze_chart_to_text. apply try_except_raises. assumption.
  - rewrite analyze_chart_body_raises. apply negb_true_iff.
  - rewrite analyze_chart_body_raises. intros H. apply negb_false_iff in H.
    apply analyze_chart_ok. assumption.
  - pose proof (identify_no_provider self (structure_reply w) H) as E.
    rewrite analyze_chart_ok by (rewrite E; reflexivity).
    unfold built_analysis. cbn [fst ChartAnalysis.chart_type].
    rewrite E. reflexivity.
  - pose proof (identify_no_provider self (structure_reply w) H) as E.
    rewrite analyze_chart_ok by (rewrite E; reflexivity).
    unfold built_analysis. cbn [fst ChartAnalysis.confidence].
    rewrite E. reflexivity.
Qed.

(** The theorem at three runs.  With the Gemini client, a structure reply
    that parses to the list [[1]] makes the body raise, so the default
    analysis comes back and nothing is cached.  With the Gemini client
    again, statistics whose [highest] entry is the number 5 make the
    description stage fail: its fallback text is used, and the analysis is
    built and cached all the same.  Without any client the analysis is of
    type ["unknown"] with confidence [0.0]. *)
Lemma analyze_chart_degrades_witness :
  let gemini := __init__ "gemini" true false in
  let statistics := Py.VDict [("key_statistics", Py.VDict [("highest", Py.VInt 5)])] in
  let analysis :=
    ChartAnalysis.mk (Py.VStr "bar") statistics "Chart description generation failed"
                     (Py.VFloat (1 # 2) "0.5") [Py.VStr "This is a bar"] None in
  analyze_chart_to_text
    gemini
    (mk_chart_world (json_reply (Py.VList [Py.VInt 1])) Fails Fails "7b0c")
    "Sales data"
  = (default_analysis, gemini)
  /\ analyze_chart_to_text
       gemini
       (mk_chart_world (json_reply (Py.VDict [("type", Py.VStr "bar")]))
                       (json_reply statistics)
                       (Replies (plain "A bar chart"))
                       "7b0c")
       "Sales data"
     = (analysis, set_chart_cache gemini [("7b0c", analysis)])
  /\ ChartAnalysis.chart_type
       (fst (analyze_chart_to_text (__init__ "claude" false false)
                                   (mk_chart_world Fails Fails Fails "7b0c")
                                   "Sales data"))
     = Py.VStr "unknown".
Proof.
  cbv zeta. split; [| split].
  - apply (analyze_chart_degrades
             (__init__ "gemini" true false)
             (mk_chart_world (json_reply (Py.VList [Py.VInt 1])) Fails Fails "7b0c")
             "Sales data").
    reflexivity.
  - apply (proj1 (proj2 (proj2 (analyze_chart_degrades
             (__init__ "gemini" true false)
             (mk_chart_world
                (json_reply (Py.VDict [("type", Py.VStr "bar")]))
                (json_reply
                   (Py.VDict [("key_statistics", Py.VDict [("highest", Py.VInt 5)])]))
                (Replies (plain "A bar chart"))
                "7b0c")
             "Sales data")))).
    reflexivity.
  - apply (analyze_chart_degrades
             (__init__ "claude" false false)
             (mk_chart_world Fails Fails Fails "7b0c")
             "Sales data").
    reflexivity.
Defined.

(** C1 as stated fails when the Gemini client is configured and every remote
    call raises: the helper turns the failure into the text ["Analysis
    failed"], which the structure stage reads as a reply that is not JSON.
    The analysis is then neither the default one nor of type ["unknown"]
    with confidence [0.0]. *)
Lemma analyze_chart_remote_failure :
  let result :=
    fst (analyze_chart_to_text (__init__ "gemini" true false)
                               (mk_chart_world Fails Fails Fails "7b0c")
                               "Sales data") in
  ChartAnalysis.chart_type result = Py.VStr "chart"
  /\ ChartAnalysis.confidence result = Py.VFloat (3 # 10) "0.3"
  /\ ChartAnalysis.text_content result = "Analysis failed"
  /\ result <> default_analysis.
Proof.
  cbv zeta. repeat split. discriminate.
Qed.

(** ** Cached analyses and image identifiers *)

Section ImageId.

(** The states of the service: a fresh one, and what the operations that
    write to [self] make of a state. *)
Inductive reachable : t -> Prop :=
| reachable_init (ai_provider : string) (genai_client claude_client : bool) :
    reachable (__init__ ai_provider genai_client claude_client)
| reachable_analyze (self : t) (w : chart_world) (context : string) :
    reachable self ->
    reachable (snd (analyze_chart_to_text self w context))
| reachable_link (self : t) (oracle : nat -> remote)
    (images : list DocumentImage.t) (text_chunks : list DocumentChunk.t) :
    reachable self ->
    reachable (snd (create_visual_text_links self oracle images text_chunks)).

Definition no_image_id (cache : list (string * ChartAnalysis.t)) : Prop :=
  Forall (fun entry => ChartAnalysis.image_id (snd entry) = None) cache.

Lemma dict_set_Forall {V : Type} (P : string * V -> Prop)
    (d : list (string * V)) (k : string) (v : V) :
  Forall P d -> P (k, v) -> Forall P (Py.dict_set d k v).
Proof.
  intros Hd Hv. induction Hd as [|[k' v'] d Hx Hd IH]; simpl.
  - constructor; [assumption | constructor].
  - destruct (String.eqb k k'); constructor; assumption.
Qed.

Lemma create_links_chart_cache (self : t) (oracle : nat -> remote)
    (images : list DocumentImage.t) (text_chunks : list DocumentChunk.t) :
  chart_cache (snd (create_visual_text_links self oracle images text_chunks))
  = chart_cache self.
Proof.
  unfold create_visual_text_links.
  destruct (link_images self text_chunks images oracle 0 ([], visual_text_links self))
    as [[links cache] [e|]]; reflexivity.
Qed.

Lemma analyze_chart_cache (self : t) (w : chart_world) (context : string) :
  no_image_id (chart_cache self) ->
  no_image_id (chart_cache (snd (analyze_chart_to_text self w context))).
Proof.
  intros H.
  destruct (is_dict (_identify_chart_structure self (structure_reply w))) eqn:E.
  - rewrite analyze_chart_ok by assumption. simpl.
    apply dict_set_Forall; [assumption | reflexivity].
  - unfold analyze_chart_to_text. rewrite try_except_raises; [assumption|].
    rewrite analyze_chart_body_raises, E. reflexivity.
Qed.

Lemma reachable_no_image_id (self : t) :
  reachable self -> no_image_id (chart_cache self).
Proof.
  induction 1.
  - constructor.
  - apply analyze_chart_cache. assumption.
  - rewrite create_links_chart_cache. assumption.
Qed.

Lemma no_image_id_lookup (self : t) (image_id : string) :
  no_image_id (chart_cache self) ->
  _get_chart_analysis_by_image_id self image_id = None.
Proof.
  unfold _get_chart_analysis_by_image_id, no_image_id, Py.values.
  induction 1 as [|[k a] cache Ha _ IH]; simpl; [reflexivity|].
  simpl in Ha. rewrite Ha. assumption.
Qed.

(** The fragment an image contributes from its own description. *)
Definition description_fragment (img : DocumentImage.t) : list string :=
  match DocumentImage.description img with
  | Some d => if String.eqb d EmptyString then [] else ["Related image: " ++ d]
  | None => []
  end.

Lemma no_image_id_context (self : t) (img : DocumentImage.t) :
  no_image_id (chart_cache self) ->
  image_context self img = description_fragment img.
Proof.
  intros H. unfold image_context, description_fragment.
  rewrite no_image_id_lookup by assumption.
  destruct (is_chart_like (DocumentImage.image_type img)); apply app_nil_r.
Qed.

End ImageId.

(** C10.  An analysis made by [analyze_chart_to_text] has no [image_id]
    attribute; so in every state the service can reach,
    [_get_chart_analysis_by_image_id] finds nothing, whatever the image
    identifier, and the visual context of a text result consists of the
    ["Related image: ..."] fragments only: no ["Chart data: ..."] fragment is
    ever appended, and the enrichment does not depend on the chart cache. *)
Theorem cached_analysis_never_found :
  forall self : t,
    reachable self ->
    (forall (w : chart_world) (context : string),
        ChartAnalysis.image_id (fst (analyze_chart_to_text self w context)) = None)
    /\ (forall image_id : string,
          _get_chart_analysis_by_image_id self image_id = None)
    /\ (forall related_images : list DocumentImage.t,
          visual_context self related_images
          = flat_map description_fragment (firstn 3 related_images))
    /\ (forall (h : Heap.t) (text_result : Heap.ref)
               (image_results : list DocumentImage.t),
          _enhance_text_with_visual_context self h text_result image_results
          = _enhance_text_with_visual_context (set_chart_cache self []) h
                                              text_result image_results).
Proof.
  intros self Hr. pose proof (reachable_no_image_id self Hr) as Hn.
  assert (Hctx : forall l, visual_context self l
                           = flat_map description_fragment (firstn 3 l)).
  { intros l. unfold visual_context. apply flat_map_ext.
    intros img. apply no_image_id_context. assumption. }
  assert (Hctx0 : forall l, visual_context (set_chart_cache self []) l
                            = flat_map description_fragment (firstn 3 l)).
  { intros l. unfold visual_context. apply flat_map_ext.
    intros img. apply no_image_id_context. constructor. }
  repeat split.
  - intros w context. apply analyze_chart_image_id.
  - intros image_id. apply no_image_id_lookup. assumption.
  - exact Hctx.
  - intros h text_result image_results.
    unfold _enhance_text_with_visual_context, enhance_body.
    destruct (Heap.read h text_result) as [obj|]; [|reflexivity].
    destruct (filter_exc (same_document_near_page obj) image_results)
      as [related|e]; [|reflexivity].
    simpl. rewrite Hctx, Hctx0. reflexivity.
Qed.

(** The theorem at a service that has analysed one chart: the chart image
    [img_1] of document [doc_1] adds its description to a text result of the
    same page, and no chart data. *)
Lemma cached_analysis_never_found_witness :
  let self :=
    snd (analyze_chart_to_text
           (__init__ "gemini" true false)
           (mk_chart_world
              (json_reply (Py.VDict [("type", Py.VStr "bar_chart")]))
              Fails
              (Replies (plain "Quarterly sales by region"))
              "img_1")
           "Sales data") in
  let img :=
    DocumentImage.mk "img_1" "doc_1" 1 "chart" (Some "Sales chart") None [] in
  List.length (chart_cache self) = 1%nat
  /\ _get_chart_analysis_by_image_id self "img_1" = None
  /\ visual_context self [img] = ["Related image: Sales chart"].
Proof.
  cbv zeta. split; [reflexivity|].
  pose proof (cached_analysis_never_found
    (snd (analyze_chart_to_text
           (__init__ "gemini" true false)
           (mk_chart_world
              (json_reply (Py.VDict [("type", Py.VStr "bar_chart")]))
              Fails
              (Replies (plain "Quarterly sales by region"))
              "img_1")
           "Sales data"))
    (reachable_analyze _ _ _ (reachable_init "gemini" true false)))
    as [_ [Hfind [Hctx _]]].
  split; [apply Hfind | rewrite Hctx; reflexivity].
Defined.

(** ** Blocks and invariants *)

Section BlockInvariants.

Context {S : Type}.

(** [b] keeps [I], whether it ends normally or raises. *)
Definition preserves (I : S -> Prop) (b : Block.t S) : Prop :=
  forall s, I s -> I (fst (b s)).

Lemma preserves_skip (I : S -> Prop) : preserves I Block.skip.
Proof. intros s H. exact H. Qed.

Lemma preserves_modify (I : S -> Prop) (f : S -> S) :
  (forall s, I s -> I (f s)) -> preserves I (Block.modify f).
Proof. intros H s Hs. apply H. exact Hs. Qed.

Lemma preserves_seq (I : S -> Prop) (b1 b2 : Block.t S) :
  preserves I b1 -> preserves I b2 -> preserves I (b1 ;;; b2).
Proof.
  intros H1 H2 s Hs. unfold Block.seq.
  specialize (H1 s Hs). destruct (b1 s) as [s' [e|]]; simpl in *.
  - exact H1.
  - apply H2. exact H1.
Qed.

Lemma preserves_eval {A : Type} (I : S -> Prop) (m : Py.exc A) (k : A -> Block.t S) :
  (forall a, m = Py.Ok a -> preserves I (k a)) -> preserves I (Block.eval m k).
Proof.
  intros H s Hs. unfold Block.eval. destruct m as [a|e]; simpl.
  - apply (H a eq_refl). exact Hs.
  - exact Hs.
Qed.

Lemma preserves_when (I : S -> Prop) (c : bool) (b : Block.t S) :
  (c = true -> preserves I b) -> preserves I (Block.when c b).
Proof.
  intros H. destruct c; simpl; [apply H; reflexivity | apply preserves_skip].
Qed.

Lemma preserves_for_each {A : Type} (I : S -> Prop) (l : list A)
    (body : A -> Block.t S) :
  (forall x, In x l -> preserves I (body x)) -> preserves I (Block.for_each l body).
Proof.
  induction l as [|x l IH]; intros H; simpl.
  - apply preserves_skip.
  - apply preserves_seq; [apply H; left; reflexivity|].
    apply IH. intros y Hy. apply H. right. exact Hy.
Qed.

End BlockInvariants.

(** ** Dictionaries *)

Section Dictionaries.

Context {V : Type}.

Lemma dict_get_set_same (d : list (string * V)) (k : string) (v : V) :
  Py.dict_get (Py.dict_set d k v) k = Some v.
Proof.
  induction d as [|[k' v'] d IH]; simpl.
  - rewrite String.eqb_refl. reflexivity.
  - destruct (String.eqb k k') eqn:E; simpl.
    + rewrite String.eqb_refl. reflexivity.
    + rewrite E. exact IH.
Qed.

Lemma dict_get_set_other (d : list (string * V)) (k k' : string) (v : V) :
  k' <> k -> Py.dict_get (Py.dict_set d k v) k' = Py.dict_get d k'.
Proof.
  intros Hne. induction d as [|[k0 v0] d IH]; simpl.
  - apply String.eqb_neq in Hne. rewrite Hne. reflexivity.
  - destruct (String.eqb k k0) eqn:E; simpl.
    + apply String.eqb_eq in E. subst k0.
      apply String.eqb_neq in Hne. rewrite Hne. reflexivity.
    + rewrite IH. reflexivity.
Qed.

Lemma keys_dict_set_In (d : list (string * V)) (k k' : string) (v : V) :
  In k' (Py.keys (Py.dict_set d k v)) <-> k' = k \/ In k' (Py.keys d).
Proof.
  unfold Py.keys. induction d as [|[k0 v0] d IH]; simpl.
  - intuition.
  - destruct (String.eqb k k0) eqn:E; simpl.
    + apply String.eqb_eq in E. subst k0. intuition.
    + rewrite IH. intuition.
Qed.

Lemma keys_dict_set_NoDup (d : list (string * V)) (k : string) (v : V) :
  NoDup (Py.keys d) -> NoDup (Py.keys (Py.dict_set d k v)).
Proof.
  unfold Py.keys. induction d as [|[k0 v0] d IH]; simpl; intros H.
  - constructor; [intros [] | constructor].
  - inversion H as [|? ? Hnotin Hd]; subst.
    destruct (String.eqb k k0) eqn:E; simpl.
    + apply String.eqb_eq in E. subst k0. constructor; assumption.
    + constructor; [|apply IH; assumption].
      intros Hin. apply (keys_dict_set_In d k k0 v) in Hin.
      destruct Hin as [-> | Hin]; [|contradiction].
      rewrite String.eqb_refl in E. discriminate.
Qed.

(** Under distinct keys, a key has at most one entry. *)
Lemma NoDup_keys_one_entry (d : list (string * V)) (k : string) :
  NoDup (Py.keys d) ->
  (List.length (filter (fun entry => String.eqb (fst entry) k) d) <= 1)%nat.
Proof.
  unfold Py.keys. induction d as [|[k0 v0] d IH]; simpl; intros H; [lia|].
  inversion H as [|? ? Hnotin Hd]; subst.
  destruct (String.eqb k0 k) eqn:E; simpl; [|apply IH; assumption].
  apply String.eqb_eq in E. subst k0.
  assert (E : filter (fun entry : string * V => String.eqb (fst entry) k) d = []).
  { clear -Hnotin. induction d as [|[k1 v1] d IH]; simpl; [reflexivity|].
    simpl in Hnotin. destruct (String.eqb k1 k) eqn:E.
    - apply String.eqb_eq in E. subst. exfalso. apply Hnotin. left. reflexivity.
    - apply IH. intros Hin. apply Hnotin. right. exact Hin. }
  rewrite E. simpl. lia.
Qed.

End Dictionaries.

Lemma In_dict_get {V : Type} (d : list (string * V)) (k : string) (v : V) :
  NoDup (Py.keys d) -> In (k, v) d -> Py.dict_get d k = Some v.
Proof.
  unfold Py.keys. induction d as [|[k0 v0] d IH]; simpl; intros H Hin; [destruct Hin|].
  inversion H as [|? ? Hnotin Hd]; subst.
  destruct Hin as [E | Hin].
  - inversion E; subst. rewrite String.eqb_refl. reflexivity.
  - destruct (String.eqb k k0) eqn:E; [|apply IH; assumption].
    apply String.eqb_eq in E. subst k0. exfalso. apply Hnotin.
    change k with (fst (k, v)). apply in_map. exact Hin.
Qed.

(** ** The visual-text linker *)

Section Linker.

Variable self : t.
Variable text_chunks : list DocumentChunk.t.

(** The images of a pass that have at least one candidate chunk. *)
Definition linked (images : list DocumentImage.t) (visual_id : string) : Prop :=
  exists image, In image images
                /\ DocumentImage.id image = visual_id
                /\ related_chunks image text_chunks <> [].

(** From [s0] to [s], links were only added, all of them for identifiers in
    [P], and only the cache entries of identifiers in [P] were written. *)
Definition grows_within (P : string -> Prop) (s0 s : link_state) : Prop :=
  (exists added, fst s = (fst s0 ++ added)%list
                 /\ Forall (fun link => P (VisualTextLink.visual_id link)) added)
  /\ (forall k, ~ P k -> Py.dict_get (snd s) k = Py.dict_get (snd s0) k).

Lemma grows_within_refl (P : string -> Prop) (s0 : link_state) : grows_within P s0 s0.
Proof.
  split; [exists []; split; [symmetry; apply app_nil_r | constructor] | reflexivity].
Qed.

Lemma add_link_grows (P : string -> Prop) (s0 : link_state) (link : VisualTextLink.t) :
  P (VisualTextLink.visual_id link) -> preserves (grows_within P s0) (add_link link).
Proof.
  intros HP. apply preserves_modify. intros s [[added [E Hadded]] Hcache].
  split; simpl.
  - exists (added ++ [link])%list. split.
    + rewrite E, app_assoc. reflexivity.
    + apply Forall_app. split; [assumption | constructor; [assumption | constructor]].
  - intros k Hk. rewrite dict_get_set_other; [apply Hcache; assumption|].
    intros ->. contradiction.
Qed.

Lemma link_relationship_grows (P : string -> Prop) (s0 : link_state)
    (image : DocumentImage.t) (relationship : Py.value) :
  P (DocumentImage.id image) ->
  preserves (grows_within P s0) (link_relationship image relationship).
Proof.
  intros HP. unfold link_relationship.
  apply preserves_eval; intros a _.
  apply preserves_eval; intros b _.
  apply preserves_eval; intros c _.
  apply add_link_grows. exact HP.
Qed.

Lemma link_image_skips (image : DocumentImage.t) (w : remote) (st : link_state) :
  related_chunks image text_chunks = [] ->
  link_image self text_chunks image w st = (st, None).
Proof. unfold link_image. intros ->. reflexivity. Qed.

Lemma link_image_grows (P : string -> Prop) (s0 : link_state)
    (image : DocumentImage.t) (w : remote) :
  (related_chunks image text_chunks <> [] -> P (DocumentImage.id image)) ->
  preserves (grows_within P s0) (link_image self text_chunks image w).
Proof.
  intros HP. unfold link_image.
  destruct (related_chunks image text_chunks) as [|c related] eqn:E.
  - apply preserves_skip.
  - apply preserves_eval; intros items _.
    apply preserves_for_each. intros relationship _.
    apply link_relationship_grows. apply HP. discriminate.
Qed.

Lemma link_images_grows (P : string -> Prop) (s0 : link_state)
    (images : list DocumentImage.t) (oracle : nat -> remote) (i : nat) :
  (forall k, linked images k -> P k) ->
  preserves (grows_within P s0) (link_images self text_chunks images oracle i).
Proof.
  revert i. induction images as [|image images IH]; intros i HP; simpl.
  - apply preserves_skip.
  - apply preserves_seq.
    + apply link_image_grows. intros Hne. apply HP.
      exists image. split; [left; reflexivity | split; [reflexivity | exact Hne]].
    + apply IH. intros k [img [Hin H]]. apply HP.
      exists img. split; [right; exact Hin | exact H].
Qed.

(** The cache invariant: distinct keys, each entry filed under the
    identifier of its link. *)
Definition one_link_per_visual (cache : list (string * VisualTextLink.t)) : Prop :=
  NoDup (Py.keys cache)
  /\ Forall (fun entry => fst entry = VisualTextLink.visual_id (snd entry)) cache.

Lemma add_link_one_per_visual (link : VisualTextLink.t) :
  preserves (fun st : link_state => one_link_per_visual (snd st)) (add_link link).
Proof.
  apply preserves_modify. intros s [Hkeys Hfiled]. split; simpl.
  - apply keys_dict_set_NoDup. exact Hkeys.
  - apply dict_set_Forall; [exact Hfiled | reflexivity].
Qed.

Lemma link_images_one_per_visual (images : list DocumentImage.t)
    (oracle : nat -> remote) (i : nat) :
  preserves (fun st : link_state => one_link_per_visual (snd st))
            (link_images self text_chunks images oracle i).
Proof.
  revert i. induction images as [|image images IH]; intros i; simpl.
  - apply preserves_skip.
  - apply preserves_seq; [|apply IH].
    unfold link_image. destruct (related_chunks image text_chunks).
    + apply preserves_skip.
    + apply preserves_eval; intros items _.
      apply preserves_for_each. intros relationship _. unfold link_relationship.
      apply preserves_eval; intros a _.
      apply preserves_eval; intros b _.
      apply preserves_eval; intros c _.
      apply add_link_one_per_visual.
Qed.

(** What [create_visual_text_links] returns, in terms of the loop. *)
Lemma create_links_cache (oracle : nat -> remote) (images : list DocumentImage.t) :
  visual_text_links (snd (create_visual_text_links self oracle images text_chunks))
  = snd (fst (link_images self text_chunks images oracle 0
                          ([], visual_text_links self))).
Proof.
  unfold create_visual_text_links.
  destruct (link_images self text_chunks images oracle 0 ([], visual_text_links self))
    as [[links cache] [e|]]; reflexivity.
Qed.

Lemma create_links_links (oracle : nat -> remote) (images : list DocumentImage.t)
    (link : VisualTextLink.t) :
  In link (fst (create_visual_text_links self oracle images text_chunks)) ->
  In link (fst (fst (link_images self text_chunks images oracle 0
                                 ([], visual_text_links self)))).
Proof.
  unfold create_visual_text_links.
  destruct (link_images self text_chunks images oracle 0 ([], visual_text_links self))
    as [[links cache] [e|]]; simpl; [intros [] | auto].
Qed.

End Linker.

(** ** The linking pass as a function

    What the loop of [create_visual_text_links] does, told without its
    state: the links each image contributes, in order, up to the first
    relationship that cannot be made into a link. *)

Section LinkerPass.

Variable self : t.
Variable text_chunks : list DocumentChunk.t.

(** A chunk whose page is at most one page away from the image's. *)
Definition within_one_page (image : DocumentImage.t) (chunk : DocumentChunk.t) : bool :=
  (Z.abs (DocumentChunk.page_number chunk - DocumentImage.page_number image) <=? 1)%Z.

(** The link a relationship gives for an image. *)
Definition link_of (image : DocumentImage.t) (relationship : Py.value)
  : Py.exc VisualTextLink.t :=
  snippets <- Py.getitem relationship "text_chunks" ;;
  kind <- Py.getitem relationship "relationship" ;;
  confidence <- Py.getitem relationship "confidence" ;;
  Py.Ok (VisualTextLink.mk (DocumentImage.id image) snippets kind confidence).

(** The links of the relationships before the first one that gives none,
    and the exception this one raises. *)
Fixpoint links_until_failure (image : DocumentImage.t) (relationships : list Py.value)
  : list VisualTextLink.t * option Py.exn :=
  match relationships with
  | [] => ([], None)
  | relationship :: relationships' =>
      match link_of image relationship with
      | Py.Ok link =>
          let (links, failure) := links_until_failure image relationships' in
          (link :: links, failure)
      | Py.Raise e => ([], Some e)
      end
  end.

(** What one image contributes: nothing when no chunk is within one page of
    it; otherwise the links of the relationships the analysis finds between
    the image and the chunks within one page of it. *)
Definition image_pass (image : DocumentImage.t) (w : remote)
  : list VisualTextLink.t * option Py.exn :=
  match filter (within_one_page image) text_chunks with
  | [] => ([], None)
  | candidates =>
      match Py.iter (_analyze_visual_text_relationships self w image candidates) with
      | Py.Ok relationships => links_until_failure image relationships
      | Py.Raise e => ([], Some e)
      end
  end.

Fixpoint pass (images : list DocumentImage.t) (oracle : nat -> remote) (i : nat)
  : list VisualTextLink.t * option Py.exn :=
  match images with
  | [] => ([], None)
  | image :: images' =>
      match image_pass image (oracle i) with
      | (links, None) =>
          let (links', failure) := pass images' oracle (S i) in
          ((links ++ links')%list, failure)
      | (links, Some e) => (links, Some e)
      end
  end.

(** The cache after the links were stored one by one. *)
Definition store_links (cache : list (string * VisualTextLink.t))
    (links : list VisualTextLink.t) : list (string * VisualTextLink.t) :=
  fold_left (fun c link => Py.dict_set c (VisualTextLink.visual_id link) link)
            links cache.

Lemma store_links_app (cache : list (string * VisualTextLink.t))
    (l1 l2 : list VisualTextLink.t) :
  store_links cache (l1 ++ l2) = store_links (store_links cache l1) l2.
Proof. apply fold_left_app. Qed.

(** The state after [links] were made from the state [st]. *)
Definition made (st : link_state) (links : list VisualTextLink.t) : link_state :=
  ((fst st ++ links)%list, store_links (snd st) links).

Lemma made_nil (st : link_state) : made st [] = st.
Proof. destruct st. unfold made. simpl. rewrite app_nil_r. reflexivity. Qed.

Lemma made_app (st : link_state) (l1 l2 : list VisualTextLink.t) :
  made (made st l1) l2 = made st (l1 ++ l2).
Proof.
  unfold made. cbn [fst snd]. rewrite store_links_app, app_assoc. reflexivity.
Qed.

Lemma link_relationship_link_of (image : DocumentImage.t) (relationship : Py.value)
    (st : link_state) :
  link_relationship image relationship st
  = match link_of image relationship with
    | Py.Ok link => (made st [link], None)
    | Py.Raise e => (st, Some e)
    end.
Proof.
  unfold link_relationship, link_of, Block.eval.
  destruct (Py.getitem relationship "text_chunks"); cbn [Py.bind]; [|reflexivity].
  destruct (Py.getitem relationship "relationship"); cbn [Py.bind]; [|reflexivity].
  destruct (Py.getitem relationship "confidence"); cbn [Py.bind]; reflexivity.
Qed.

Lemma relationships_pass (image : DocumentImage.t) (relationships : list Py.value)
    (st : link_state) :
  Block.for_each relationships (link_relationship image) st
  = (made st (fst (links_until_failure image relationships)),
     snd (links_until_failure image relationships)).
Proof.
  revert st. induction relationships as [|relationship relationships IH]; intros st.
  - cbn. rewrite made_nil. reflexivity.
  - cbn [Block.for_each links_until_failure]. unfold Block.seq.
    rewrite link_relationship_link_of.
    destruct (link_of image relationship) as [link|e].
    + rewrite IH.
      destruct (links_until_failure image relationships) as [links failure].
      cbn [fst snd]. rewrite made_app. reflexivity.
    + cbn [fst snd]. rewrite made_nil. reflexivity.
Qed.

Lemma link_image_pass (image : DocumentImage.t) (w : remote) (st : link_state) :
  link_image self text_chunks image w st
  = (made st (fst (image_pass image w)), snd (image_pass image w)).
Proof.
  unfold link_image, image_pass, related_chunks, near_page.
  change (fun chunk : DocumentChunk.t =>
            (Z.abs (DocumentChunk.page_number chunk - DocumentImage.page_number image)
             <=? 1)%Z)
    with (within_one_page image).
  destruct (filter (within_one_page image) text_chunks) as [|c candidates].
  - cbn. rewrite made_nil. reflexivity.
  - unfold Block.eval.
    destruct (Py.iter (_analyze_visual_text_relationships self w image (c :: candidates)))
      as [relationships|e].
    + apply relationships_pass.
    + cbn [fst snd]. rewrite made_nil. reflexivity.
Qed.

Lemma link_images_pass (images : list DocumentImage.t) (oracle : nat -> remote)
    (i : nat) (st : link_state) :
  link_images self text_chunks images oracle i st
  = (made st (fst (pass images oracle i)), snd (pass images oracle i)).
Proof.
  revert i st. induction images as [|image images IH]; intros i st.
  - cbn. rewrite made_nil. reflexivity.
  - cbn [link_images pass]. unfold Block.seq. rewrite link_image_pass.
    destruct (image_pass image (oracle i)) as [links [e|]]; cbn [fst snd];
      [reflexivity|].
    rewrite IH. destruct (pass images oracle (S i)) as [links' failure].
    cbn [fst snd]. rewrite made_app. reflexivity.
Qed.

(** The whole function: the list of links is lost when the pass fails, the
    cache keeps what was stored. *)
Lemma create_links_pass (images : list DocumentImage.t) (oracle : nat -> remote) :
  create_visual_text_links self oracle images text_chunks
  = (match snd (pass images oracle 0) with
     | None => fst (pass images oracle 0)
     | Some _ => []
     end,
     set_visual_text_links
       self (store_links (visual_text_links self) (fst (pass images oracle 0)))).
Proof.
  unfold create_visual_text_links. rewrite link_images_pass.
  destruct (pass images oracle 0) as [links [e|]]; reflexivity.
Qed.

End LinkerPass.

(** C7.  The candidate chunks of an image are exactly the chunks whose page
    is at most one page away from the image's, in their order; an image on
    page 5 with chunks on pages 3, 4, 6 and 7 keeps the chunks of pages 4
    and 6.  The loop hands exactly these chunks to the relationship
    analysis: the function returns, image after image, the links of the
    relationships found between the image and the chunks within one page of
    it, and stores them; chunks further away change nothing.  An image
    without candidates is skipped: its turn of the loop changes neither the
    links nor the cache, every link returned belongs to an image that has
    candidates, and the cache entry of an identifier none of whose images
    has candidates is left as it was. *)
Theorem link_candidates_within_one_page :
  forall (self : t) (oracle : nat -> remote)
         (images : list DocumentImage.t) (text_chunks : list DocumentChunk.t),
    (forall image chunk,
        In chunk (related_chunks image text_chunks) <->
        In chunk text_chunks
        /\ (Z.abs (DocumentChunk.page_number chunk - DocumentImage.page_number image)
            <= 1)%Z)
    /\ (forall image c3 c4 c6 c7,
          DocumentImage.page_number image = 5%Z ->
          DocumentChunk.page_number c3 = 3%Z -> DocumentChunk.page_number c4 = 4%Z ->
          DocumentChunk.page_number c6 = 6%Z -> DocumentChunk.page_number c7 = 7%Z ->
          related_chunks image [c3; c4; c6; c7] = [c4; c6])
    /\ (let made := pass self text_chunks images oracle 0 in
        create_visual_text_links self oracle images text_chunks
        = (match snd made with None => fst made | Some _ => [] end,
           set_visual_text_links
             self (store_links (visual_text_links self) (fst made))))
    /\ (forall further,
          (forall image chunk, In image images -> In chunk further ->
                               within_one_page image chunk = false) ->
          create_visual_text_links self oracle images (text_chunks ++ further)
          = create_visual_text_links self oracle images text_chunks)
    /\ (forall image w st,
          related_chunks image text_chunks = [] ->
          link_image self text_chunks image w st = (st, None))
    /\ (forall link,
          In link (fst (create_visual_text_links self oracle images text_chunks)) ->
          linked text_chunks images (VisualTextLink.visual_id link))
    /\ (forall visual_id,
          ~ linked text_chunks images visual_id ->
          Py.dict_get
            (visual_text_links
               (snd (create_visual_text_links self oracle images text_chunks)))
            visual_id
          = Py.dict_get (visual_text_links self) visual_id).
Proof.
  intros self oracle images text_chunks.
  pose proof (link_images_grows self text_chunks (linked text_chunks images)
                ([], visual_text_links self) images oracle 0 (fun k H => H)
                ([], visual_text_links self) (grows_within_refl _ _))
    as [[added [Eadded Hadded]] Hcache].
  split; [| split; [| split; [| split; [| split; [| split]]]]].
  - intros image chunk. unfold related_chunks, near_page.
    rewrite filter_In, Z.leb_le. reflexivity.
  - intros image c3 c4 c6 c7 H5 H3 H4 H6 H7.
    unfold related_chunks, near_page. simpl. rewrite H5, H3, H4, H6, H7. reflexivity.
  - apply create_links_pass.
  - intros further Hfar. rewrite !create_links_pass.
    assert (E : forall i, pass self (text_chunks ++ further) images oracle i
                          = pass self text_chunks images oracle i).
    { clear -Hfar. induction images as [|image images IH]; intros i; [reflexivity|].
      cbn [pass].
      assert (Ei : image_pass self (text_chunks ++ further) image (oracle i)
                   = image_pass self text_chunks image (oracle i)).
      { unfold image_pass. rewrite filter_app.
        assert (En : filter (within_one_page image) further = []).
        { assert (G : forall l, (forall chunk, In chunk l ->
                                               within_one_page image chunk = false) ->
                                filter (within_one_page image) l = []).
          { induction l as [|c l IHl]; intros H; [reflexivity|]. simpl.
            rewrite (H c (or_introl eq_refl)). apply IHl.
            intros chunk Hc. apply H. right. exact Hc. }
          apply G. intros chunk Hc. apply Hfar; [left; reflexivity | exact Hc]. }
        rewrite En, app_nil_r. reflexivity. }
      rewrite Ei, IH; [reflexivity|].
      intros img chunk Hi Hc. apply Hfar; [right; exact Hi | exact Hc]. }
    rewrite E. reflexivity.
  - intros image w st. apply link_image_skips.
  - intros link Hin. apply create_links_links in Hin.
    rewrite Eadded in Hin. simpl in Hin.
    rewrite Forall_forall in Hadded. apply Hadded. exact Hin.
  - intros visual_id Hnot. rewrite create_links_cache. apply Hcache. exact Hnot.
Qed.

(** The theorem at an image on page 5 and chunks of pages 3, 4, 6 and 7,
    for a Gemini client whose call fails: the fallback link is made from the
    chunks of pages 4 and 6, the candidates; with the chunks of pages 3 and 7
    only, the turn of the loop does nothing. *)
Lemma link_candidates_within_one_page_witness :
  let image := DocumentImage.mk "img_5" "doc_1" 5 "chart" None None [] in
  let chunk := fun text page => DocumentChunk.mk "chunk" "doc_1" text page [] in
  let self := __init__ "gemini" true false in
  let chunks := [chunk "three" 3%Z; chunk "four" 4%Z; chunk "six" 6%Z; chunk "seven" 7%Z] in
  related_chunks image chunks = [chunk "four" 4%Z; chunk "six" 6%Z]
  /\ fst (create_visual_text_links self (fun _ => Fails) [image] chunks)
     = [VisualTextLink.mk "img_5" (Py.VList [Py.VStr "four"; Py.VStr "six"])
                          (Py.VStr "general") (Py.VFloat (3 # 10) "0.3")]
  /\ link_image self [chunk "three" 3%Z; chunk "seven" 7%Z] image Fails ([], [])
     = (([], []), None).
Proof.
  cbv zeta. split; [| split].
  - apply (link_candidates_within_one_page
             (__init__ "gemini" true false) (fun _ => Fails) [] []); reflexivity.
  - rewrite (proj1 (proj2 (proj2 (link_candidates_within_one_page
                                    (__init__ "gemini" true false) (fun _ => Fails)
                                    [DocumentImage.mk "img_5" "doc_1" 5 "chart" None None []]
                                    [DocumentChunk.mk "chunk" "doc_1" "three" 3 [];
                                     DocumentChunk.mk "chunk" "doc_1" "four" 4 [];
                                     DocumentChunk.mk "chunk" "doc_1" "six" 6 [];
                                     DocumentChunk.mk "chunk" "doc_1" "seven" 7 []])))).
    reflexivity.
  - apply (link_candidates_within_one_page
             (__init__ "gemini" true false) (fun _ => Fails) []
             [DocumentChunk.mk "chunk" "doc_1" "three" 3 [];
              DocumentChunk.mk "chunk" "doc_1" "seven" 7 []]).
    reflexivity.
Defined.

(** ** The link cache *)

Section LinkCache.

Lemma analyze_chart_links (self : t) (w : chart_world) (context : string) :
  visual_text_links (snd (analyze_chart_to_text self w context))
  = visual_text_links self.
Proof.
  unfold analyze_chart_to_text, analyze_chart_body.
  destruct (_identify_chart_structure self (structure_reply w)); reflexivity.
Qed.

Lemma reachable_one_link_per_visual (self : t) :
  reachable self -> one_link_per_visual (visual_text_links self).
Proof.
  induction 1.
  - split; constructor.
  - rewrite analyze_chart_links. assumption.
  - rewrite create_links_cache.
    apply (link_images_one_per_visual self text_chunks images oracle 0
             ([], visual_text_links self)).
    assumption.
Qed.

(** The number of cached links that carry the identifier [v]. *)
Definition links_of (cache : list (string * VisualTextLink.t)) (v : string)
  : list VisualTextLink.t :=
  filter (fun link => String.eqb (VisualTextLink.visual_id link) v) (Py.values cache).

Lemma links_of_entries (cache : list (string * VisualTextLink.t)) (v : string) :
  Forall (fun entry => fst entry = VisualTextLink.visual_id (snd entry)) cache ->
  links_of cache v = map snd (filter (fun entry => String.eqb (fst entry) v) cache).
Proof.
  unfold links_of, Py.values. induction 1 as [|[k link] cache Hk _ IH]; simpl.
  - reflexivity.
  - simpl in Hk. subst k. destruct (String.eqb (VisualTextLink.visual_id link) v); simpl.
    + rewrite IH. reflexivity.
    + exact IH.
Qed.

Lemma one_link_per_visual_count (cache : list (string * VisualTextLink.t)) (v : string) :
  one_link_per_visual cache -> (List.length (links_of cache v) <= 1)%nat.
Proof.
  intros [Hkeys Hfiled]. rewrite links_of_entries by assumption.
  rewrite length_map. apply NoDup_keys_one_entry. assumption.
Qed.

Lemma one_link_per_visual_lookup (cache : list (string * VisualTextLink.t))
    (link : VisualTextLink.t) :
  one_link_per_visual cache ->
  In link (Py.values cache) ->
  Py.dict_get cache (VisualTextLink.visual_id link) = Some link.
Proof.
  intros [Hkeys Hfiled] Hin. unfold Py.values in Hin.
  apply in_map_iff in Hin. destruct Hin as [[k l] [E Hin]]. simpl in E. subst l.
  rewrite Forall_forall in Hfiled. pose proof (Hfiled _ Hin) as Hk. simpl in Hk.
  subst k. apply In_dict_get; assumption.
Qed.

(** The cache after [self.visual_text_links[id] = first] and then
    [... = second], as the loop writes them. *)
Definition cached_twice (cache : list (string * VisualTextLink.t))
    (first second : VisualTextLink.t) : list (string * VisualTextLink.t) :=
  snd (fst ((add_link first ;;; add_link second) ([], cache))).

End LinkCache.

(** C8.  In every state the service can reach, the link cache holds at most
    one link per visual identifier.  Storing a second link for an identifier
    replaces the first: after two insertions for the same identifier the
    cache answers with the second, holds exactly one link for that
    identifier, and this link is the second. *)
Theorem link_cache_one_per_visual :
  forall self : t,
    reachable self ->
    (forall v : string,
        (List.length (links_of (visual_text_links self) v) <= 1)%nat)
    /\ (forall first second : VisualTextLink.t,
          VisualTextLink.visual_id first = VisualTextLink.visual_id second ->
          let cache := cached_twice (visual_text_links self) first second in
          Py.dict_get cache (VisualTextLink.visual_id second) = Some second
          /\ links_of cache (VisualTextLink.visual_id second) = [second]).
Proof.
  intros self Hr. pose proof (reachable_one_link_per_visual self Hr) as Hinv.
  split.
  - intros v. apply one_link_per_visual_count. exact Hinv.
  - intros first second Hid cache.
    assert (Hcache : one_link_per_visual cache).
    { apply (preserves_seq (fun st : link_state => one_link_per_visual (snd st))
               (add_link first) (add_link second)
               (add_link_one_per_visual first) (add_link_one_per_visual second)
               ([], visual_text_links self)).
      exact Hinv. }
    assert (Hget : Py.dict_get cache (VisualTextLink.visual_id second) = Some second).
    { unfold cache, cached_twice. simpl. apply dict_get_set_same. }
    split; [exact Hget|].
    pose proof (one_link_per_visual_count cache (VisualTextLink.visual_id second) Hcache)
      as Hcount.
    assert (Hin : In second (links_of cache (VisualTextLink.visual_id second))).
    { unfold links_of. apply filter_In. split; [|apply String.eqb_refl].
      unfold Py.values. apply in_map_iff.
      exists (VisualTextLink.visual_id second, second). split; [reflexivity|].
      clear -Hget. induction cache as [|[k l] cache IH]; simpl in *; [discriminate|].
      destruct (String.eqb (VisualTextLink.visual_id second) k) eqn:E.
      - apply String.eqb_eq in E. inversion Hget; subst. left. reflexivity.
      - right. apply IH. exact Hget. }
    destruct (links_of cache (VisualTextLink.visual_id second)) as [|l [|l' ls]];
      simpl in *; [destruct Hin | | lia].
    destruct Hin as [-> | []]. reflexivity.
Qed.

(** The theorem at a fresh service whose model answers, for one image, with
    two relationships: both links are returned, the cache keeps the second. *)
Lemma link_cache_one_per_visual_witness :
  let relationship := fun kind =>
    Py.VDict [("relationship", Py.VStr kind);
              ("text_chunks", Py.VList [Py.VStr "Revenue by quarter"]);
              ("confidence", Py.VFloat (8 # 10) "0.8")] in
  let reply :=
    json_reply (Py.VList [relationship "illustration";
                          relationship "data_visualization"]) in
  let image := DocumentImage.mk "img_1" "doc_1" 1 "chart" None None [] in
  let chunk := DocumentChunk.mk "chunk_1" "doc_1" "Revenue by quarter" 1 [] in
  let result :=
    create_visual_text_links (__init__ "gemini" true false) (fun _ => reply)
                             [image] [chunk] in
  List.length (fst result) = 2%nat
  /\ (List.length (links_of (visual_text_links (snd result)) "img_1") <= 1)%nat
  /\ links_of (visual_text_links (snd result)) "img_1"
     = [VisualTextLink.mk "img_1" (Py.VList [Py.VStr "Revenue by quarter"])
                          (Py.VStr "data_visualization") (Py.VFloat (8 # 10) "0.8")].
Proof.
  cbv zeta. split; [reflexivity|]. split; [|reflexivity].
  apply link_cache_one_per_visual.
  apply reachable_link. apply reachable_init.
Defined.

(** ** The visual-link listing *)

Section Listing.

Local Open Scope string_scope.

Lemma prefix_app (n h : string) :
  String.prefix n h = true <-> exists post, h = n ++ post.
Proof.
  revert h. induction n as [|c n IH]; intros h; simpl.
  - split; [intros _; exists h; reflexivity | intros _; destruct h; reflexivity].
  - destruct h as [|c' h]; simpl.
    + split; [discriminate | intros [post E]; discriminate].
    + destruct (Ascii.ascii_dec c c') as [-> | Hne].
      * rewrite IH. split; intros [post E]; exists post.
        -- rewrite E. reflexivity.
        -- inversion E. reflexivity.
      * split; [discriminate|]. intros [post E]. inversion E. congruence.
Qed.









End Listing.




(** ** Searching the caches *)

Section CacheSearch.

Variable query : Py.value.

(** The snippets of a link joined by single spaces. *)
Definition joined_snippets (link : VisualTextLink.t) : string :=
  Py.try_except (Py.join_value " " (VisualTextLink.text_chunks link)) EmptyString.

Definition link_relevance (link : VisualTextLink.t) : Py.float :=
  relevance query (Py.VStr (joined_snippets link)).

Definition chart_relevant (entry : string * ChartAnalysis.t) : bool :=
  above_threshold (chart_relevance query (snd entry)).

Definition link_relevant (entry : string * VisualTextLink.t) : bool :=
  above_threshold (link_relevance (snd entry)).

(** The cached records of which a candidate can be made: the chart type is
    a string, the snippets are a sequence of strings, the confidence is a
    number that fits a float. *)
Definition is_string (v : Py.value) : bool :=
  match v with
  | Py.VStr _ => true
  | _ => false
  end.

Definition usable_analysis (analysis : ChartAnalysis.t) : bool :=
  (is_string (ChartAnalysis.chart_type analysis)
   && negb (Py.raises (Py.as_float (ChartAnalysis.confidence analysis))))%bool.

Definition joinable (link : VisualTextLink.t) : bool :=
  negb (Py.raises (Py.join_value " " (VisualTextLink.text_chunks link))).

Definition usable_link (link : VisualTextLink.t) : bool :=
  (joinable link && negb (Py.raises (Py.as_float (VisualTextLink.confidence link))))%bool.

(** The entries at which a search stops: a relevant analysis that is not
    usable; a link whose snippets cannot be joined, or a relevant link whose
    confidence is not usable. *)
Definition chart_stops (entry : string * ChartAnalysis.t) : bool :=
  (chart_relevant entry && negb (usable_analysis (snd entry)))%bool.

Definition link_stops (entry : string * VisualTextLink.t) : bool :=
  (negb (joinable (snd entry))
   || (link_relevant entry
       && Py.raises (Py.as_float (VisualTextLink.confidence (snd entry)))))%bool.

(** The entries a loop visits in full: those before the first at which it
    stops. *)
Fixpoint visited {E : Type} (stops : E -> bool) (l : list E) : list E :=
  match l with
  | [] => []
  | e :: l' => if stops e then [] else e :: visited stops l'
  end.

(** What a cache entry and the result emitted for it have in common. *)
Definition chart_candidate (entry : string * ChartAnalysis.t) (r : SearchResult.t)
  : Prop :=
  (exists confidence,
      Py.as_float (ChartAnalysis.confidence (snd entry)) = Py.Ok confidence
      /\ SearchResult.confidence_score r
         = (chart_relevance query (snd entry) * confidence)%float)
  /\ SearchResult.id r = ("chart_" ++ fst entry)%string
  /\ SearchResult.content r = ChartAnalysis.text_content (snd entry)
  /\ SearchResult.source_type r = IMAGE
  /\ SearchResult.metadata r
     = [("chart_type", ChartAnalysis.chart_type (snd entry));
        ("data_insights", ChartAnalysis.data_insights (snd entry));
        ("queryable_facts", Py.VList (ChartAnalysis.queryable_facts (snd entry)))].

Definition link_candidate (entry : string * VisualTextLink.t) (r : SearchResult.t)
  : Prop :=
  (exists confidence,
      Py.as_float (VisualTextLink.confidence (snd entry)) = Py.Ok confidence
      /\ SearchResult.confidence_score r
         = (link_relevance (snd entry) * confidence)%float)
  /\ SearchResult.id r = ("link_" ++ fst entry)%string
  /\ SearchResult.source_type r = IMAGE
  /\ SearchResult.metadata r
     = [("visual_id", Py.VStr (fst entry));
        ("relationship", VisualTextLink.relationship (snd entry));
        ("link_confidence", VisualTextLink.confidence (snd entry))].

(** The loop state after [hits] were appended to the store. *)
Definition emitted (st : search_state) (hits : list SearchResult.t) : search_state :=
  ((fst st ++ seq (List.length (snd st)) (List.length hits))%list,
   (snd st ++ hits)%list).

Lemma emitted_nil (st : search_state) : emitted st [] = st.
Proof. destruct st as [refs h]. unfold emitted. simpl. rewrite !app_nil_r. reflexivity. Qed.

Lemma emitted_cons (st : search_state) (x : SearchResult.t) (hits : list SearchResult.t) :
  emitted (emitted st [x]) hits = emitted st (x :: hits).
Proof.
  destruct st as [refs h]. unfold emitted. simpl.
  rewrite <- !app_assoc, length_app. simpl.
  replace (List.length h + 1)%nat with (S (List.length h)) by lia. reflexivity.
Qed.

Lemma append_result_emitted (x : SearchResult.t) (st : search_state) :
  append_result x st = (emitted st [x], None).
Proof. destruct st as [refs h]. reflexivity. Qed.

(** A loop emits one result per relevant entry, until it stops. *)
Lemma search_loop {E : Type} (step : E -> Block.t search_state)
    (relevant stops : E -> bool) (candidate : E -> SearchResult.t -> Prop)
    (l : list E) :
  (forall e, stops e = false -> relevant e = false ->
             forall st, step e st = (st, None)) ->
  (forall e, stops e = false -> relevant e = true ->
             exists r, candidate e r /\ forall st, step e st = (emitted st [r], None)) ->
  (forall e, stops e = true -> forall st, exists x, step e st = (st, Some x)) ->
  exists hits,
    Forall2 candidate (filter relevant (visited stops l)) hits
    /\ forall st, fst (Block.for_each l step st) = emitted st hits.
Proof.
  intros Hskip Hhit Hstop. induction l as [|e l [hits [Hhits Hloop]]].
  - exists []. split; [constructor|]. intros st. rewrite emitted_nil. reflexivity.
  - cbn [visited Block.for_each]. unfold Block.seq.
    destruct (stops e) eqn:Hs.
    + exists []. split; [constructor|]. intros st.
      destruct (Hstop e Hs st) as [x ->]. rewrite emitted_nil. reflexivity.
    + cbn [filter]. destruct (relevant e) eqn:Hrel.
      * destruct (Hhit e Hs Hrel) as [r [Hr Hstep]].
        exists (r :: hits). split; [constructor; assumption|].
        intros st. rewrite Hstep, Hloop, emitted_cons. reflexivity.
      * exists hits. split; [assumption|].
        intros st. rewrite (Hskip e Hs Hrel), Hloop. reflexivity.
Qed.

Lemma visited_all {E : Type} (stops : E -> bool) (l : list E) :
  Forall (fun e => stops e = false) l -> visited stops l = l.
Proof.
  induction 1 as [|e l He _ IH]; cbn [visited]; [reflexivity|].
  rewrite He, IH. reflexivity.
Qed.

Lemma search_chart_step (entry : string * ChartAnalysis.t) :
  (chart_relevant entry = false -> forall st, search_chart query entry st = (st, None))
  /\ (chart_stops entry = false -> chart_relevant entry = true ->
      exists r, chart_candidate entry r
                /\ forall st, search_chart query entry st = (emitted st [r], None))
  /\ (chart_stops entry = true ->
      forall st, exists x, search_chart query entry st = (st, Some x)).
Proof.
  unfold chart_stops, usable_analysis, chart_relevant, search_chart.
  destruct (above_threshold (chart_relevance query (snd entry))) eqn:Hrel;
    cbn [Block.when andb]; (split; [| split]); try discriminate; try reflexivity.
  - unfold Block.eval, chart_result, str_title, Py.float_mul.
    destruct (ChartAnalysis.chart_type (snd entry)) eqn:Ht; cbn [is_string andb negb];
      try discriminate.
    destruct (Py.as_float (ChartAnalysis.confidence (snd entry))) as [y|e] eqn:Hy;
      cbn [Py.raises negb Py.bind]; [|discriminate].
    intros _ _. eexists. split; [|intros st; apply append_result_emitted].
    unfold chart_candidate.
    cbn [SearchResult.confidence_score SearchResult.id SearchResult.content
         SearchResult.source_type SearchResult.metadata].
    rewrite Ht.
    split; [exists y; split; [exact Hy | reflexivity] | repeat split].
  - unfold Block.eval, chart_result, str_title, Py.float_mul.
    destruct (ChartAnalysis.chart_type (snd entry)); cbn [is_string andb negb Py.bind];
      try (intros _ st; eexists; reflexivity).
    destruct (Py.as_float (ChartAnalysis.confidence (snd entry))) as [y|e];
      cbn [Py.raises negb Py.bind]; [discriminate|].
    intros _ st. eexists. reflexivity.
Qed.

Lemma search_link_step (entry : string * VisualTextLink.t) :
  (link_stops entry = false -> link_relevant entry = false ->
   forall st, search_link query entry st = (st, None))
  /\ (link_stops entry = false -> link_relevant entry = true ->
      exists r, link_candidate entry r
                /\ forall st, search_link query entry st = (emitted st [r], None))
  /\ (link_stops entry = true ->
      forall st, exists x, search_link query entry st = (st, Some x)).
Proof.
  unfold link_stops, joinable, link_relevant, link_relevance, joined_snippets,
    search_link, Block.eval.
  destruct (Py.join_value " " (VisualTextLink.text_chunks (snd entry)))
    as [combined|e] eqn:Hj; cbn [Py.raises negb orb Py.try_except].
  2:{ split; [discriminate | split; [discriminate|]].
      intros _ st. eexists. reflexivity. }
  destruct (above_threshold (relevance query (Py.VStr combined))) eqn:Hrel;
    cbn [Block.when andb]; (split; [| split]); try discriminate; try reflexivity.
  - unfold link_result, Py.float_mul.
    destruct (Py.as_float (VisualTextLink.confidence (snd entry))) as [y|e] eqn:Hy;
      cbn [Py.raises Py.bind]; [|discriminate].
    intros _ _. eexists. split; [|intros st; apply append_result_emitted].
    unfold link_candidate, link_relevance, joined_snippets. rewrite Hj.
    cbn [SearchResult.confidence_score SearchResult.id SearchResult.source_type
         SearchResult.metadata Py.try_except].
    split; [exists y; split; [exact Hy | reflexivity] | repeat split].
  - unfold link_result, Py.float_mul.
    destruct (Py.as_float (VisualTextLink.confidence (snd entry))) as [y|e];
      cbn [Py.raises Py.bind]; [discriminate|].
    intros _ st. eexists. reflexivity.
Qed.

(** The float of a quotient depends on its value only. *)
Lemma float_of_Q_eq (q q' : Q) : q == q' -> Py.float_of_Q q = Py.float_of_Q q'.
Proof.
  intros H. unfold Py.float_of_Q. rewrite (Qred_complete q q' H). reflexivity.
Qed.

End CacheSearch.

(** C5 (as amended).  Each cache search visits the cached records in cache
    order and emits, for each record it visits and for no other, a candidate
    if and only if the relevance of the record to the query exceeds 0.3,
    with score relevance x confidence, both as floats; for a link the
    relevance is that of its snippets joined by spaces.  The inequality is
    strict: relevance exactly 0.3 is excluded, relevance 0.30001 is not.
    The search stops at the first record of which no candidate can be made
    and returns what it has emitted so far; when every cached record is
    usable, it visits the whole cache. *)
Theorem cache_search_threshold :
  forall (self : t) (query : Py.value) (h : Heap.t),
    (exists hits,
        Forall2 (chart_candidate query)
                (filter (chart_relevant query)
                        (visited (chart_stops query) (chart_cache self)))
                hits
        /\ _search_chart_analyses self query h
           = (seq (List.length h) (List.length hits), (h ++ hits)%list))
    /\ (exists hits,
          Forall2 (link_candidate query)
                  (filter (link_relevant query)
                          (visited (link_stops query) (visual_text_links self)))
                  hits
          /\ _search_visual_text_links self query h
             = (seq (List.length h) (List.length hits), (h ++ hits)%list))
    /\ (Forall (fun entry => usable_analysis (snd entry) = true) (chart_cache self) ->
        visited (chart_stops query) (chart_cache self) = chart_cache self)
    /\ (Forall (fun entry => usable_link (snd entry) = true) (visual_text_links self) ->
        visited (link_stops query) (visual_text_links self) = visual_text_links self)
    /\ (forall text,
          _calculate_text_relevance query text == 3 # 10 ->
          above_threshold (relevance query text) = false)
    /\ (forall text,
          _calculate_text_relevance query text == 30001 # 100000 ->
          above_threshold (relevance query text) = true).
Proof.
  intros self query h.
  split; [| split; [| split; [| split; [| split]]]].
  - destruct (search_loop (search_chart query) (chart_relevant query)
                (chart_stops query) (chart_candidate query) (chart_cache self))
      as [hits [Hhits Hloop]].
    + intros e _. apply search_chart_step.
    + intros e. apply search_chart_step.
    + intros e. apply search_chart_step.
    + exists hits. split; [exact Hhits|].
      unfold _search_chart_analyses. rewrite Hloop. reflexivity.
  - destruct (search_loop (search_link query) (link_relevant query)
                (link_stops query) (link_candidate query) (visual_text_links self))
      as [hits [Hhits Hloop]].
    + intros e. apply search_link_step.
    + intros e. apply search_link_step.
    + intros e. apply search_link_step.
    + exists hits. split; [exact Hhits|].
      unfold _search_visual_text_links. rewrite Hloop. reflexivity.
  - intros H. apply visited_all. apply Forall_forall. intros e He.
    rewrite Forall_forall in H. unfold chart_stops. rewrite (H e He).
    apply andb_false_r.
  - intros H. apply visited_all. apply Forall_forall. intros e He.
    rewrite Forall_forall in H. specialize (H e He). unfold usable_link in H.
    apply andb_true_iff in H. destruct H as [Hj Hc]. unfold link_stops.
    rewrite Hj. apply negb_true_iff in Hc. rewrite Hc. cbn.
    apply andb_false_r.
  - intros text H. unfold relevance. rewrite (float_of_Q_eq _ _ H). reflexivity.
  - intros text H. unfold relevance. rewrite (float_of_Q_eq _ _ H). reflexivity.
Qed.

(** The theorem at a query of ten words and a cache of three usable
    analyses, whose texts share five, three and four words with it: the
    first is emitted with score 0.5 x 0.6, the second, of relevance exactly
    0.3, is not, the third is emitted with score 0.4 x 1. *)
Lemma cache_search_threshold_witness :
  let query := Py.VStr "a b c d e f g h i j" in
  let analysis := fun text confidence =>
    ChartAnalysis.mk (Py.VStr "bar_chart") (Py.VDict []) text confidence [] None in
  let cache :=
    [("u1", analysis "a b c d e" (Py.VFloat (6 # 10) "0.6"));
     ("u2", analysis "a b c" (Py.VFloat (9 # 10) "0.9"));
     ("u3", analysis "a b c d" (Py.VInt 1))] in
  let self := mk "gemini" true false cache [] in
  visited (chart_stops query) (chart_cache self) = cache
  /\ filter (chart_relevant query) cache
     = [("u1", analysis "a b c d e" (Py.VFloat (6 # 10) "0.6"));
        ("u3", analysis "a b c d" (Py.VInt 1))]
  /\ map SearchResult.confidence_score (snd (_search_chart_analyses self query []))
     = [(0.5 * 0.6)%float; 0.4%float].
Proof.
  cbv zeta. split; [| split; [reflexivity | reflexivity]].
  refine (proj1 (proj2 (proj2 (cache_search_threshold
                                 (mk "gemini" true false _ []) _ []))) _).
  repeat constructor.
Defined.

(** C5 as stated fails when the cache holds a record of which no candidate
    can be made: here the model gave [null] for the type of the first
    chart.  The second analysis is usable and its relevance to the query is
    1.0, yet the search emits nothing for it: it stopped at the first. *)
Lemma cache_search_stops_early :
  let query := Py.VStr "sales" in
  let analysis := fun chart_type =>
    ChartAnalysis.mk chart_type (Py.VDict []) "sales by quarter"
                     (Py.VFloat (9 # 10) "0.9") [] None in
  let self :=
    mk "gemini" true false
       [("u1", analysis Py.VNone); ("u2", analysis (Py.VStr "bar_chart"))] [] in
  chart_relevance query (analysis (Py.VStr "bar_chart")) = 1%float
  /\ above_threshold (chart_relevance query (analysis (Py.VStr "bar_chart"))) = true
  /\ usable_analysis (analysis (Py.VStr "bar_chart")) = true
  /\ _search_chart_analyses self query [] = ([], []).
Proof. cbv zeta. repeat split. Qed.

(** ** The store *)

Section Store.

Lemma write_length (h : Heap.t) (r : Heap.ref) (x : SearchResult.t) :
  List.length (Heap.write h r x) = List.length h.
Proof.
  revert r. induction h as [|y h IH]; intros [|r]; simpl; auto.
Qed.

Lemma read_write_same (h : Heap.t) (r : Heap.ref) (x y : SearchResult.t) :
  Heap.read h r = Some y -> Heap.read (Heap.write h r x) r = Some x.
Proof.
  unfold Heap.read. revert r. induction h as [|z h IH]; intros [|r]; simpl;
    try discriminate; auto.
Qed.

Lemma read_write_none (h : Heap.t) (r : Heap.ref) (x : SearchResult.t) :
  Heap.read h r = None -> Heap.write h r x = h.
Proof.
  unfold Heap.read. revert r. induction h as [|z h IH]; intros [|r]; simpl;
    try discriminate; auto.
  intros H. rewrite IH by assumption. reflexivity.
Qed.

Lemma read_write_other (h : Heap.t) (r r' : Heap.ref) (x : SearchResult.t) :
  r <> r' -> Heap.read (Heap.write h r x) r' = Heap.read h r'.
Proof.
  unfold Heap.read. revert r r'.
  induction h as [|z h IH]; intros [|r] [|r'] Hne; simpl; auto; try congruence.
Qed.

End Store.

(** ** Ranking *)

Section Ranking.

Definition rescored (x : SearchResult.t) : SearchResult.t :=
  set_confidence_score x (ranked_score x).

Lemma rescore_read_same (h : Heap.t) (r : Heap.ref) :
  Heap.read (rescore h r) r = option_map rescored (Heap.read h r).
Proof.
  unfold rescore. destruct (Heap.read h r) as [x|] eqn:E; simpl.
  - apply (read_write_same h r _ x). exact E.
  - exact E.
Qed.

Lemma rescore_read_other (h : Heap.t) (r r' : Heap.ref) :
  r <> r' -> Heap.read (rescore h r) r' = Heap.read h r'.
Proof.
  intros Hne. unfold rescore. destruct (Heap.read h r); [|reflexivity].
  apply read_write_other. exact Hne.
Qed.

(** The loop of the ranking, over distinct references: each object it
    visits is rescored once, the others are untouched. *)
Lemma rescore_all (results : list Heap.ref) (h : Heap.t) (r : Heap.ref) :
  NoDup results ->
  (In r results ->
   Heap.read (fold_left rescore results h) r = option_map rescored (Heap.read h r))
  /\ (~ In r results -> Heap.read (fold_left rescore results h) r = Heap.read h r).
Proof.
  intros Hnd. revert h. induction Hnd as [|r0 results Hnotin Hnd IH]; intros h; simpl.
  - split; [intros [] | reflexivity].
  - destruct (IH (rescore h r0)) as [IHin IHout]. split.
    + intros [-> | Hin].
      * rewrite IHout by assumption. apply rescore_read_same.
      * rewrite IHin by assumption. rewrite rescore_read_other; [reflexivity|].
        intros ->. contradiction.
    + intros Hnot. rewrite IHout by tauto. apply rescore_read_other. tauto.
Qed.

(** [score * factor] when the key is present. *)
Definition with_bonus (present : bool) (factor score : Py.float) : Py.float :=
  if present then (score * factor)%float else score.

(** The score after the three tests, before the clamp. *)
Definition boosted (x : SearchResult.t) : Py.float :=
  with_bonus (Py.dict_has (SearchResult.metadata x) "relationship") 1.1%float
    (with_bonus (Py.dict_has (SearchResult.metadata x) "chart_type") 1.3%float
       (with_bonus (Py.dict_has (SearchResult.metadata x) "visual_enhancements")
                   1.2%float
                   (SearchResult.confidence_score x))).

Lemma ranked_score_boosted (x : SearchResult.t) :
  ranked_score x = Py.min (boosted x) 1%float.
Proof. reflexivity. Qed.

Lemma py_min_le_1 (a : Py.float) : PrimFloat.ltb 1 (Py.min a 1%float) = false.
Proof.
  unfold Py.min. destruct (PrimFloat.ltb 1 a) eqn:E; [reflexivity | exact E].
Qed.

End Ranking.

(** ** [list.sort]: a permutation; on ordered keys, sorted and stable *)

Section SortPermutation.

Context {A : Type}.
Variable lt : A -> A -> bool.

Lemma ascending_run_app (previous : A) (l : list A) :
  l = (fst (Py.ascending_run lt previous l) ++ snd (Py.ascending_run lt previous l))%list.
Proof.
  revert previous. induction l as [|x l IH]; intros previous; simpl; [reflexivity|].
  destruct (lt x previous); [reflexivity|].
  specialize (IH x). destruct (Py.ascending_run lt x l) as [run rest].
  simpl in *. rewrite <- IH. reflexivity.
Qed.

Lemma descending_run_app (previous : A) (l : list A) :
  l = (fst (Py.descending_run lt previous l) ++ snd (Py.descending_run lt previous l))%list.
Proof.
  revert previous. induction l as [|x l IH]; intros previous; simpl; [reflexivity|].
  destruct (lt x previous); [|reflexivity].
  specialize (IH x). destruct (Py.descending_run lt x l) as [run rest].
  simpl in *. rewrite <- IH. reflexivity.
Qed.

Lemma binary_insert_perm (sorted : list A) (pivot : A) :
  Permutation (pivot :: sorted) (Py.binary_insert lt sorted pivot).
Proof.
  unfold Py.binary_insert.
  set (i := Py.bisect lt _ pivot sorted 0 _).
  rewrite <- (firstn_skipn i sorted) at 1. apply Permutation_middle.
Qed.

Lemma binarysort_perm (run rest : list A) :
  Permutation (run ++ rest) (Py.binarysort lt run rest).
Proof.
  unfold Py.binarysort. revert run.
  induction rest as [|x rest IH]; intros run; simpl.
  - rewrite app_nil_r. reflexivity.
  - rewrite <- IH. rewrite <- binary_insert_perm.
    rewrite <- Permutation_middle. reflexivity.
Qed.

Lemma count_run_perm (l : list A) :
  Permutation l (fst (Py.count_run lt l) ++ snd (Py.count_run lt l)).
Proof.
  destruct l as [|x [|y l]]; simpl; try reflexivity.
  destruct (lt y x).
  - pose proof (descending_run_app y l) as E.
    destruct (Py.descending_run lt y l) as [run rest]. simpl in *.
    rewrite E at 1.
    change (x :: y :: run ++ rest)%list with ((x :: y :: run) ++ rest)%list.
    apply Permutation_app_tail.
    change ((rev run ++ [y]) ++ [x])%list with (rev (x :: y :: run)).
    apply Permutation_rev.
  - pose proof (ascending_run_app y l) as E.
    destruct (Py.ascending_run lt y l) as [run rest]. simpl in *.
    rewrite <- E. reflexivity.
Qed.

Lemma list_sort_perm (l : list A) : Permutation l (Py.list_sort lt l).
Proof.
  unfold Py.list_sort. pose proof (count_run_perm l) as H.
  destruct (Py.count_run lt l) as [run rest]. simpl in H.
  rewrite H at 1. apply binarysort_perm.
Qed.

Lemma list_sort_reverse_perm (l : list A) : Permutation l (Py.list_sort_reverse lt l).
Proof.
  unfold Py.list_sort_reverse. rewrite <- Permutation_rev.
  rewrite <- list_sort_perm. apply Permutation_rev.
Qed.

End SortPermutation.

Section SortOrdered.

Context {A : Type}.
Variable lt : A -> A -> bool.

(** The elements whose keys [lt] orders. *)
Variable ordered : A -> Prop.
Hypothesis lt_asym :
  forall a b, ordered a -> ordered b -> lt a b = true -> lt b a = false.
Hypothesis lt_neg_trans :
  forall a b c, ordered a -> ordered b -> ordered c ->
                lt b a = false -> lt c b = false -> lt c a = false.

(** A class of elements none of which is below another. *)
Variable class : A -> bool.
Hypothesis class_flat : forall a b, class a = true -> class b = true -> lt a b = false.

Definition ascending (a b : A) : Prop := lt b a = false.
Definition descending (a b : A) : Prop := lt a b = false.

Lemma sort_lt_trans (a b c : A) :
  ordered a -> ordered b -> ordered c ->
  lt a b = true -> lt b c = true -> lt a c = true.
Proof.
  intros Ha Hb Hc Hab Hbc. destruct (lt a c) eqn:E; [reflexivity|].
  pose proof (lt_asym b c Hb Hc Hbc) as Hcb.
  rewrite (lt_neg_trans b c a Hb Hc Ha Hcb E) in Hab. discriminate.
Qed.

Lemma sorted_nth (R : A -> A -> Prop) (s : list A) (j k : nat) (a b : A) :
  StronglySorted R s -> (j < k)%nat ->
  nth_error s j = Some a -> nth_error s k = Some b -> R a b.
Proof.
  intros Hs. revert j k. induction Hs as [|x s Hs IH Hx]; intros j k Hjk Ha Hb.
  - destruct j; discriminate.
  - destruct k as [|k]; [lia|]. destruct j as [|j]; simpl in *.
    + inversion Ha; subst. rewrite Forall_forall in Hx. apply Hx.
      eapply nth_error_In. exact Hb.
    + apply (IH j k); [lia | assumption | assumption].
Qed.

Lemma bisect_spec (fuel : nat) (pivot : A) (s : list A) (l r : nat) :
  StronglySorted ascending s -> Forall ordered s -> ordered pivot ->
  (l <= r <= List.length s)%nat -> (r - l <= fuel)%nat ->
  (forall j x, (j < l)%nat -> nth_error s j = Some x -> lt pivot x = false) ->
  (forall j x, (r <= j)%nat -> nth_error s j = Some x -> lt pivot x = true) ->
  let i := Py.bisect lt fuel pivot s l r in
  (forall j x, (j < i)%nat -> nth_error s j = Some x -> lt pivot x = false)
  /\ (forall j x, (i <= j)%nat -> nth_error s j = Some x -> lt pivot x = true).
Proof.
  intros Hs Ho Hp. revert l r.
  induction fuel as [|fuel IH]; intros l r Hlr Hfuel Hlow Hhigh;
    cbv zeta; cbn [Py.bisect].
  - assert (l = r) by lia. subst. split; assumption.
  - destruct (Nat.ltb_spec l r) as [Hlt | Hge].
    2:{ assert (l = r) by lia. subst. split; assumption. }
    assert (Hdiv : ((r - l) / 2 < r - l)%nat) by (apply Nat.div_lt; lia).
    set (p := (l + (r - l) / 2)%nat) in *.
    assert (Hp_range : (l <= p < r)%nat) by (unfold p; lia).
    clearbody p.
    destruct (nth_error s p) as [x|] eqn:Ex.
    2:{ apply nth_error_None in Ex. lia. }
    assert (Hox : ordered x).
    { rewrite Forall_forall in Ho. apply Ho. eapply nth_error_In. exact Ex. }
    destruct (lt pivot x) eqn:Hpx.
    + apply IH; [lia | lia | exact Hlow |].
      intros j y Hj Ey.
      destruct (Nat.eq_dec j p) as [-> | Hne]; [congruence|].
      assert (Hoy : ordered y).
      { rewrite Forall_forall in Ho. apply Ho. eapply nth_error_In. exact Ey. }
      pose proof (sorted_nth ascending s p j x y Hs ltac:(lia) Ex Ey) as Hxy.
      unfold ascending in Hxy.
      destruct (lt pivot y) eqn:Hpy; [reflexivity|].
      rewrite (lt_neg_trans x y pivot Hox Hoy Hp Hxy Hpy) in Hpx. discriminate.
    + apply IH; [lia | lia | | exact Hhigh].
      intros j y Hj Ey.
      destruct (Nat.eq_dec j p) as [-> | Hne]; [congruence|].
      destruct (Nat.lt_ge_cases j l) as [Hjl | Hjl]; [apply (Hlow j); assumption|].
      assert (Hoy : ordered y).
      { rewrite Forall_forall in Ho. apply Ho. eapply nth_error_In. exact Ey. }
      pose proof (sorted_nth ascending s j p y x Hs ltac:(lia) Ey Ex) as Hyx.
      unfold ascending in Hyx.
      apply (lt_neg_trans y x pivot Hoy Hox Hp Hyx Hpx).
Qed.

Lemma Forall_firstn_nth (P : A -> Prop) (s : list A) (i : nat) :
  (forall j x, (j < i)%nat -> nth_error s j = Some x -> P x) ->
  Forall P (firstn i s).
Proof.
  revert i. induction s as [|y s IH]; intros i H.
  - rewrite firstn_nil. constructor.
  - destruct i as [|i]; [constructor|]. simpl. constructor.
    + apply (H 0%nat); [lia | reflexivity].
    + apply IH. intros j x Hj E. apply (H (S j)); [lia | exact E].
Qed.

Lemma Forall_skipn_nth (P : A -> Prop) (s : list A) (i : nat) :
  (forall j x, (i <= j)%nat -> nth_error s j = Some x -> P x) ->
  Forall P (skipn i s).
Proof.
  revert i. induction s as [|y s IH]; intros i H.
  - rewrite skipn_nil. constructor.
  - destruct i as [|i]; simpl.
    + constructor.
      * apply (H 0%nat); [lia | reflexivity].
      * apply (IH 0%nat). intros j x Hj E. apply (H (S j)); [lia | exact E].
    + apply IH. intros j x Hj E. apply (H (S j)); [lia | exact E].
Qed.

(** Where the binary search puts the pivot: after the elements that are not
    above it, before those that are. *)
Lemma bisect_place (pivot : A) (s : list A) :
  StronglySorted ascending s -> Forall ordered s -> ordered pivot ->
  let i := Py.bisect lt (List.length s) pivot s 0 (List.length s) in
  Forall (fun x => lt pivot x = false) (firstn i s)
  /\ Forall (fun x => lt pivot x = true) (skipn i s).
Proof.
  intros Hs Ho Hp i.
  destruct (bisect_spec (List.length s) pivot s 0 (List.length s) Hs Ho Hp)
    as [Hlow Hhigh]; try lia.
  - intros j x Hj E. assert (H : nth_error s j <> None) by congruence.
    apply nth_error_Some in H. exfalso. lia.
  - split; [apply Forall_firstn_nth | apply Forall_skipn_nth]; assumption.
Qed.

Lemma in_firstn (s : list A) (i : nat) (x : A) : In x (firstn i s) -> In x s.
Proof.
  intros H. rewrite <- (firstn_skipn i s). apply in_or_app. left. exact H.
Qed.

Lemma in_skipn (s : list A) (i : nat) (x : A) : In x (skipn i s) -> In x s.
Proof.
  intros H. rewrite <- (firstn_skipn i s). apply in_or_app. right. exact H.
Qed.

Lemma sorted_app (l1 l2 : list A) :
  StronglySorted ascending l1 -> StronglySorted ascending l2 ->
  (forall a b, In a l1 -> In b l2 -> ascending a b) ->
  StronglySorted ascending (l1 ++ l2).
Proof.
  intros H1 H2 H. induction H1 as [|x l1 H1 IH Hx]; simpl; [exact H2|].
  constructor.
  - apply IH. intros a b Ha Hb. apply H; [right; exact Ha | exact Hb].
  - apply Forall_app. split; [exact Hx|].
    apply Forall_forall. intros b Hb. apply H; [left; reflexivity | exact Hb].
Qed.

Lemma sorted_firstn (s : list A) (i : nat) :
  StronglySorted ascending s -> StronglySorted ascending (firstn i s).
Proof.
  intros Hs. revert i. induction Hs as [|x s Hs IH Hx]; intros i.
  - rewrite firstn_nil. constructor.
  - destruct i as [|i]; simpl; constructor; [apply IH|].
    apply Forall_forall. intros y Hy. rewrite Forall_forall in Hx. apply Hx.
    eapply in_firstn. exact Hy.
Qed.

Lemma sorted_skipn (s : list A) (i : nat) :
  StronglySorted ascending s -> StronglySorted ascending (skipn i s).
Proof.
  intros Hs. revert i. induction Hs as [|x s Hs IH Hx]; intros i.
  - rewrite skipn_nil. constructor.
  - destruct i as [|i]; simpl; [constructor; assumption | apply IH].
Qed.

Lemma binary_insert_sorted (s : list A) (pivot : A) :
  StronglySorted ascending s -> Forall ordered s -> ordered pivot ->
  StronglySorted ascending (Py.binary_insert lt s pivot).
Proof.
  intros Hs Ho Hp. destruct (bisect_place pivot s Hs Ho Hp) as [Hlow Hhigh].
  unfold Py.binary_insert.
  set (i := Py.bisect lt (List.length s) pivot s 0 (List.length s)) in *.
  assert (Hof : Forall ordered (firstn i s)).
  { apply Forall_forall. intros x Hx. rewrite Forall_forall in Ho. apply Ho.
    eapply in_firstn. exact Hx. }
  assert (Hos : Forall ordered (skipn i s)).
  { apply Forall_forall. intros x Hx. rewrite Forall_forall in Ho. apply Ho.
    eapply in_skipn. exact Hx. }
  rewrite Forall_forall in Hlow, Hhigh, Hof, Hos.
  apply sorted_app.
  - apply sorted_firstn. exact Hs.
  - constructor; [apply sorted_skipn; exact Hs|].
    apply Forall_forall. intros y Hy. unfold ascending.
    apply lt_asym; [exact Hp | apply Hos; exact Hy | apply Hhigh; exact Hy].
  - intros a b Ha [<- | Hb]; unfold ascending.
    + apply Hlow. exact Ha.
    + pose proof (Hlow a Ha) as Hpa. pose proof (Hhigh b Hb) as Hpb.
      destruct (lt b a) eqn:E; [|reflexivity].
      pose proof (sort_lt_trans pivot b a Hp (Hos b Hb) (Hof a Ha) Hpb E). congruence.
Qed.

Lemma filter_none (l : list A) :
  Forall (fun x => class x = false) l -> filter class l = [].
Proof.
  induction 1 as [|x l Hx _ IH]; simpl; [reflexivity|]. rewrite Hx. exact IH.
Qed.

Lemma binary_insert_stable (s : list A) (pivot : A) :
  StronglySorted ascending s -> Forall ordered s -> ordered pivot ->
  filter class (Py.binary_insert lt s pivot) = filter class (s ++ [pivot]).
Proof.
  intros Hs Ho Hp. destruct (bisect_place pivot s Hs Ho Hp) as [_ Hhigh].
  unfold Py.binary_insert.
  set (i := Py.bisect lt (List.length s) pivot s 0 (List.length s)) in *.
  rewrite <- (firstn_skipn i s) at 3.
  rewrite !filter_app. cbn [filter].
  destruct (class pivot) eqn:Ec.
  - assert (E : filter class (skipn i s) = []).
    { apply filter_none. apply Forall_forall. intros y Hy.
      rewrite Forall_forall in Hhigh. specialize (Hhigh y Hy).
      destruct (class y) eqn:Ey; [|reflexivity].
      rewrite (class_flat pivot y Ec Ey) in Hhigh. discriminate. }
    rewrite E, app_nil_r. reflexivity.
  - rewrite app_nil_r. reflexivity.
Qed.

Lemma binarysort_sorted (run rest : list A) :
  StronglySorted ascending run -> Forall ordered run -> Forall ordered rest ->
  StronglySorted ascending (Py.binarysort lt run rest)
  /\ filter class (Py.binarysort lt run rest) = filter class (run ++ rest).
Proof.
  unfold Py.binarysort. revert run.
  induction rest as [|x rest IH]; intros run Hs Ho Hr; simpl.
  - rewrite app_nil_r. split; [exact Hs | reflexivity].
  - inversion Hr as [|? ? Hx Hrest]; subst.
    destruct (IH (Py.binary_insert lt run x)) as [IHs IHf].
    + apply binary_insert_sorted; assumption.
    + apply (Permutation_Forall (binary_insert_perm lt run x)).
      constructor; assumption.
    + exact Hrest.
    + split; [exact IHs|]. rewrite IHf, filter_app.
      rewrite binary_insert_stable by assumption.
      rewrite <- filter_app, <- app_assoc. reflexivity.
Qed.

(** A run that does not descend is sorted. *)
Lemma ascending_run_sorted (previous : A) (l : list A) :
  ordered previous -> Forall ordered l ->
  StronglySorted ascending (previous :: fst (Py.ascending_run lt previous l)).
Proof.
  revert previous. induction l as [|x l IH]; intros previous Hp Ho; simpl.
  - constructor; constructor.
  - inversion Ho as [|? ? Hx Hl]; subst.
    destruct (lt x previous) eqn:E; simpl; [constructor; constructor|].
    specialize (IH x Hx Hl).
    pose proof (ascending_run_app lt x l) as Eapp.
    destruct (Py.ascending_run lt x l) as [run rest]. simpl in *.
    assert (Hrun : Forall ordered run).
    { apply Forall_forall. intros y Hy. rewrite Forall_forall in Hl. apply Hl.
      rewrite Eapp. apply in_or_app. left. exact Hy. }
    constructor; [exact IH|].
    inversion IH as [|? ? _ Hall]; subst.
    constructor; [exact E|].
    rewrite Forall_forall in *. intros y Hy. unfold ascending in *.
    apply (lt_neg_trans previous x y Hp Hx (Hrun y Hy) E (Hall y Hy)).
Qed.

(** A run that descends strictly, reversed, is sorted, and holds at most
    one element of a class. *)
Definition strictly_descending (a b : A) : Prop := lt b a = true.

Lemma descending_run_strict (previous : A) (l : list A) :
  ordered previous -> Forall ordered l ->
  StronglySorted strictly_descending
                 (previous :: fst (Py.descending_run lt previous l)).
Proof.
  revert previous. induction l as [|x l IH]; intros previous Hp Ho; simpl.
  - constructor; constructor.
  - inversion Ho as [|? ? Hx Hl]; subst.
    destruct (lt x previous) eqn:E; simpl; [|constructor; constructor].
    specialize (IH x Hx Hl).
    pose proof (descending_run_app lt x l) as Eapp.
    destruct (Py.descending_run lt x l) as [run rest]. simpl in *.
    assert (Hrun : Forall ordered run).
    { apply Forall_forall. intros y Hy. rewrite Forall_forall in Hl. apply Hl.
      rewrite Eapp. apply in_or_app. left. exact Hy. }
    constructor; [exact IH|].
    inversion IH as [|? ? _ Hall]; subst.
    constructor; [exact E|].
    rewrite Forall_forall in *. intros y Hy. unfold strictly_descending in *.
    apply (sort_lt_trans y x previous (Hrun y Hy) Hx Hp (Hall y Hy) E).
Qed.

Lemma strict_rev_sorted (l : list A) :
  Forall ordered l -> StronglySorted strictly_descending l ->
  StronglySorted ascending (rev l).
Proof.
  intros Ho Hs. induction Hs as [|x l Hs IH Hx]; simpl; [constructor|].
  inversion Ho as [|? ? Hox Hol]; subst.
  apply sorted_app; [apply IH; exact Hol | constructor; constructor |].
  intros a b Ha [<- | []]. apply in_rev in Ha.
  rewrite Forall_forall in Hx, Hol. unfold ascending.
  pose proof (Hx a Ha) as Hax. unfold strictly_descending in Hax.
  apply lt_asym; [apply Hol; exact Ha | exact Hox | exact Hax].
Qed.

Lemma strict_one_of_class (l : list A) :
  StronglySorted strictly_descending l -> filter class (rev l) = filter class l.
Proof.
  intros Hs. induction Hs as [|x l Hs IH Hx]; simpl; [reflexivity|].
  rewrite filter_app, IH. simpl.
  destruct (class x) eqn:Ex; [|apply app_nil_r].
  assert (E : filter class l = []).
  { apply filter_none. apply Forall_forall. intros y Hy.
    rewrite Forall_forall in Hx. specialize (Hx y Hy). unfold strictly_descending in Hx.
    destruct (class y) eqn:Ey; [|reflexivity].
    rewrite (class_flat y x Ey Ex) in Hx. discriminate. }
  rewrite E. reflexivity.
Qed.

Lemma count_run_sorted (l : list A) :
  Forall ordered l ->
  StronglySorted ascending (fst (Py.count_run lt l))
  /\ filter class (fst (Py.count_run lt l) ++ snd (Py.count_run lt l))
     = filter class l.
Proof.
  intros Ho. destruct l as [|x [|y l]]; cbn [Py.count_run].
  - split; [constructor | reflexivity].
  - split; [constructor; constructor | reflexivity].
  - inversion Ho as [|? ? Hx Ho']; subst. inversion Ho' as [|? ? Hy Hl]; subst.
    destruct (lt y x) eqn:E.
    + pose proof (descending_run_strict y l Hy Hl) as Hs.
      pose proof (descending_run_app lt y l) as Eapp.
      destruct (Py.descending_run lt y l) as [run rest]. cbn [fst snd] in *.
      assert (Hrun : Forall ordered run).
      { apply Forall_forall. intros z Hz. rewrite Forall_forall in Hl. apply Hl.
        rewrite Eapp. apply in_or_app. left. exact Hz. }
      assert (Hchain : StronglySorted strictly_descending (x :: y :: run)).
      { constructor; [exact Hs|]. inversion Hs as [|? ? _ Hall]; subst.
        constructor; [exact E|].
        rewrite Forall_forall in *. intros z Hz. unfold strictly_descending in *.
        apply (sort_lt_trans z y x (Hrun z Hz) Hy Hx (Hall z Hz) E). }
      split.
      * apply (strict_rev_sorted (x :: y :: run)); [|exact Hchain].
        constructor; [exact Hx | constructor; assumption].
      * rewrite filter_app.
        rewrite (strict_one_of_class (x :: y :: run) Hchain).
        rewrite <- filter_app. rewrite Eapp at 1. reflexivity.
    + pose proof (ascending_run_sorted y l Hy Hl) as Hs.
      pose proof (ascending_run_app lt y l) as Eapp.
      destruct (Py.ascending_run lt y l) as [run rest]. cbn [fst snd] in *.
      assert (Hrun : Forall ordered run).
      { apply Forall_forall. intros z Hz. rewrite Forall_forall in Hl. apply Hl.
        rewrite Eapp. apply in_or_app. left. exact Hz. }
      split.
      * constructor; [exact Hs|]. inversion Hs as [|? ? _ Hall]; subst.
        constructor; [exact E|].
        rewrite Forall_forall in *. intros z Hz. unfold ascending in *.
        apply (lt_neg_trans x y z Hx Hy (Hrun z Hz) E (Hall z Hz)).
      * rewrite Eapp at 1. reflexivity.
Qed.

Lemma list_sort_sorted (l : list A) :
  Forall ordered l ->
  StronglySorted ascending (Py.list_sort lt l)
  /\ filter class (Py.list_sort lt l) = filter class l.
Proof.
  intros Ho. unfold Py.list_sort.
  destruct (count_run_sorted l Ho) as [Hs Hf].
  pose proof (count_run_perm lt l) as Hperm.
  destruct (Py.count_run lt l) as [run rest]. simpl in *.
  pose proof (Permutation_Forall Hperm Ho) as Hall.
  apply Forall_app in Hall. destruct Hall as [Hrun Hrest].
  destruct (binarysort_sorted run rest Hs Hrun Hrest) as [Hsorted Hstable].
  split; [exact Hsorted|]. rewrite Hstable. exact Hf.
Qed.

Lemma rev_sorted (l : list A) :
  StronglySorted ascending l -> StronglySorted descending (rev l).
Proof.
  induction 1 as [|x l Hs IH Hx]; simpl; [constructor|].
  assert (G : forall l1 : list A,
             StronglySorted descending l1 ->
             Forall (fun a => descending a x) l1 ->
             StronglySorted descending (l1 ++ [x])).
  { induction 1 as [|a l1 H1 IH1 Ha]; intros Hall; simpl.
    - constructor; constructor.
    - inversion Hall; subst. constructor; [apply IH1; assumption|].
      apply Forall_app. split; [exact Ha | constructor; [assumption | constructor]]. }
  apply G; [exact IH|].
  apply Forall_forall. intros a Ha. apply in_rev in Ha.
  rewrite Forall_forall in Hx. apply Hx. exact Ha.
Qed.

(** [list.sort(reverse=True)] on keys that [lt] orders: descending, and
    stable. *)
Theorem list_sort_reverse_sorted (l : list A) :
  Forall ordered l ->
  StronglySorted descending (Py.list_sort_reverse lt l)
  /\ filter class (Py.list_sort_reverse lt l) = filter class l.
Proof.
  intros Ho. unfold Py.list_sort_reverse.
  assert (Hrev : Forall ordered (rev l)).
  { apply Forall_forall. intros x Hx. apply in_rev in Hx.
    rewrite Forall_forall in Ho. apply Ho. exact Hx. }
  destruct (list_sort_sorted (rev l) Hrev) as [Hs Hf].
  split; [apply rev_sorted; exact Hs|].
  rewrite filter_rev, Hf, <- filter_rev, rev_involutive. reflexivity.
Qed.

End SortOrdered.

(** The order of the scores in a store. *)
Section ScoreOrder.

Variable h : Heap.t.

Definition has_score (r : Heap.ref) : Prop := not_nan (score_of h r).

Lemma score_lt_asym (a b : Heap.ref) :
  has_score a -> has_score b -> score_lt h a b = true -> score_lt h b a = false.
Proof. apply ltb_asym. Qed.

Lemma score_lt_neg_trans (a b c : Heap.ref) :
  has_score a -> has_score b -> has_score c ->
  score_lt h b a = false -> score_lt h c b = false -> score_lt h c a = false.
Proof. apply ltb_neg_trans. Qed.

(** The results whose score equals [q]. *)
Definition of_score (q : Py.float) (r : Heap.ref) : bool :=
  PrimFloat.eqb (score_of h r) q.

Lemma of_score_flat (q : Py.float) (a b : Heap.ref) :
  of_score q a = true -> of_score q b = true -> score_lt h a b = false.
Proof.
  unfold of_score, score_lt. intros Ha Hb.
  destruct (eqb_not_nan _ _ Ha) as [Hna Hnq].
  destruct (eqb_not_nan _ _ Hb) as [Hnb _].
  apply (eqb_rank _ _ Hna Hnq) in Ha. apply (eqb_rank _ _ Hnb Hnq) in Hb.
  apply ltb_false_rank; [assumption | assumption |].
  rewrite Ha, Hb. unfold rank_lt. lia.
Qed.

(** On scores none of which is a NaN, the ranking order. *)
Lemma sort_by_score (results : list Heap.ref) (q : Py.float) :
  Forall has_score results ->
  StronglySorted (fun a b => PrimFloat.leb (score_of h b) (score_of h a) = true)
                 (Py.list_sort_reverse (score_lt h) results)
  /\ filter (of_score q) (Py.list_sort_reverse (score_lt h) results)
     = filter (of_score q) results.
Proof.
  intros H.
  destruct (list_sort_reverse_sorted (score_lt h) has_score score_lt_asym
              score_lt_neg_trans (of_score q) (of_score_flat q) results H)
    as [Hs Hf].
  split; [|exact Hf].
  assert (Hall : Forall has_score (Py.list_sort_reverse (score_lt h) results)).
  { apply (Permutation_Forall (list_sort_reverse_perm (score_lt h) results)). exact H. }
  clear -Hs Hall. induction Hs as [|a l Hs IH Ha]; [constructor|].
  inversion Hall as [|? ? Hna Hl]; subst. constructor; [apply IH; exact Hl|].
  rewrite Forall_forall in *. intros b Hb.
  apply ltb_false_leb; [exact Hna | apply Hl; exact Hb | apply Ha; exact Hb].
Qed.

End ScoreOrder.

(** C4 (as amended).  The ranking visits each candidate once: its score is
    multiplied by 1.2 if the metadata holds [visual_enhancements], then by
    1.3 if it holds [chart_type], then by 1.1 if it holds [relationship],
    each product rounded as floats are, and the result is clamped to 1.0;
    nothing else in the store changes.  The candidates come back as a
    permutation of themselves.  When no final score is a NaN, they are
    sorted by descending final score and candidates of equal score keep
    their order.  A chart candidate of relevance 0.5 and confidence 0.6 ends
    at 0.39. *)
Theorem ranking_bonus_clamp_sort :
  forall (self : t) (query : Py.value) (results : list Heap.ref) (h : Heap.t),
    NoDup results ->
    let ranked := fst (_rank_multimodal_results self query (results, h)) in
    let h' := snd (_rank_multimodal_results self query (results, h)) in
    (forall r, In r results ->
               Heap.read h' r = option_map rescored (Heap.read h r))
    /\ (forall r, ~ In r results -> Heap.read h' r = Heap.read h r)
    /\ (forall x,
          SearchResult.confidence_score (rescored x) = Py.min (boosted x) 1%float
          /\ PrimFloat.ltb 1 (SearchResult.confidence_score (rescored x)) = false
          /\ SearchResult.metadata (rescored x) = SearchResult.metadata x
          /\ SearchResult.content (rescored x) = SearchResult.content x
          /\ SearchResult.id (rescored x) = SearchResult.id x)
    /\ Permutation results ranked
    /\ ((forall r, In r results -> not_nan (score_of h' r)) ->
        StronglySorted
          (fun a b => PrimFloat.leb (score_of h' b) (score_of h' a) = true) ranked
        /\ forall q, filter (of_score h' q) ranked = filter (of_score h' q) results)
    /\ (forall x,
          SearchResult.confidence_score x = (0.5 * 0.6)%float ->
          Py.dict_has (SearchResult.metadata x) "visual_enhancements" = false ->
          Py.dict_has (SearchResult.metadata x) "chart_type" = true ->
          Py.dict_has (SearchResult.metadata x) "relationship" = false ->
          SearchResult.confidence_score (rescored x) = 0.39%float).
Proof.
  intros self query results h Hnd ranked h'.
  unfold ranked, h', _rank_multimodal_results. cbn [fst snd].
  split; [| split; [| split; [| split; [| split]]]].
  - intros r. apply rescore_all. exact Hnd.
  - intros r. apply rescore_all. exact Hnd.
  - intros x. unfold rescored, set_confidence_score.
    cbn [SearchResult.confidence_score SearchResult.metadata SearchResult.content
         SearchResult.id].
    split; [apply ranked_score_boosted|].
    split; [apply py_min_le_1|]. repeat split.
  - apply list_sort_reverse_perm.
  - intros Hnan.
    assert (Hall : Forall (has_score (fold_left rescore results h)) results).
    { apply Forall_forall. exact Hnan. }
    split.
    + apply (proj1 (sort_by_score _ results 0%float Hall)).
    + intros q. apply (proj2 (sort_by_score _ results q Hall)).
  - intros x Hscore Hve Hct Hrel. unfold rescored, set_confidence_score.
    cbn [SearchResult.confidence_score].
    rewrite ranked_score_boosted. unfold boosted. rewrite Hve, Hct, Hrel, Hscore.
    reflexivity.
Qed.

(** The theorem at a store of three candidates: a text result of score 0.8
    with visual enhancements, a chart candidate of score 0.5 x 0.6 and a link
    candidate of score 0.95.  Their final scores are 0.96, 0.39 and 1.0, and
    the ranking returns the link, the text result and the chart. *)
Lemma ranking_bonus_clamp_sort_witness :
  let text_result :=
    SearchResult.mk "text_1" "Sample Document" "Sales analysis" DOCUMENT None
                    0.8%float
                    [("document_id", Py.VStr "doc_1");
                     ("visual_enhancements", Py.VInt 1)] in
  let chart :=
    SearchResult.mk "chart_u1" "Bar_Chart Chart" "sales up" IMAGE None
                    (0.5 * 0.6)%float
                    [("chart_type", Py.VStr "bar_chart");
                     ("data_insights", Py.VDict []);
                     ("queryable_facts", Py.VList [])] in
  let link :=
    SearchResult.mk "link_img_1" "Visual-Text Link (general)" "Relationship: general. "
                    IMAGE None 0.95%float
                    [("visual_id", Py.VStr "img_1");
                     ("relationship", Py.VStr "general");
                     ("link_confidence", Py.VFloat (95 # 100) "0.95")] in
  let self := __init__ "gemini" true false in
  let st := _rank_multimodal_results self (Py.VStr "sales") ([0; 1; 2]%nat,
                                                               [text_result; chart; link]) in
  fst st = [2; 0; 1]%nat
  /\ StronglySorted
       (fun a b => PrimFloat.leb (score_of (snd st) b) (score_of (snd st) a) = true)
       (fst st)
  /\ SearchResult.confidence_score (rescored chart) = 0.39%float
  /\ SearchResult.confidence_score (rescored text_result) = 0.96%float
  /\ SearchResult.confidence_score (rescored link) = 1%float.
Proof.
  cbv zeta.
  assert (Hnd : NoDup [0; 1; 2]%nat).
  { repeat constructor; simpl; intuition discriminate. }
  pose proof (ranking_bonus_clamp_sort
                (__init__ "gemini" true false) (Py.VStr "sales") [0; 1; 2]%nat
                [SearchResult.mk "text_1" "Sample Document" "Sales analysis" DOCUMENT
                                 None 0.8%float
                                 [("document_id", Py.VStr "doc_1");
                                  ("visual_enhancements", Py.VInt 1)];
                 SearchResult.mk "chart_u1" "Bar_Chart Chart" "sales up" IMAGE None
                                 (0.5 * 0.6)%float
                                 [("chart_type", Py.VStr "bar_chart");
                                  ("data_insights", Py.VDict []);
                                  ("queryable_facts", Py.VList [])];
                 SearchResult.mk "link_img_1" "Visual-Text Link (general)"
                                 "Relationship: general. " IMAGE None 0.95%float
                                 [("visual_id", Py.VStr "img_1");
                                  ("relationship", Py.VStr "general");
                                  ("link_confidence", Py.VFloat (95 # 100) "0.95")]]
                Hnd)
    as [_ [_ [_ [_ [Hsorted Hchart]]]]].
  split; [reflexivity|]. split.
  - apply Hsorted. intros r [<- | [<- | [<- | []]]]; reflexivity.
  - split; [apply Hchart; reflexivity|]. split; reflexivity.
Defined.

(** C4 as stated fails when a score is a NaN, which a candidate gets from a
    cached confidence that is a NaN ([json.loads] reads [NaN]): no
    comparison with a NaN holds, the sort finds the list already in order
    and leaves it as it is.  The result of score 0.5 stays ahead of the
    result of score 0.9.  The same happens in a search: the chart candidate
    of a cached analysis of confidence [NaN] stands between a text result
    of score 0.5 and a link candidate of final score 0.99, and the text
    result is ranked first. *)
Lemma ranking_nan_score :
  let result := fun id score =>
    SearchResult.mk id "Sample Document" "Sales analysis" DOCUMENT None score [] in
  let h := [result "text_1" 0.5%float; result "text_2" nan; result "text_3" 0.9%float] in
  let st := _rank_multimodal_results (__init__ "gemini" true false) (Py.VStr "sales")
                                     ([0; 1; 2]%nat, h) in
  let analysis :=
    ChartAnalysis.mk (Py.VStr "bar_chart") (Py.VDict []) "sales" Py.VNaN [] None in
  let link :=
    VisualTextLink.mk "img_1" (Py.VList [Py.VStr "sales"]) (Py.VStr "illustration")
                      (Py.VFloat (9 # 10) "0.9") in
  let found :=
    multi_modal_search (mk "gemini" true false [("u1", analysis)] [("img_1", link)])
                       (Py.VStr "sales") (ArgList [0%nat]) []
                       [result "text_1" 0.5%float] in
  (fst st = [0; 1; 2]%nat
   /\ score_of (snd st) 0%nat = 0.5%float
   /\ score_of (snd st) 2%nat = 0.9%float
   /\ PrimFloat.ltb (score_of (snd st) 0%nat) (score_of (snd st) 2%nat) = true
   /\ ~ StronglySorted
         (fun a b => PrimFloat.leb (score_of (snd st) b) (score_of (snd st) a) = true)
         (fst st))
  /\ (fst found = ArgList [0; 1; 2]%nat
      /\ map SearchResult.confidence_score (snd found)
         = [0.5%float; nan; (1 * 0.9 * 1.1)%float]
      /\ PrimFloat.ltb (score_of (snd found) 0%nat) (score_of (snd found) 2%nat) = true).
Proof.
  cbv zeta. split.
  - split; [reflexivity|]. split; [reflexivity|]. split; [reflexivity|].
    split; [reflexivity|].
    intros H. inversion H as [|? ? _ Hall]; subst.
    inversion Hall as [|? ? Hnan _]; subst. discriminate Hnan.
  - split; [vm_compute; reflexivity|]. split; vm_compute; reflexivity.
Qed.

(** ** The search *)

Section Search.

Variable self : t.
Variable query : Py.value.
Variable image_results : list DocumentImage.t.

(** The store after stage 1 visited the results [refs]. *)
Definition enhanced_store (refs : list Heap.ref) (h : Heap.t) : Heap.t :=
  fold_left (fun h result =>
               _enhance_text_with_visual_context self h result image_results)
            refs h.

Lemma enhance_length (h : Heap.t) (r : Heap.ref) :
  List.length (_enhance_text_with_visual_context self h r image_results)
  = List.length h.
Proof.
  unfold _enhance_text_with_visual_context.
  destruct (Heap.read h r); [apply write_length | reflexivity].
Qed.

Lemma enhanced_store_length (refs : list Heap.ref) (h : Heap.t) :
  List.length (enhanced_store refs h) = List.length h.
Proof.
  unfold enhanced_store. revert h. induction refs as [|r refs IH]; intros h;
    [reflexivity|].
  cbn [fold_left]. rewrite IH. apply enhance_length.
Qed.



(** When the loop over [text_results] fails, the argument comes back and
    the store is as stage 1 left it. *)
Lemma search_failure (text_results : results_arg) (h : Heap.t) :
  (forall refs, text_results <> ArgList refs) ->
  multi_modal_search self query text_results image_results h
  = (text_results, enhanced_store (fst (iter_results text_results)) h).
Proof.
  intros H. unfold multi_modal_search, multi_modal_search_body.
  destruct text_results as [|refs|refs e]; [reflexivity | | reflexivity].
  exfalso. apply (H refs). reflexivity.
Qed.


End Search.




(** ** The scores of the examples, as the floats compute them *)

Module Binary64.

(** The decimals of the source are the floats nearest to them. *)
Example decimals :
  Py.float_of_Q (3 # 10) = 0.3%float
  /\ Py.float_of_Q (39 # 100) = 0.39%float
  /\ Py.float_of_Q (1 # 3) = (1 / 3)%float.
Proof. repeat split. Qed.

Example chart_candidate_score :
  (0.5 * 0.6 * 1.3)%float = 0.39%float
  /\ Py.min (0.5 * 0.6 * 1.3)%float 1%float = 0.39%float.
Proof. split; reflexivity. Qed.

(** A product is rounded: 0.19 x 1.2 is just below 0.228, so a result of
    score 0.19 with visual enhancements ends behind a result of score
    0.228, which it would tie with in exact arithmetic. *)
Example rounded_product_breaks_tie :
  let enhanced :=
    SearchResult.mk "text_1" "Sample Document" "Sales analysis" DOCUMENT None
                    0.19%float [("visual_enhancements", Py.VInt 1)] in
  let plain_result :=
    SearchResult.mk "text_2" "Sample Document" "Sales analysis" DOCUMENT None
                    0.228%float [] in
  PrimFloat.ltb (0.19 * 1.2)%float 0.228%float = true
  /\ fst (_rank_multimodal_results (__init__ "gemini" true false) (Py.VStr "sales")
                                   ([0; 1]%nat, [enhanced; plain_result]))
     = [1; 0]%nat.
Proof. cbv zeta. split; reflexivity. Qed.

(** An integer too large for a float stops the product. *)
Example integer_confidence_overflows :
  Py.float_mul 0.5%float (Py.VInt (10 ^ 400)) = Py.Raise Py.OverflowError
  /\ Py.float_mul 0.5%float (Py.VInt 3) = Py.Ok 1.5%float
  /\ Py.float_mul 0.5%float (Py.VBool true) = Py.Ok 0.5%float
  /\ Py.float_mul 0.5%float (Py.VStr "high") = Py.Raise Py.TypeError.
Proof. repeat split. Qed.

End Binary64.

(* ================================================================== *)
(** * The rest of [multimodal_service.py] *)
(* ================================================================== *)

Module Settings.
(** [app/config.py] is not among the sources: the record holds the fields of
    [settings] that [_initialize_ai_clients] reads.  A key is [None] when it
    is not configured. *)
Record t : Type := mk {
  ai_provider : string;
  gemini_api_key : option string;
  claude_api_key : option string
}.
End Settings.

Module MultiModalSetup.

Import Schemas.

(** What can go wrong in [_initialize_ai_clients]: the client library
    refuses the key, or a name is not defined. *)
Inductive init_exn : Type :=
| ClientError
| NameError.

Definition key_set (key : option string) : bool :=
  match key with
  | Some k => negb (String.eqb k EmptyString)
  | None => false
  end.

(** The body of the [try]: the clients [(genai_client, claude_client)] it
    sets, both [None] before.  [genai_ok] tells whether [genai.configure] and
    [genai.GenerativeModel] return.  The module [anthropic] is not imported
    (its import is commented out), so naming it raises [NameError]. *)
Definition initialize_body (settings : Settings.t) (genai_ok : bool)
  : init_exn + bool * bool :=
  if (String.eqb (Settings.ai_provider settings) "gemini"
      && key_set (Settings.gemini_api_key settings))%bool
  then if genai_ok then inr (true, false) else inl ClientError
  else if (String.eqb (Settings.ai_provider settings) "claude"
           && key_set (Settings.claude_api_key settings))%bool
  then inl NameError
  else inr (false, false).

Definition _initialize_ai_clients (settings : Settings.t) (genai_ok : bool)
  : bool * bool :=
  match initialize_body settings genai_ok with
  | inr clients => clients
  | inl _ => (false, false)
  end.

(** [MultiModalService()]: empty caches, then the clients. *)
Definition construct (settings : Settings.t) (genai_ok : bool) : MultiModalService.t :=
  let (genai_client, claude_client) := _initialize_ai_clients settings genai_ok in
  MultiModalService.__init__ (Settings.ai_provider settings) genai_client claude_client.

(** *** Captions *)

Definition _generate_caption (self : MultiModalService.t) (w : remote) : string :=
  match MultiModalService.provider_of self with
  | MultiModalService.Gemini => text (MultiModalService._analyze_with_gemini w)
  | MultiModalService.Claude => text (MultiModalService._analyze_with_claude w)
  | MultiModalService.NoProvider => "Caption generation not available"
  end.

(** The outcomes of the three remote calls of one captioning. *)
Record caption_world : Type := mk_caption_world {
  technical_reply : remote;
  keyword_reply : remote;
  functional_reply : remote
}.

Definition generate_smart_image_captions (self : MultiModalService.t)
    (w : caption_world) (context : string) : list (string * string) :=
  Py.try_except
    (Py.Ok [("technical", _generate_caption self (technical_reply w));
            ("keywords", _generate_caption self (keyword_reply w));
            ("functional", _generate_caption self (functional_reply w))])
    [("error", "Caption generation failed")].

(** *** Uploaded images *)

Record multimodal_results : Type := mk_results {
  chart_analyses : list ChartAnalysis.t;
  visual_text_links : list VisualTextLink.t;
  enhanced_captions : list (list (string * string));
  searchable_content : list string
}.

(** One turn of the loop over the images: [continue] for an image that has a
    URL, [pass] for a chart; the analysis calls are commented out. *)
Definition visit_image (results : multimodal_results) (image : DocumentImage.t)
  : multimodal_results :=
  if key_set (DocumentImage.image_url image) then results
  else if MultiModalService.is_chart_like (DocumentImage.image_type image)
       then results
       else results.

(** [None] stands for the empty dictionary of the [except] branch. *)
Definition process_uploaded_images_for_multimodal (self : MultiModalService.t)
    (oracle : nat -> remote) (images : list DocumentImage.t)
    (text_chunks : list DocumentChunk.t)
  : option multimodal_results * MultiModalService.t :=
  let results := fold_left visit_image images (mk_results [] [] [] []) in
  let (visual_links, self') :=
    MultiModalService.create_visual_text_links self oracle images text_chunks in
  (Py.try_except
     (Py.Ok (Some (mk_results (chart_analyses results) visual_links
                              (enhanced_captions results) (searchable_content results))))
     None,
   self').

End MultiModalSetup.

(* ================================================================== *)
(** * [main.py]: the other multi-modal endpoints *)
(* ================================================================== *)

Module Endpoints.

(** The upload of an endpoint: [file.read] and [Image.open] return, or one
    of them raises with a message. *)
Inductive upload : Type :=
| Opened (filename : string)
| Unreadable (message : string).

Record chart_view : Type := mk_chart_view {
  id : string;
  type : Py.value;
  confidence : Py.value;
  facts_count : nat;
  description_preview : string
}.

Record charts_page : Type := mk_charts_page {
  charts : list chart_view;
  total_count : nat
}.

Definition charts_compliant (page : charts_page) : bool :=
  forallb (fun v => (Py.json_compliant (type v) && Py.json_compliant (confidence v))%bool)
          (charts page).

Definition chart_entry (entry : string * ChartAnalysis.t) : chart_view :=
  mk_chart_view (fst entry)
                (ChartAnalysis.chart_type (snd entry))
                (ChartAnalysis.confidence (snd entry))
                (List.length (ChartAnalysis.queryable_facts (snd entry)))
                (Py.take 200 (ChartAnalysis.text_content (snd entry)) ++ "...").

Definition list_chart_analyses (multimodal_service : option MultiModalService.t)
  : Main.http charts_page :=
  match multimodal_service with
  | None => Main.HTTPException 503 "Multi-modal service not initialized"
  | Some service =>
      Py.try_except
        (let charts := map chart_entry (MultiModalService.chart_cache service) in
         Py.Ok (Main.respond charts_compliant
                             (mk_charts_page charts (List.length charts))))
        (Main.HTTPException 500 "Failed to list charts")
  end.

Record chart_response : Type := mk_chart_response {
  success : bool;
  chart_type : Py.value;
  text_description : string;
  data_insights : Py.value;
  queryable_facts : list Py.value;
  response_confidence : Py.value
}.

Definition response_compliant (r : chart_response) : bool :=
  (Py.json_compliant (chart_type r) && Py.json_compliant (data_insights r)
   && forallb Py.json_compliant (queryable_facts r)
   && Py.json_compliant (response_confidence r))%bool.

(** [POST /analyze/chart]: the answer and the service afterwards. *)
Definition analyze_chart (multimodal_service : option MultiModalService.t)
    (file : upload) (w : MultiModalService.chart_world)
  : Main.http chart_response * option MultiModalService.t :=
  match multimodal_service with
  | None => (Main.HTTPException 503 "Multi-modal service not initialized", None)
  | Some service =>
      match file with
      | Unreadable message =>
          (Main.HTTPException 500 ("Chart analysis failed: " ++ message), Some service)
      | Opened _ =>
          let (analysis, service') :=
            MultiModalService.analyze_chart_to_text service w EmptyString in
          (Main.respond response_compliant
             (mk_chart_response true
                                (ChartAnalysis.chart_type analysis)
                                (ChartAnalysis.text_content analysis)
                                (ChartAnalysis.data_insights analysis)
                                (ChartAnalysis.queryable_facts analysis)
                                (ChartAnalysis.confidence analysis)),
           Some service')
      end
  end.

Record image_response : Type := mk_image_response {
  image_success : bool;
  captions : list (string * string);
  filename : string
}.

(** [POST /analyze/image].  The value returned holds strings only. *)
Definition analyze_image_content (multimodal_service : option MultiModalService.t)
    (file : upload) (w : MultiModalSetup.caption_world) : Main.http image_response :=
  match multimodal_service with
  | None => Main.HTTPException 503 "Multi-modal service not initialized"
  | Some service =>
      match file with
      | Unreadable message => Main.HTTPException 500 ("Image analysis failed: " ++ message)
      | Opened name =>
          Main.Http200
            (mk_image_response
               true
               (MultiModalSetup.generate_smart_image_captions
                  service w "User uploaded image for analysis")
               name)
      end
  end.

(** The module-level services of [main.py]; a service that is not a
    [MultiModalService] is [true] when set. *)
Record globals : Type := mk_globals {
  rag_service : bool;
  document_processor : bool;
  multimodal_service : option MultiModalService.t
}.

Definition at_import : globals := mk_globals false false None.

(** The start-up half of [lifespan]: the services it creates, or [None] when
    one of them raises and the start-up is abandoned.  The creation of the
    multi-modal service is commented out. *)
Definition lifespan (services_start : bool) : option globals :=
  if services_start
  then Some (mk_globals true true (multimodal_service at_import))
  else None.

End Endpoints.

(* ================================================================== *)
(** * Further properties *)
(* ================================================================== *)

(** ** More on the relevance scorer *)

Section RelevanceMore.

Lemma filter_all_length {A : Type} (p : A -> bool) (l : list A) :
  List.length (filter p l) = List.length l <-> forall x, In x l -> p x = true.
Proof.
  induction l as [|x l IH]; simpl.
  - split; [intros _ y [] | reflexivity].
  - destruct (p x) eqn:E; simpl.
    + split.
      * intros H y [<- | Hy]; [exact E|]. apply IH; [lia | exact Hy].
      * intros H. f_equal. apply IH. intros y Hy. apply H. right. exact Hy.
    + split.
      * intros H. pose proof (filter_length_le p l). lia.
      * intros H. rewrite (H x (or_introl eq_refl)) in E. discriminate.
Qed.

Lemma py_set_nil (l : list string) : py_set l = [] <-> l = [].
Proof.
  split; [|intros ->; reflexivity].
  destruct l as [|w l]; [reflexivity|]. intros H.
  assert (Hin : In w (py_set (w :: l))) by (apply py_set_In; left; reflexivity).
  rewrite H in Hin. destruct Hin.
Qed.

Lemma in_text_words (text_words : list string) (w : string) :
  existsb (String.eqb w) text_words = true <-> In w text_words.
Proof.
  rewrite existsb_exists. split.
  - intros [x [Hx E]]. apply String.eqb_eq in E. subst. exact Hx.
  - intros H. exists w. split; [exact H | apply String.eqb_refl].
Qed.

End RelevanceMore.

(** X1.  The relevance of a text to a query is 1 exactly when the query has
    a token and every token of the query is a token of the text. *)
Theorem relevance_one_iff_covered :
  forall query text : string,
    _calculate_text_relevance (Py.VStr query) (Py.VStr text) == 1
    <-> tokens query <> [] /\ incl (tokens query) (tokens text).
Proof.
  intros query text. rewrite text_relevance_str.
  set (qw := py_set (tokens query)). set (tw := py_set (tokens text)).
  pose proof (intersection_length qw tw) as Hle.
  unfold Qeq. cbn [Qnum Qden]. rewrite Z.mul_1_r, Z.mul_1_l.
  destruct (List.length qw) as [|n] eqn:En.
  - assert (Hq : tokens query = []).
    { apply py_set_nil. apply length_zero_iff_nil. exact En. }
    split.
    + intros H. exfalso. assert (List.length (intersection qw tw) = 0)%nat by lia.
      rewrite H0 in H. discriminate.
    + intros [Hne _]. contradiction.
  - rewrite Zpos_of_nat by lia. rewrite Nat.max_l by lia. rewrite Nat2Z.inj_iff.
    rewrite <- En. unfold intersection. rewrite filter_all_length. split.
    + intros H. split.
      * intros Hq. unfold qw in En. rewrite Hq in En. discriminate.
      * intros w Hw. apply (py_set_In (tokens text)). apply in_text_words.
        apply H. apply py_set_In. exact Hw.
    + intros [_ Hincl] w Hw. apply in_text_words. apply py_set_In.
      apply Hincl. apply (py_set_In (tokens query)). exact Hw.
Qed.

(** X2.  The relevance is 0 exactly when the query and the text have no
    token in common. *)
Theorem relevance_zero_iff_disjoint :
  forall query text : string,
    _calculate_text_relevance (Py.VStr query) (Py.VStr text) == 0
    <-> forall w, In w (tokens query) -> ~ In w (tokens text).
Proof.
  intros query text. rewrite text_relevance_str.
  set (common := intersection (py_set (tokens query)) (py_set (tokens text))).
  unfold Qeq. cbn [Qnum Qden]. rewrite Z.mul_1_r, Z.mul_0_l. split.
  - intros H w Hq Ht.
    assert (Hin : In w common).
    { apply intersection_In. split; apply py_set_In; assumption. }
    destruct common; [destruct Hin | discriminate].
  - intros H. destruct common as [|w l] eqn:E; [reflexivity|]. exfalso.
    assert (Hin : In w common) by (rewrite E; left; reflexivity).
    apply intersection_In in Hin. destruct Hin as [Hq Ht].
    apply (proj1 (py_set_In _ _)) in Hq. apply (proj1 (py_set_In _ _)) in Ht.
    exact (H w Hq Ht).
Qed.

(** X3.  The relevance depends on the sets of tokens only: letter case,
    whitespace, the order of the words and their repetitions do not count. *)
Theorem relevance_depends_on_token_sets :
  forall query query' text text' : string,
    (forall w, In w (tokens query) <-> In w (tokens query')) ->
    (forall w, In w (tokens text) <-> In w (tokens text')) ->
    _calculate_text_relevance (Py.VStr query) (Py.VStr text)
    == _calculate_text_relevance (Py.VStr query') (Py.VStr text').
Proof.
  intros query query' text text' Hq Ht. rewrite !text_relevance_str.
  assert (E1 : List.length (intersection (py_set (tokens query)) (py_set (tokens text)))
               = List.length (intersection (py_set (tokens query'))
                                           (py_set (tokens text')))).
  { apply NoDup_same_length; try (apply intersection_NoDup, py_set_NoDup).
    intros w. rewrite !intersection_In, !py_set_In, Hq, Ht. reflexivity. }
  assert (E2 : List.length (py_set (tokens query))
               = List.length (py_set (tokens query'))).
  { apply NoDup_same_length; try apply py_set_NoDup.
    intros w. rewrite !py_set_In. apply Hq. }
  rewrite E1, E2. reflexivity.
Qed.

(** The theorem at two spellings of a query and of a text. *)
Lemma relevance_depends_on_token_sets_witness :
  _calculate_text_relevance (Py.VStr "Sales  SALES growth") (Py.VStr "sales up")
  == _calculate_text_relevance (Py.VStr "growth sales") (Py.VStr "UP up Sales").
Proof.
  apply relevance_depends_on_token_sets; intros w; simpl; intuition.
Defined.

(** X4.  A text that has every token of another text is at least as
    relevant to any query. *)
Theorem relevance_grows_with_text :
  forall query text text' : string,
    incl (tokens text) (tokens text') ->
    _calculate_text_relevance (Py.VStr query) (Py.VStr text)
    <= _calculate_text_relevance (Py.VStr query) (Py.VStr text').
Proof.
  intros query text text' Hincl. rewrite !text_relevance_str.
  assert (Hle : (List.length (intersection (py_set (tokens query)) (py_set (tokens text)))
                 <= List.length (intersection (py_set (tokens query))
                                              (py_set (tokens text'))))%nat).
  { apply NoDup_incl_length; [apply intersection_NoDup, py_set_NoDup|].
    intros w Hw. apply intersection_In in Hw. destruct Hw as [Hq Ht].
    apply intersection_In. split; [exact Hq|].
    apply py_set_In. apply Hincl. apply (proj1 (py_set_In _ _)) in Ht. exact Ht. }
  unfold Qle. cbn [Qnum Qden]. apply Z.mul_le_mono_nonneg_r; lia.
Qed.

(** The theorem at a text and the same text with one more sentence. *)
Lemma relevance_grows_with_text_witness :
  _calculate_text_relevance (Py.VStr "sales trends") (Py.VStr "Sales by quarter")
  <= _calculate_text_relevance (Py.VStr "sales trends")
                               (Py.VStr "Sales by quarter and the trends").
Proof.
  apply relevance_grows_with_text.
  intros w; simpl; intuition.
Defined.

(** ** The clients and the pipeline *)

Section Setup.

Lemma provider_of_flags (ai_provider : string) (genai_client claude_client : bool)
    (charts : list (string * ChartAnalysis.t))
    (links : list (string * VisualTextLink.t)) :
  provider_of (mk ai_provider genai_client claude_client charts links)
  = if (String.eqb ai_provider "gemini" && genai_client)%bool then Gemini
    else if (String.eqb ai_provider "claude" && claude_client)%bool then Claude
    else NoProvider.
Proof. reflexivity. Qed.

End Setup.

(** X5.  A freshly constructed service never has a Claude client: naming
    the module that is not imported raises, and the handler leaves the
    client unset.  So no stage ever takes the Claude branch; the Gemini
    branch is taken exactly when the provider is ["gemini"], its key is set
    and the client library accepted it.  The caches start empty. *)
Theorem constructed_service_has_no_claude_client :
  forall (settings : Settings.t) (genai_ok : bool),
    let self := MultiModalSetup.construct settings genai_ok in
    claude_client self = false
    /\ provider_of self <> Claude
    /\ (provider_of self = Gemini <->
        Settings.ai_provider settings = "gemini"%string
        /\ MultiModalSetup.key_set (Settings.gemini_api_key settings) = true
        /\ genai_ok = true)
    /\ chart_cache self = []
    /\ visual_text_links self = [].
Proof.
  intros settings genai_ok.
  unfold MultiModalSetup.construct, MultiModalSetup._initialize_ai_clients,
    MultiModalSetup.initialize_body, __init__.
  destruct (String.eqb (Settings.ai_provider settings) "gemini") eqn:Eg;
    destruct (MultiModalSetup.key_set (Settings.gemini_api_key settings)) eqn:Ek;
    destruct genai_ok;
    destruct (String.eqb (Settings.ai_provider settings) "claude") eqn:Ec;
    destruct (MultiModalSetup.key_set (Settings.claude_api_key settings)) eqn:Ekc;
    cbn -[String.eqb]; rewrite ?provider_of_flags, ?Eg, ?Ec; cbn -[String.eqb];
    (split; [reflexivity|]); (split; [discriminate|]);
    (split; [|split; reflexivity]);
    try (apply String.eqb_eq in Eg);
    (split; [try discriminate; intros _; repeat split; assumption
            | try reflexivity; intros [H1 [H2 H3]]; try discriminate;
              try (rewrite H1 in Eg; discriminate)]).
Qed.

Section PipelineMore.






Lemma data_point_facts_not_dict (v : Py.value) (facts : list Py.value) :
  is_dict v = false -> data_point_facts v facts = (facts, Some Py.AttributeError).
Proof. destruct v; try discriminate; reflexivity. Qed.

Lemma type_fact_not_dict (v : Py.value) (facts : list Py.value) :
  is_dict v = false -> type_fact v facts = (facts, Some Py.AttributeError).
Proof. destruct v; try discriminate; reflexivity. Qed.

(** The reply the structure stage works on, when a client is configured. *)
Definition structure_response (self : t) (w : remote) : option response :=
  match provider_of self with
  | Gemini => Some (_analyze_with_gemini w)
  | Claude => Some (_analyze_with_claude w)
  | NoProvider => None
  end.


Lemma identify_json (self : t) (w : remote) (r : response) (v : Py.value) :
  structure_response self w = Some r -> parsed r = Some v ->
  _identify_chart_structure self w = v.
Proof.
  unfold structure_response, _identify_chart_structure, loads_or, json_loads.
  destruct (provider_of self); intros E Hp; inversion E; subst;
    rewrite Hp; reflexivity.
Qed.

(** A failed remote call is never JSON for the stage. *)
Lemma failed_call_not_json (self : t) :
  provider_of self <> NoProvider ->
  exists r, structure_response self Fails = Some r
            /\ parsed r = None /\ text r = "Analysis failed"%string.
Proof.
  unfold structure_response. destruct (provider_of self); intros H;
    [eexists; repeat split .. | contradiction].
Qed.

End PipelineMore.

(** X6.  Without a configured client no remote call is made: whatever the
    oracle would answer, the analysis is of type ["unknown"] with confidence
    [0.0], no data, the description built from the defaults and the single
    fact ["This is a unknown"]; it is cached under the drawn identifier. *)
Theorem analysis_without_client :
  forall (self : t) (w : chart_world) (context : string),
    provider_of self = NoProvider ->
    let analysis :=
      ChartAnalysis.mk (Py.VStr "unknown") (Py.VDict [])
                       "Chart of type unknown with title Untitled Chart"
                       (Py.VFloat 0 "0.0") [Py.VStr "This is a unknown"] None in
    analyze_chart_to_text self w context
    = (analysis,
       set_chart_cache self (Py.dict_set (chart_cache self) (uuid4 w) analysis)).
Proof.
  intros self w context H.
  unfold analyze_chart_to_text, analyze_chart_body, _identify_chart_structure,
    _extract_chart_data, _generate_chart_text_description.
  rewrite H. reflexivity.
Qed.

(** The theorem at a service constructed for the provider ["claude"]. *)
Lemma analysis_without_client_witness :
  let self :=
    MultiModalSetup.construct (Settings.mk "claude" None (Some "test-key")) true in
  ChartAnalysis.text_content
    (fst (analyze_chart_to_text self (mk_chart_world Fails Fails Fails "7b0c")
                                "Sales data for Q1-Q4 2023"))
  = "Chart of type unknown with title Untitled Chart"%string.
Proof.
  cbv zeta.
  rewrite (analysis_without_client
             (MultiModalSetup.construct (Settings.mk "claude" None (Some "test-key")) true)
             (mk_chart_world Fails Fails Fails "7b0c")
             "Sales data for Q1-Q4 2023" eq_refl).
  reflexivity.
Defined.



(** X8.  A call that ends normally stores its analysis under the drawn
    identifier, where a lookup finds it, and leaves every other entry of the
    chart cache alone; a call that falls back to the default analysis stores
    nothing.  The link cache and the clients are never touched. *)
Theorem analysis_is_cached_under_its_id :
  forall (self : t) (w : chart_world) (context : string),
    let result := analyze_chart_to_text self w context in
    let structure := _identify_chart_structure self (structure_reply w) in
    (is_dict structure = true ->
     Py.dict_get (chart_cache (snd result)) (uuid4 w) = Some (fst result))
    /\ (forall k, k <> uuid4 w ->
                  Py.dict_get (chart_cache (snd result)) k
                  = Py.dict_get (chart_cache self) k)
    /\ (is_dict structure = false ->
        result = (default_analysis, self))
    /\ visual_text_links (snd result) = visual_text_links self
    /\ provider_of (snd result) = provider_of self.
Proof.
  intros self w context result structure. unfold result, structure.
  destruct (is_dict (_identify_chart_structure self (structure_reply w))) eqn:E.
  - rewrite analyze_chart_ok by assumption. cbn [fst snd].
    split; [intros _; apply dict_get_set_same|].
    split; [intros k Hk; apply dict_get_set_other; exact Hk|].
    split; [discriminate|]. split; reflexivity.
  - assert (Hd : analyze_chart_to_text self w context = (default_analysis, self)).
    { unfold analyze_chart_to_text. apply try_except_raises.
      rewrite analyze_chart_body_raises, E. reflexivity. }
    rewrite Hd. cbn [fst snd].
    split; [discriminate|]. split; [reflexivity|].
    split; [reflexivity|]. split; reflexivity.
Qed.

Section Description.

(** The text the description stage starts from: the reply of the model, or
    the sentence built from the metadata when no client is configured. *)
Definition description_base (self : t) (w : remote) (m : list (string * Py.value))
  : string :=
  match provider_of self with
  | Gemini => text (_analyze_with_gemini w)
  | Claude => text (_analyze_with_claude w)
  | NoProvider =>
      "Chart of type "
        ++ Py.str (match Py.dict_get m "type" with
                   | Some v => v
                   | None => Py.VStr "chart"
                   end)
        ++ " with title "
        ++ Py.str (match Py.dict_get m "title" with
                   | Some v => v
                   | None => Py.VStr "Untitled Chart"
                   end)
  end%string.

(** A computation that, when it returns, returns [base] with something
    appended. *)
Definition extends_base (base : string) (m : Py.exc string) : Prop :=
  match m with
  | Py.Ok s => exists suffix, s = (base ++ suffix)%string
  | Py.Raise _ => True
  end.

Lemma string_app_assoc (a b c : string) : ((a ++ b) ++ c = a ++ b ++ c)%string.
Proof. induction a as [|x a IH]; simpl; [reflexivity | rewrite IH; reflexivity]. Qed.

Lemma string_app_nil_r (a : string) : (a ++ EmptyString = a)%string.
Proof. induction a as [|x a IH]; simpl; [reflexivity | rewrite IH; reflexivity]. Qed.

Lemma extends_base_bind {A : Type} (base : string) (m : Py.exc A)
    (k : A -> Py.exc string) :
  (forall a, extends_base base (k a)) -> extends_base base (Py.bind m k).
Proof. intros H. destruct m as [a|e]; simpl; [apply H | exact I]. Qed.

Lemma extends_base_bind_string (base : string) (m : Py.exc string)
    (k : string -> Py.exc string) :
  extends_base base m ->
  (forall suffix, extends_base base (k (base ++ suffix)%string)) ->
  extends_base base (Py.bind m k).
Proof.
  intros Hm Hk. destruct m as [s|e]; simpl; [|exact I].
  destruct Hm as [suffix ->]. apply Hk.
Qed.

Lemma extends_base_ok (base suffix more : string) :
  extends_base base (Py.Ok ((base ++ suffix) ++ more)%string).
Proof. exists (suffix ++ more)%string. apply string_app_assoc. Qed.

Lemma extends_base_same (base suffix : string) :
  extends_base base (Py.Ok (base ++ suffix)%string).
Proof. exists suffix. reflexivity. Qed.

Lemma description_extends (self : t) (w : remote) (m d : list (string * Py.value))
    (context : string) :
  _generate_chart_text_description self w (Py.VDict m) (Py.VDict d) context
  = "Chart description generation failed"%string
  \/ exists suffix,
       _generate_chart_text_description self w (Py.VDict m) (Py.VDict d) context
       = (description_base self w m ++ suffix)%string.
Proof.
  unfold _generate_chart_text_description.
  match goal with
  | |- Py.try_except ?body _ = _ \/ _ =>
      assert (H : extends_base (description_base self w m) body)
  end.
  { cbn [Py.get Py.bind].
    fold (description_base self w m). set (base := description_base self w m).
    destruct (Py.truthy _).
    - cbn [Py.getitem].
      destruct (Py.dict_get d "key_statistics") as [stats|]; cbn [Py.bind]; [|exact I].
      apply extends_base_bind; intros has_highest.
      apply extends_base_bind_string.
      { destruct has_highest.
        - apply extends_base_bind; intros highest.
          apply extends_base_bind; intros v.
          rewrite ?string_app_assoc. apply extends_base_same.
        - rewrite ?string_app_assoc. apply extends_base_same. }
      intros s1. apply extends_base_bind; intros has_lowest.
      apply extends_base_bind_string.
      { destruct has_lowest.
        - apply extends_base_bind; intros lowest.
          apply extends_base_bind; intros v.
          rewrite ?string_app_assoc. apply extends_base_same.
        - apply extends_base_same. }
      intros s2. apply extends_base_bind; intros has_average.
      apply extends_base_bind_string.
      { destruct has_average.
        - apply extends_base_bind; intros average.
          rewrite ?string_app_assoc. apply extends_base_same.
        - apply extends_base_same. }
      intros s3. apply extends_base_same.
    - exists EmptyString. symmetry. apply string_app_nil_r. }
  match goal with
  | |- Py.try_except ?body _ = _ \/ _ => destruct body as [s|e]
  end; simpl; [right; exact H | left; reflexivity].
Qed.

Lemma description_without_statistics (self : t) (w : remote)
    (m d : list (string * Py.value)) (context : string) :
  Py.truthy (field d "key_statistics") = false ->
  _generate_chart_text_description self w (Py.VDict m) (Py.VDict d) context
  = description_base self w m.
Proof.
  unfold _generate_chart_text_description, field. cbn [Py.get Py.bind].
  intros H. rewrite H. reflexivity.
Qed.

End Description.

(** X9.  For a metadata dictionary and a data dictionary, the description
    stage returns either its failure text or the model's reply (the default
    sentence when no client is configured) followed by the statistics
    summary: the reply is never altered or dropped.  Without statistics the
    description is the reply itself. *)
Theorem description_keeps_the_reply :
  forall (self : t) (w : remote) (m d : list (string * Py.value)) (context : string),
    let description :=
      _generate_chart_text_description self w (Py.VDict m) (Py.VDict d) context in
    (description = "Chart description generation failed"%string
     \/ String.prefix (description_base self w m) description = true)
    /\ (Py.truthy (field d "key_statistics") = false ->
        description = description_base self w m).
Proof.
  intros self w m d context description. unfold description. split.
  - destruct (description_extends self w m d context) as [H | [suffix H]].
    + left. exact H.
    + right. rewrite H. apply prefix_app. exists suffix. reflexivity.
  - apply description_without_statistics.
Qed.

(** X10.  Fact extraction degrades instead of failing: metadata that are
    not a dictionary give no fact at all, and data that are not a dictionary
    leave the type fact and the title fact only. *)
Theorem facts_degrade_on_malformed_input :
  forall (metadata data_insights : Py.value) (text_content : string),
    (is_dict metadata = false ->
     _extract_queryable_facts metadata data_insights text_content = [])
    /\ (forall m, metadata = Py.VDict m -> is_dict data_insights = false ->
                  _extract_queryable_facts metadata data_insights text_content
                  = map Py.VStr (a_type_fact m ++ a_title_fact m)).
Proof.
  intros metadata data_insights text_content. split.
  - intros H. unfold _extract_queryable_facts. unfold Block.seq at 1.
    rewrite type_fact_not_dict by assumption. reflexivity.
  - intros m -> H. unfold _extract_queryable_facts. unfold Block.seq at 1.
    rewrite (appends_type_fact m []). unfold Block.seq at 1.
    rewrite (appends_title_fact m). unfold Block.seq at 1.
    rewrite data_point_facts_not_dict by assumption.
    cbn [fst app]. rewrite map_app. reflexivity.
Qed.

(** ** More on the linker *)

Section LinkerMore.

Variable self : t.
Variable text_chunks : list DocumentChunk.t.

(** Whatever [add_link] keeps, the whole loop keeps. *)
Lemma link_images_preserves (I : link_state -> Prop)
    (images : list DocumentImage.t) (oracle : nat -> remote) (i : nat) :
  (forall link, preserves I (add_link link)) ->
  preserves I (link_images self text_chunks images oracle i).
Proof.
  intros Hadd. revert i. induction images as [|image images IH]; intros i; simpl.
  - apply preserves_skip.
  - apply preserves_seq; [|apply IH].
    unfold link_image. destruct (related_chunks image text_chunks).
    + apply preserves_skip.
    + apply preserves_eval; intros items _.
      apply preserves_for_each. intros relationship _. unfold link_relationship.
      apply preserves_eval; intros a _.
      apply preserves_eval; intros b _.
      apply preserves_eval; intros c _.
      apply Hadd.
Qed.

(** The last link of a list that carries the identifier [k]. *)
Definition last_link (k : string) (links : list VisualTextLink.t)
  : option VisualTextLink.t :=
  find (fun link => String.eqb (VisualTextLink.visual_id link) k) (rev links).

Lemma last_link_app (k : string) (links : list VisualTextLink.t)
    (link : VisualTextLink.t) :
  last_link k (links ++ [link])
  = if String.eqb (VisualTextLink.visual_id link) k then Some link
    else last_link k links.
Proof. unfold last_link. rewrite rev_app_distr. reflexivity. Qed.

(** The cache answers with the last link made for an identifier, and with
    what it held before for the others. *)
Definition cache_follows (cache0 : list (string * VisualTextLink.t))
    (st : link_state) : Prop :=
  forall k, Py.dict_get (snd st) k
            = match last_link k (fst st) with
              | Some link => Some link
              | None => Py.dict_get cache0 k
              end.

Lemma add_link_follows (cache0 : list (string * VisualTextLink.t))
    (link : VisualTextLink.t) :
  preserves (cache_follows cache0) (add_link link).
Proof.
  apply preserves_modify. intros [links cache] H k. cbn [fst snd].
  rewrite last_link_app.
  destruct (String.eqb (VisualTextLink.visual_id link) k) eqn:E.
  - apply String.eqb_eq in E. subst k. apply dict_get_set_same.
  - rewrite dict_get_set_other; [apply H|].
    intros ->. rewrite String.eqb_refl in E. discriminate.
Qed.








Lemma link_images_no_provider (images : list DocumentImage.t)
    (oracle : nat -> remote) (i : nat) (st : link_state) :
  provider_of self = NoProvider ->
  link_images self text_chunks images oracle i st = (st, None).
Proof.
  intros H. revert i. induction images as [|image images IH]; intros i.
  - reflexivity.
  - cbn [link_images]. unfold Block.seq.
    assert (E : link_image self text_chunks image (oracle i) st = (st, None)).
    { unfold link_image, _analyze_visual_text_relationships. rewrite H.
      destruct (related_chunks image text_chunks); reflexivity. }
    rewrite E. apply IH.
Qed.

End LinkerMore.

(** X11.  Without a configured client the linker makes no link: it returns
    the empty list and leaves the service as it was, whatever the images and
    the chunks. *)
Theorem no_links_without_client :
  forall (self : t) (oracle : nat -> remote)
         (images : list DocumentImage.t) (text_chunks : list DocumentChunk.t),
    provider_of self = NoProvider ->
    create_visual_text_links self oracle images text_chunks = ([], self).
Proof.
  intros self oracle images text_chunks H. unfold create_visual_text_links.
  rewrite link_images_no_provider by assumption.
  destruct self. reflexivity.
Qed.

(** The theorem at the images and chunks of a document, for a service
    constructed with the provider ["claude"]. *)
Lemma no_links_without_client_witness :
  let self :=
    MultiModalSetup.construct (Settings.mk "claude" None (Some "test-key")) true in
  let image := DocumentImage.mk "img_1" "doc_1" 1 "chart" None None [] in
  let chunk := DocumentChunk.mk "chunk_1" "doc_1" "The sales data" 1 [] in
  create_visual_text_links self (fun _ => Fails) [image] [chunk] = ([], self).
Proof.
  cbv zeta. apply no_links_without_client. reflexivity.
Defined.



Lemma store_links_get (cache : list (string * VisualTextLink.t))
    (links : list VisualTextLink.t) (k : string) :
  Py.dict_get (store_links cache links) k
  = match last_link k links with
    | Some link => Some link
    | None => Py.dict_get cache k
    end.
Proof.
  induction links as [|link links IH] using rev_ind; [reflexivity|].
  rewrite store_links_app, last_link_app. cbn [store_links fold_left].
  destruct (String.eqb (VisualTextLink.visual_id link) k) eqn:E.
  - apply String.eqb_eq in E. subst k. apply dict_get_set_same.
  - rewrite dict_get_set_other; [exact IH|].
    intros ->. rewrite String.eqb_refl in E. discriminate.
Qed.

(** X13.  After a linking pass the cache answers, for every identifier,
    with the last link the pass made for it, and with what it held before
    when the pass made none, where the links the pass made are those of the
    images in order, up to the first relationship that is malformed.  The
    function returns these links, or the empty list when the pass failed:
    the links made before the failure stay in the cache all the same. *)
Theorem cache_holds_last_link_made :
  forall (self : t) (oracle : nat -> remote)
         (images : list DocumentImage.t) (text_chunks : list DocumentChunk.t),
    let result := create_visual_text_links self oracle images text_chunks in
    let made := fst (pass self text_chunks images oracle 0) in
    let failure := snd (pass self text_chunks images oracle 0) in
    fst result = match failure with
                 | None => made
                 | Some _ => []
                 end
    /\ forall k,
         Py.dict_get (visual_text_links (snd result)) k
         = match last_link k made with
           | Some link => Some link
           | None => Py.dict_get (visual_text_links self) k
           end.
Proof.
  intros self oracle images text_chunks result made failure.
  unfold result, made, failure. rewrite create_links_pass. cbn [fst snd].
  split; [reflexivity|]. intros k. unfold set_visual_text_links.
  cbn [visual_text_links]. apply store_links_get.
Qed.

(** The pass of two relationships of which the second lacks its snippets:
    the list of links is lost, the first link stays in the cache. *)
Example failed_pass_keeps_cached_link :
  let good :=
    Py.VDict [("relationship", Py.VStr "illustration");
              ("text_chunks", Py.VList [Py.VStr "Revenue by quarter"]);
              ("confidence", Py.VFloat (8 # 10) "0.8")] in
  let bad := Py.VDict [("relationship", Py.VStr "example")] in
  let image := DocumentImage.mk "img_1" "doc_1" 1 "chart" None None [] in
  let chunk := DocumentChunk.mk "chunk_1" "doc_1" "Revenue by quarter" 1 [] in
  let result :=
    create_visual_text_links (__init__ "gemini" true false)
                             (fun _ => json_reply (Py.VList [good; bad]))
                             [image] [chunk] in
  fst result = []
  /\ Py.dict_get (visual_text_links (snd result)) "img_1"
     = Some (VisualTextLink.mk "img_1" (Py.VList [Py.VStr "Revenue by quarter"])
                               (Py.VStr "illustration") (Py.VFloat (8 # 10) "0.8")).
Proof. cbv zeta. split; reflexivity. Qed.

(** ** More on the visual context of a text result *)

Section EnhanceMore.

Variable self : t.

Lemma write_read_same (h : Heap.t) (r : Heap.ref) (x : SearchResult.t) :
  Heap.read h r = Some x -> Heap.write h r x = h.
Proof.
  unfold Heap.read. revert r. induction h as [|y h IH]; intros [|r]; simpl;
    try discriminate.
  - intros E. inversion E. reflexivity.
  - intros E. rewrite IH by assumption. reflexivity.
Qed.

Lemma image_context_length (img : DocumentImage.t) :
  (List.length (image_context self img) <= 2)%nat.
Proof.
  unfold image_context. rewrite length_app.
  destruct (DocumentImage.description img) as [d|];
    [destruct (String.eqb d EmptyString)|];
    destruct (is_chart_like (DocumentImage.image_type img));
    try destruct (_get_chart_analysis_by_image_id self (DocumentImage.id img));
    simpl; lia.
Qed.

Lemma flat_map_length_le {A B : Type} (f : A -> list B) (n : nat) (l : list A) :
  (forall x, List.length (f x) <= n)%nat ->
  (List.length (flat_map f l) <= n * List.length l)%nat.
Proof.
  intros H. induction l as [|x l IH]; simpl; [lia|].
  rewrite length_app. specialize (H x). lia.
Qed.

Lemma visual_context_length (related_images : list DocumentImage.t) :
  (List.length (visual_context self related_images) <= 6)%nat.
Proof.
  unfold visual_context.
  pose proof (flat_map_length_le (image_context self) 2 (firstn 3 related_images)
                image_context_length) as H.
  pose proof (firstn_le_length 3 related_images) as H3. lia.
Qed.

(** What the body of the enhancement leaves of a text result: the result
    itself, or the result with one to six fragments added. *)
Lemma enhance_cases (x : SearchResult.t) (image_results : list DocumentImage.t) :
  Py.try_except (enhance_body self x image_results) x = x
  \/ exists context,
       (1 <= List.length context <= 6)%nat
       /\ Py.try_except (enhance_body self x image_results) x
          = add_visual_context x context.
Proof.
  unfold enhance_body.
  destruct (filter_exc (same_document_near_page x) image_results)
    as [[|img related]|e]; cbn [Py.bind Py.try_except]; try (left; reflexivity).
  pose proof (visual_context_length (img :: related)) as Hlen.
  destruct (visual_context self (img :: related)) as [|c context] eqn:E;
    cbn [Py.try_except]; [left; reflexivity|].
  right. exists (c :: context). split; [simpl in *; lia | reflexivity].
Qed.

Lemma filter_exc_no_document (x : SearchResult.t) (image_results : list DocumentImage.t) :
  (forall img, In img image_results ->
               same_document_near_page x img = Py.Ok false) ->
  filter_exc (same_document_near_page x) image_results = Py.Ok [].
Proof.
  induction image_results as [|img l IH]; intros H; [reflexivity|].
  cbn [filter_exc]. rewrite (H img (or_introl eq_refl)). cbn [Py.bind].
  rewrite IH; [reflexivity|]. intros i Hi. apply H. right. exact Hi.
Qed.

Definition page_of (x : SearchResult.t) : Py.value :=
  match Py.dict_get (SearchResult.metadata x) "page_number" with
  | Some v => v
  | None => Py.VInt 0
  end.

Definition document_of (x : SearchResult.t) : Py.value :=
  match Py.dict_get (SearchResult.metadata x) "document_id" with
  | Some v => v
  | None => Py.VNone
  end.

Lemma same_document_bad_page (x : SearchResult.t) (img : DocumentImage.t) :
  Py.as_number (page_of x) = None ->
  same_document_near_page x img
  = if Py.is_str (DocumentImage.document_id img) (document_of x)
    then Py.Raise Py.TypeError else Py.Ok false.
Proof.
  intros H. unfold same_document_near_page. fold (document_of x). fold (page_of x).
  unfold Py.int_sub. rewrite H. reflexivity.
Qed.

Lemma filter_exc_bad_page (x : SearchResult.t) (image_results : list DocumentImage.t) :
  Py.as_number (page_of x) = None ->
  Py.try_except (enhance_body self x image_results) x = x.
Proof.
  intros H. unfold enhance_body.
  assert (E : filter_exc (same_document_near_page x) image_results = Py.Ok []
              \/ exists e, filter_exc (same_document_near_page x) image_results
                           = Py.Raise e).
  { induction image_results as [|img l IH]; [left; reflexivity|].
    cbn [filter_exc]. rewrite same_document_bad_page by assumption.
    destruct (Py.is_str (DocumentImage.document_id img) (document_of x));
      cbn [Py.bind].
    - right. eexists. reflexivity.
    - destruct IH as [-> | [e ->]]; cbn [Py.bind].
      + left. reflexivity.
      + right. eexists. reflexivity. }
  destruct E as [-> | [e ->]]; reflexivity.
Qed.

End EnhanceMore.

(** X14.  The enhancement of a text result only adds to it: identifier,
    title, source type, URL and score stay, the old content is a prefix of
    the new one, every metadata key other than [visual_enhancements] keeps
    its value, and no other object of the store changes. *)
Theorem enhancement_only_adds :
  forall (self : t) (h : Heap.t) (text_result : Heap.ref)
         (image_results : list DocumentImage.t) (x : SearchResult.t),
    Heap.read h text_result = Some x ->
    let h' := _enhance_text_with_visual_context self h text_result image_results in
    (exists x',
        Heap.read h' text_result = Some x'
        /\ SearchResult.id x' = SearchResult.id x
        /\ SearchResult.title x' = SearchResult.title x
        /\ SearchResult.source_type x' = SearchResult.source_type x
        /\ SearchResult.url x' = SearchResult.url x
        /\ SearchResult.confidence_score x' = SearchResult.confidence_score x
        /\ String.prefix (SearchResult.content x) (SearchResult.content x') = true
        /\ forall k, k <> "visual_enhancements"%string ->
                     Py.dict_get (SearchResult.metadata x') k
                     = Py.dict_get (SearchResult.metadata x) k)
    /\ (forall r, r <> text_result -> Heap.read h' r = Heap.read h r)
    /\ List.length h' = List.length h.
Proof.
  intros self h text_result image_results x Hx h'. unfold h'.
  unfold _enhance_text_with_visual_context. rewrite Hx.
  split; [| split].
  - eexists. split; [apply (read_write_same h text_result _ x Hx)|].
    destruct (enhance_cases self x image_results) as [-> | [context [_ ->]]].
    + repeat split; try reflexivity.
      apply prefix_app. exists EmptyString. symmetry. apply string_app_nil_r.
    + unfold add_visual_context.
      cbn [SearchResult.id SearchResult.title SearchResult.source_type
           SearchResult.url SearchResult.confidence_score SearchResult.content
           SearchResult.metadata].
      repeat split; try reflexivity.
      * apply prefix_app. eexists. reflexivity.
      * intros k Hk. apply dict_get_set_other. exact Hk.
  - intros r Hr. apply read_write_other. congruence.
  - apply write_length.
Qed.

(** The theorem at a text result of page 1 of [doc_1] and a described image
    of the same page. *)
Lemma enhancement_only_adds_witness :
  let x :=
    SearchResult.mk "text_1" "Sample Document" "Sales analysis" DOCUMENT None 0.8%float
                    [("document_id", Py.VStr "doc_1"); ("page_number", Py.VInt 1)] in
  let img := DocumentImage.mk "img_1" "doc_1" 1 "chart" (Some "Sales chart") None [] in
  List.length (_enhance_text_with_visual_context
                 (__init__ "gemini" true false) [x] 0%nat [img])
  = 1%nat.
Proof.
  cbv zeta.
  apply (enhancement_only_adds
           (__init__ "gemini" true false)
           [SearchResult.mk "text_1" "Sample Document" "Sales analysis" DOCUMENT None
                            0.8%float
                            [("document_id", Py.VStr "doc_1");
                             ("page_number", Py.VInt 1)]]
           0%nat
           [DocumentImage.mk "img_1" "doc_1" 1 "chart" (Some "Sales chart") None []]
           _ eq_refl).
Defined.

(** X15.  A text result is left exactly as it is when no image belongs to
    its document (in particular when there are no images), and also when its
    [page_number] metadata is not a number: the comparison then raises and
    the handler returns the result untouched. *)
Theorem enhancement_leaves_result_unchanged :
  forall (self : t) (h : Heap.t) (text_result : Heap.ref)
         (image_results : list DocumentImage.t),
    (forall x, Heap.read h text_result = Some x ->
               (forall img, In img image_results ->
                            Py.is_str (DocumentImage.document_id img) (document_of x)
                            = false)
               \/ Py.as_number (page_of x) = None) ->
    _enhance_text_with_visual_context self h text_result image_results = h.
Proof.
  intros self h text_result image_results H.
  unfold _enhance_text_with_visual_context.
  destruct (Heap.read h text_result) as [x|] eqn:Hx; [|reflexivity].
  assert (E : Py.try_except (enhance_body self x image_results) x = x).
  { destruct (H x eq_refl) as [Hdoc | Hpage].
    - unfold enhance_body. rewrite filter_exc_no_document; [reflexivity|].
      intros img Hin. unfold same_document_near_page. fold (document_of x).
      rewrite (Hdoc img Hin). reflexivity.
    - apply filter_exc_bad_page. exact Hpage. }
  rewrite E. apply write_read_same. exact Hx.
Qed.

(** The theorem at a text result whose page number is the string ["one"],
    with an image of its document. *)
Lemma enhancement_leaves_result_unchanged_witness :
  let x :=
    SearchResult.mk "text_1" "Sample Document" "Sales analysis" DOCUMENT None 0.8%float
                    [("document_id", Py.VStr "doc_1"); ("page_number", Py.VStr "one")] in
  let img := DocumentImage.mk "img_1" "doc_1" 1 "chart" (Some "Sales chart") None [] in
  _enhance_text_with_visual_context (__init__ "gemini" true false) [x] 0%nat [img] = [x].
Proof.
  cbv zeta. apply enhancement_leaves_result_unchanged.
  intros x Hx. inversion Hx; subst. right. reflexivity.
Defined.

(** The fragments an image can contribute. *)
Definition fragment_of (self : t) (img : DocumentImage.t) (fragment : string) : Prop :=
  (exists d, DocumentImage.description img = Some d
             /\ fragment = ("Related image: " ++ d)%string)
  \/ (exists analysis,
         _get_chart_analysis_by_image_id self (DocumentImage.id img) = Some analysis
         /\ fragment
            = ("Chart data: " ++ Py.take 200 (ChartAnalysis.text_content analysis))%string).

Lemma image_context_fragments (self : t) (img : DocumentImage.t) (fragment : string) :
  In fragment (image_context self img) -> fragment_of self img fragment.
Proof.
  unfold image_context, fragment_of. intros H. apply in_app_or in H.
  destruct H as [H | H].
  - left. destruct (DocumentImage.description img) as [d|]; [|destruct H].
    destruct (String.eqb d EmptyString); [destruct H|].
    destruct H as [<- | []]. exists d. split; reflexivity.
  - right. destruct (is_chart_like (DocumentImage.image_type img)); [|destruct H].
    destruct (_get_chart_analysis_by_image_id self (DocumentImage.id img))
      as [analysis|]; [|destruct H].
    destruct H as [<- | []]. exists analysis. split; reflexivity.
Qed.

(** What the body of the enhancement leaves of a text result: the result
    itself, or the result with the fragments of its related images. *)
Lemma enhance_related (self : t) (x : SearchResult.t)
    (image_results : list DocumentImage.t) :
  Py.try_except (enhance_body self x image_results) x = x
  \/ exists related,
       filter_exc (same_document_near_page x) image_results = Py.Ok related
       /\ visual_context self related <> []
       /\ Py.try_except (enhance_body self x image_results) x
          = add_visual_context x (visual_context self related).
Proof.
  unfold enhance_body.
  destruct (filter_exc (same_document_near_page x) image_results)
    as [[|img related]|e]; cbn [Py.bind Py.try_except]; try (left; reflexivity).
  destruct (visual_context self (img :: related)) as [|c context] eqn:E;
    cbn [Py.try_except]; [left; reflexivity|].
  right. exists (img :: related). rewrite E.
  split; [reflexivity|]. split; [discriminate | reflexivity].
Qed.

(** X16.  When the enhancement changes a text result, the fragments it
    appends are those of the first three images of the result's document
    within one page of it, in order: for each image its description, if it
    has one, and the summary of the chart analysis found for it, if any.
    The number it records under [visual_enhancements] is the number of these
    fragments, between 1 and 6. *)
Theorem enhancement_counts_its_fragments :
  forall (self : t) (h : Heap.t) (text_result : Heap.ref)
         (image_results : list DocumentImage.t) (x : SearchResult.t),
    Heap.read h text_result = Some x ->
    let h' := _enhance_text_with_visual_context self h text_result image_results in
    h' = h
    \/ exists related x',
         filter_exc (same_document_near_page x) image_results = Py.Ok related
         /\ Heap.read h' text_result = Some x'
         /\ let context := flat_map (image_context self) (firstn 3 related) in
            (1 <= List.length context <= 6)%nat
            /\ Py.dict_get (SearchResult.metadata x') "visual_enhancements"
               = Some (Py.VInt (Z.of_nat (List.length context)))
            /\ SearchResult.content x'
               = (SearchResult.content x ++ Py.nl ++ Py.nl ++ "Visual Context: "
                    ++ Py.join " " context)%string
            /\ Forall (fun fragment =>
                         exists img, In img (firstn 3 related)
                                     /\ fragment_of self img fragment)
                      context.
Proof.
  intros self h text_result image_results x Hx h'. unfold h'.
  unfold _enhance_text_with_visual_context. rewrite Hx.
  destruct (enhance_related self x image_results) as [-> | [related [Hr [Hne ->]]]].
  - left. apply write_read_same. exact Hx.
  - right. exists related. eexists. split; [exact Hr|].
    split; [apply (read_write_same h text_result _ x Hx)|].
    cbv zeta. fold (visual_context self related).
    pose proof (visual_context_length self related) as Hlen.
    split.
    + destruct (visual_context self related); [congruence | simpl in *; lia].
    + split; [apply dict_get_set_same|]. split; [reflexivity|].
      apply Forall_forall. intros fragment Hin. unfold visual_context in Hin.
      apply in_flat_map in Hin. destruct Hin as [img [Himg Hf]].
      exists img. split; [exact Himg | apply image_context_fragments; exact Hf].
Qed.

(** The theorem at a text result with two described images of its document
    nearby and one further away: two fragments are appended and 2 is
    recorded. *)
Lemma enhancement_counts_its_fragments_witness :
  let x :=
    SearchResult.mk "text_1" "Sample Document" "Sales analysis" DOCUMENT None 0.8%float
                    [("document_id", Py.VStr "doc_1"); ("page_number", Py.VInt 1)] in
  let img := fun id page description =>
    DocumentImage.mk id "doc_1" page "chart" (Some description) None [] in
  let images :=
    [img "img_1" 1%Z "Sales chart"; img "img_7" 7%Z "Appendix";
     img "img_2" 2%Z "Architecture diagram"] in
  let h' :=
    _enhance_text_with_visual_context (__init__ "gemini" true false) [x] 0%nat images in
  option_map SearchResult.content (Heap.read h' 0%nat)
  = Some ("Sales analysis" ++ Py.nl ++ Py.nl
            ++ "Visual Context: Related image: Sales chart Related image: Architecture diagram")%string
  /\ option_map (fun x' => Py.dict_get (SearchResult.metadata x') "visual_enhancements")
                (Heap.read h' 0%nat)
     = Some (Some (Py.VInt 2)).
Proof.
  cbv beta zeta.
  destruct (enhancement_counts_its_fragments
              (__init__ "gemini" true false)
              [SearchResult.mk "text_1" "Sample Document" "Sales analysis" DOCUMENT None
                               0.8%float
                               [("document_id", Py.VStr "doc_1");
                                ("page_number", Py.VInt 1)]]
              0%nat
              [DocumentImage.mk "img_1" "doc_1" 1 "chart" (Some "Sales chart") None [];
               DocumentImage.mk "img_7" "doc_1" 7 "chart" (Some "Appendix") None [];
               DocumentImage.mk "img_2" "doc_1" 2 "chart" (Some "Architecture diagram")
                                None []]
              _ eq_refl)
    as [H | [related [x' [Hr [Hx' [_ [Hn [Hc _]]]]]]]].
  - discriminate H.
  - rewrite Hx'. cbn [option_map]. rewrite Hn, Hc.
    inversion Hr; subst related. split; reflexivity.
Defined.

(** ** More on the cache searches *)

Section SearchMore.

Variable query : Py.value.

Lemma emitted_snoc (st : search_state) (hits : list SearchResult.t)
    (x : SearchResult.t) :
  emitted (emitted st hits) [x] = emitted st (hits ++ [x]).
Proof.
  destruct st as [refs h]. unfold emitted. cbn [fst snd].
  rewrite <- !app_assoc, !length_app, seq_app. reflexivity.
Qed.

(** The loop state is the initial one with results appended, all of which
    satisfy [P]. *)
Definition emits (P : SearchResult.t -> Prop) (st0 st : search_state) : Prop :=
  exists hits, st = emitted st0 hits /\ Forall P hits.

Lemma append_result_emits (P : SearchResult.t -> Prop) (st0 : search_state)
    (x : SearchResult.t) :
  P x -> preserves (emits P st0) (append_result x).
Proof.
  intros HP st [hits [-> Hhits]]. rewrite append_result_emitted. cbn [fst].
  exists (hits ++ [x])%list. split; [apply emitted_snoc|].
  apply Forall_app. split; [exact Hhits | constructor; [exact HP | constructor]].
Qed.

(** What every result of the chart search looks like. *)
Definition chart_hit (cache : list (string * ChartAnalysis.t)) (r : SearchResult.t)
  : Prop :=
  SearchResult.source_type r = IMAGE
  /\ Py.dict_has (SearchResult.metadata r) "chart_type" = true
  /\ Py.dict_has (SearchResult.metadata r) "visual_enhancements" = false
  /\ Py.dict_has (SearchResult.metadata r) "relationship" = false
  /\ exists entry,
       In entry cache
       /\ SearchResult.id r = ("chart_" ++ fst entry)%string
       /\ SearchResult.content r = ChartAnalysis.text_content (snd entry)
       /\ chart_relevant query entry = true.

(** What every result of the link search looks like. *)
Definition link_hit (cache : list (string * VisualTextLink.t)) (r : SearchResult.t)
  : Prop :=
  SearchResult.source_type r = IMAGE
  /\ Py.dict_has (SearchResult.metadata r) "relationship" = true
  /\ Py.dict_has (SearchResult.metadata r) "chart_type" = false
  /\ Py.dict_has (SearchResult.metadata r) "visual_enhancements" = false
  /\ exists entry,
       In entry cache
       /\ SearchResult.id r = ("link_" ++ fst entry)%string
       /\ link_relevant query entry = true.

Lemma chart_result_hit (cache : list (string * ChartAnalysis.t))
    (entry : string * ChartAnalysis.t) (r : SearchResult.t) :
  In entry cache ->
  above_threshold (chart_relevance query (snd entry)) = true ->
  chart_result (fst entry) (snd entry) (chart_relevance query (snd entry)) = Py.Ok r ->
  chart_hit cache r.
Proof.
  intros Hin Hrel. unfold chart_result.
  destruct (str_title _) as [chart_title|e]; cbn [Py.bind]; [|discriminate].
  destruct (Py.float_mul _ _) as [score|e]; cbn [Py.bind]; [|discriminate].
  intros E. inversion E; subst. repeat split.
  exists entry. repeat split; [exact Hin | exact Hrel].
Qed.

Lemma search_chart_loop (cache : list (string * ChartAnalysis.t)) (st0 : search_state) :
  emits (chart_hit cache) st0
        (fst (Block.for_each cache (search_chart query) st0)).
Proof.
  apply (preserves_for_each (emits (chart_hit cache) st0) cache (search_chart query)).
  - intros entry Hin. unfold search_chart.
    apply preserves_when. intros Hrel.
    apply preserves_eval. intros r Hr.
    apply append_result_emits. apply (chart_result_hit cache entry r Hin Hrel Hr).
  - exists []. split; [symmetry; apply emitted_nil | constructor].
Qed.

Lemma link_result_hit (cache : list (string * VisualTextLink.t))
    (entry : string * VisualTextLink.t) (combined : string) (r : SearchResult.t) :
  In entry cache ->
  Py.join_value " " (VisualTextLink.text_chunks (snd entry)) = Py.Ok combined ->
  above_threshold (relevance query (Py.VStr combined)) = true ->
  link_result (fst entry) (snd entry) combined
              (relevance query (Py.VStr combined)) = Py.Ok r ->
  link_hit cache r.
Proof.
  intros Hin Hj Hrel. unfold link_result.
  destruct (Py.float_mul _ _) as [score|e]; cbn [Py.bind]; [|discriminate].
  intros E. inversion E; subst. repeat split.
  exists entry. repeat split; [exact Hin|].
  unfold link_relevant, link_relevance, joined_snippets. rewrite Hj.
  cbn [Py.try_except]. exact Hrel.
Qed.

Lemma search_link_loop (cache : list (string * VisualTextLink.t)) (st0 : search_state) :
  emits (link_hit cache) st0
        (fst (Block.for_each cache (search_link query) st0)).
Proof.
  apply (preserves_for_each (emits (link_hit cache) st0) cache (search_link query)).
  - intros entry Hin. unfold search_link.
    apply preserves_eval. intros combined Hj.
    apply preserves_when. intros Hrel.
    apply preserves_eval. intros r Hr.
    apply append_result_emits.
    apply (link_result_hit cache entry combined r Hin Hj Hrel Hr).
  - exists []. split; [symmetry; apply emitted_nil | constructor].
Qed.

Lemma for_each_app {S A : Type} (l1 l2 : list A) (body : A -> Block.t S) (s : S) :
  Block.for_each (l1 ++ l2) body s
  = match Block.for_each l1 body s with
    | (s', None) => Block.for_each l2 body s'
    | (s', Some e) => (s', Some e)
    end.
Proof.
  revert s. induction l1 as [|x l1 IH]; intros s; [reflexivity|].
  cbn [app Block.for_each]. unfold Block.seq.
  destruct (body x s) as [s' [e|]]; [reflexivity | apply IH].
Qed.

End SearchMore.

(** X17.  Whatever the caches hold, well typed or not, the two cache
    searches only allocate: the store they return is the given store with
    the new results appended, the references they return are the fresh
    addresses in order, and every new result is an image result made from a
    cache entry whose relevance exceeds 0.3, carrying the metadata key
    [chart_type] (chart search) or [relationship] (link search) and neither
    of the other two bonus keys. *)
Theorem cache_searches_only_allocate :
  forall (self : t) (query : Py.value) (h : Heap.t),
    (exists hits,
        _search_chart_analyses self query h
        = (seq (List.length h) (List.length hits), (h ++ hits)%list)
        /\ Forall (chart_hit query (chart_cache self)) hits)
    /\ (exists hits,
          _search_visual_text_links self query h
          = (seq (List.length h) (List.length hits), (h ++ hits)%list)
          /\ Forall (link_hit query (visual_text_links self)) hits).
Proof.
  intros self query h. split.
  - destruct (search_chart_loop query (chart_cache self) ([], h)) as [hits [E H]].
    exists hits. split; [exact E | exact H].
  - destruct (search_link_loop query (visual_text_links self) ([], h)) as [hits [E H]].
    exists hits. split; [exact E | exact H].
Qed.

(** X18.  A relevant cached analysis whose chart type is not a string, or
    whose confidence is not a number, stops the chart search: the exception
    is swallowed, and the search returns what it had found before that
    entry; the entries after it are never looked at. *)
Theorem chart_search_stops_at_ill_typed_entry :
  forall (self : t) (query : Py.value) (h : Heap.t)
         (before after : list (string * ChartAnalysis.t))
         (chart_id : string) (analysis : ChartAnalysis.t),
    chart_cache self = (before ++ (chart_id, analysis) :: after)%list ->
    chart_relevant query (chart_id, analysis) = true ->
    (forall s, ChartAnalysis.chart_type analysis <> Py.VStr s)
    \/ Py.as_number (ChartAnalysis.confidence analysis) = None ->
    _search_chart_analyses self query h
    = _search_chart_analyses (set_chart_cache self before) query h.
Proof.
  intros self query h before after chart_id analysis Hcache Hrel Hbad.
  unfold _search_chart_analyses. rewrite Hcache. cbn [set_chart_cache chart_cache].
  rewrite for_each_app.
  destruct (Block.for_each before (search_chart query) ([], h)) as [st [e|]];
    [reflexivity|].
  cbn [Block.for_each]. unfold Block.seq.
  assert (E : search_chart query (chart_id, analysis) st = (st, Some Py.AttributeError)
              \/ search_chart query (chart_id, analysis) st = (st, Some Py.TypeError)).
  { unfold search_chart. unfold chart_relevant in Hrel. rewrite Hrel.
    cbn [Block.when fst snd]. unfold Block.eval, chart_result, str_title.
    destruct Hbad as [Htype | Hnum].
    - left. destruct (ChartAnalysis.chart_type analysis); try reflexivity.
      exfalso. apply (Htype s). reflexivity.
    - destruct (ChartAnalysis.chart_type analysis); try (left; reflexivity).
      right. cbn [Py.bind]. unfold Py.float_mul, Py.as_float. rewrite Hnum.
      reflexivity. }
  destruct E as [-> | ->]; reflexivity.
Qed.

(** The theorem at a cache of three relevant analyses, the second of which
    has the chart type [None]: only the first is found. *)
Lemma chart_search_stops_at_ill_typed_entry_witness :
  let analysis := fun chart_type =>
    ChartAnalysis.mk chart_type (Py.VDict []) "sales by quarter"
                     (Py.VFloat (9 # 10) "0.9") [] None in
  let self :=
    mk "gemini" true false
       [("u1", analysis (Py.VStr "bar_chart"));
        ("u2", analysis Py.VNone);
        ("u3", analysis (Py.VStr "line_chart"))]
       [] in
  fst (_search_chart_analyses self (Py.VStr "sales") []) = [0%nat].
Proof.
  cbv beta zeta.
  rewrite (chart_search_stops_at_ill_typed_entry
             (mk "gemini" true false
                 [("u1", ChartAnalysis.mk (Py.VStr "bar_chart") (Py.VDict [])
                                          "sales by quarter"
                                          (Py.VFloat (9 # 10) "0.9") [] None);
                  ("u2", ChartAnalysis.mk Py.VNone (Py.VDict []) "sales by quarter"
                                          (Py.VFloat (9 # 10) "0.9") [] None);
                  ("u3", ChartAnalysis.mk (Py.VStr "line_chart") (Py.VDict [])
                                          "sales by quarter"
                                          (Py.VFloat (9 # 10) "0.9") [] None)]
                 [])
             (Py.VStr "sales") []
             [("u1", ChartAnalysis.mk (Py.VStr "bar_chart") (Py.VDict [])
                                      "sales by quarter"
                                      (Py.VFloat (9 # 10) "0.9") [] None)]
             [("u3", ChartAnalysis.mk (Py.VStr "line_chart") (Py.VDict [])
                                      "sales by quarter"
                                      (Py.VFloat (9 # 10) "0.9") [] None)]
             "u2"
             (ChartAnalysis.mk Py.VNone (Py.VDict []) "sales by quarter"
                               (Py.VFloat (9 # 10) "0.9") [] None)
             eq_refl eq_refl).
  - reflexivity.
  - left. intros s. discriminate.
Defined.

(** ** More on the search as a whole *)

Section SearchWhole.

Variable self : t.
Variable query : Py.value.

Lemma enhance_all_no_images (refs : list Heap.ref) (h : Heap.t) :
  enhanced_store self [] refs h = h.
Proof.
  unfold enhanced_store. revert h. induction refs as [|r refs IH]; intros h;
    [reflexivity|].
  cbn [fold_left].
  assert (E : _enhance_text_with_visual_context self h r [] = h).
  { unfold _enhance_text_with_visual_context.
    destruct (Heap.read h r) as [x|] eqn:Hx; [|reflexivity].
    apply write_read_same. exact Hx. }
  rewrite E. apply IH.
Qed.

(** The candidates of a search on a list and the store before the ranking:
    the given references, then the fresh references of the two cache
    searches. *)
Lemma search_on_list (refs : list Heap.ref) (image_results : list DocumentImage.t)
    (h : Heap.t) :
  exists charts links,
    let h1 := enhanced_store self image_results refs h in
    let candidates :=
      (refs ++ seq (List.length h) (List.length charts + List.length links))%list in
    let h3 := (h1 ++ charts ++ links)%list in
    multi_modal_search self query (ArgList refs) image_results h
    = (ArgList (Py.list_sort_reverse (score_lt (fold_left rescore candidates h3))
                                     candidates),
       fold_left rescore candidates h3)
    /\ _search_chart_analyses self query h1
       = (seq (List.length h) (List.length charts), (h1 ++ charts)%list)
    /\ _search_visual_text_links self query (h1 ++ charts)%list
       = (seq (List.length h + List.length charts) (List.length links),
          (h1 ++ charts ++ links)%list)
    /\ Forall (chart_hit query (chart_cache self)) charts
    /\ Forall (link_hit query (visual_text_links self)) links.
Proof.
  unfold multi_modal_search, multi_modal_search_body. cbn [iter_results].
  fold (enhanced_store self image_results refs h).
  set (h1 := enhanced_store self image_results refs h).
  assert (Eh : List.length h1 = List.length h) by apply enhanced_store_length.
  unfold _search_chart_analyses, _search_visual_text_links.
  destruct (search_chart_loop query (chart_cache self) ([], h1))
    as [charts [Ec Hc]].
  rewrite Ec. unfold emitted. cbn [fst snd app].
  destruct (search_link_loop query (visual_text_links self)
              (@pair (list Heap.ref) Heap.t [] (h1 ++ charts)%list))
    as [links [El Hl]].
  rewrite El. unfold emitted. cbn [fst snd app].
  unfold _rank_multimodal_results. cbn [fst snd].
  exists charts, links. cbn zeta.
  split; [| split; [| split; [| split; assumption]]].
  - rewrite length_app, Eh, <- !app_assoc, <- seq_app. reflexivity.
  - rewrite Eh. reflexivity.
  - etransitivity; [exact El|]. unfold emitted. cbn [fst snd app].
    rewrite length_app, Eh, app_assoc. reflexivity.
Qed.

Lemma candidates_NoDup (refs : list Heap.ref) (n m : nat) :
  NoDup refs -> Forall (fun r => r < n)%nat refs ->
  NoDup (refs ++ seq n m).
Proof.
  intros Hnd Hlt. apply NoDup_app; [exact Hnd | apply seq_NoDup |].
  intros r Hr Hs. rewrite Forall_forall in Hlt. specialize (Hlt r Hr).
  apply in_seq in Hs. lia.
Qed.

(** The ranking loop changes nothing of an object but its score. *)
Lemma rescore_all_keeps_fields (candidates : list Heap.ref) (h : Heap.t)
    (r : Heap.ref) (x : SearchResult.t) :
  (exists s, Heap.read h r = Some (set_confidence_score x s)) ->
  exists s, Heap.read (fold_left rescore candidates h) r
            = Some (set_confidence_score x s).
Proof.
  revert h. induction candidates as [|r0 candidates IH]; intros h H; [exact H|].
  cbn [fold_left]. apply IH. destruct H as [s Hs].
  destruct (Nat.eq_dec r0 r) as [-> | Hne].
  - rewrite rescore_read_same, Hs. cbn [option_map]. eexists. reflexivity.
  - rewrite rescore_read_other by exact Hne. exists s. exact Hs.
Qed.

(** After the ranking loop, no score of the store that was visited exceeds
    1.0. *)
Lemma rescored_le_1 (candidates : list Heap.ref) (h : Heap.t) (r : Heap.ref) :
  NoDup candidates -> In r candidates ->
  PrimFloat.ltb 1 (score_of (fold_left rescore candidates h) r) = false.
Proof.
  intros Hnd Hin. destruct (rescore_all candidates h r Hnd) as [Hread _].
  unfold score_of. rewrite (Hread Hin).
  destruct (Heap.read h r) as [x|]; cbn [option_map]; [|reflexivity].
  unfold rescored, set_confidence_score. cbn [SearchResult.confidence_score].
  apply py_min_le_1.
Qed.

End SearchWhole.

(** X19.  For a list of distinct results of the store, the search returns
    the given results, the candidates of the chart search and the candidates
    of the link search, permuted, and no final score exceeds 1.0.  When no
    final score is a NaN, they come in descending order of their final
    scores. *)
Theorem search_results_sorted_and_clamped :
  forall (self : t) (query : Py.value) (refs : list Heap.ref)
         (image_results : list DocumentImage.t) (h : Heap.t),
    NoDup refs ->
    Forall (fun r => r < List.length h)%nat refs ->
    let result := multi_modal_search self query (ArgList refs) image_results h in
    let h1 := enhanced_store self image_results refs h in
    let charts := _search_chart_analyses self query h1 in
    let links := _search_visual_text_links self query (snd charts) in
    exists ranked,
      fst result = ArgList ranked
      /\ Permutation (refs ++ fst charts ++ fst links) ranked
      /\ (forall r, In r ranked -> PrimFloat.ltb 1 (score_of (snd result) r) = false)
      /\ ((forall r, In r ranked -> not_nan (score_of (snd result) r)) ->
          StronglySorted
            (fun a b =>
               PrimFloat.leb (score_of (snd result) b) (score_of (snd result) a) = true)
            ranked).
Proof.
  intros self query refs image_results h Hnd Hlt result h1 charts links.
  unfold result, links, charts, h1.
  destruct (search_on_list self query refs image_results h)
    as [chart_hits [link_hits [E [Ec [El _]]]]]. cbn zeta in E, Ec, El.
  rewrite E, Ec. cbn [fst snd]. rewrite El. cbn [fst snd].
  set (candidates :=
         (refs ++ seq (List.length h)
                      (List.length chart_hits + List.length link_hits))%list) in *.
  set (h3 := (enhanced_store self image_results refs h ++ chart_hits ++ link_hits)%list)
    in *.
  assert (Hc : NoDup candidates) by (apply candidates_NoDup; assumption).
  pose proof (list_sort_reverse_perm (score_lt (fold_left rescore candidates h3))
                                     candidates) as Hperm.
  eexists. split; [reflexivity|]. split.
  - rewrite <- seq_app. exact Hperm.
  - split.
    + intros r Hr. apply rescored_le_1; [exact Hc|].
      apply (Permutation_in r (Permutation_sym Hperm)). exact Hr.
    + intros Hnan.
      apply (proj1 (sort_by_score _ candidates 0%float
                      ltac:(apply Forall_forall; intros r Hr; apply Hnan;
                            apply (Permutation_in r Hperm); exact Hr))).
Qed.

(** The theorem at one text result of score 0.9 with visual enhancements
    and a cache of one relevant analysis: the text result, clamped to 1.0,
    comes before the chart candidate. *)
Lemma search_results_sorted_and_clamped_witness :
  let x :=
    SearchResult.mk "text_1" "Sample Document" "Sales analysis" DOCUMENT None 0.9%float
                    [("visual_enhancements", Py.VInt 1)] in
  let analysis :=
    ChartAnalysis.mk (Py.VStr "bar_chart") (Py.VDict []) "sales by quarter"
                     (Py.VFloat (9 # 10) "0.9") [] None in
  let result :=
    multi_modal_search (mk "gemini" true false [("u1", analysis)] [])
                       (Py.VStr "sales") (ArgList [0%nat]) [] [x] in
  fst result = ArgList [0%nat; 1%nat]
  /\ StronglySorted
       (fun a b =>
          PrimFloat.leb (score_of (snd result) b) (score_of (snd result) a) = true)
       [0%nat; 1%nat].
Proof.
  cbv zeta.
  destruct (search_results_sorted_and_clamped
              (mk "gemini" true false
                  [("u1", ChartAnalysis.mk (Py.VStr "bar_chart") (Py.VDict [])
                                           "sales by quarter"
                                           (Py.VFloat (9 # 10) "0.9") [] None)] [])
              (Py.VStr "sales") [0%nat] []
              [SearchResult.mk "text_1" "Sample Document" "Sales analysis" DOCUMENT None
                               0.9%float [("visual_enhancements", Py.VInt 1)]])
    as [ranked [E [_ [_ Hsorted]]]].
  - repeat constructor. intros [].
  - repeat constructor.
  - cbv zeta in E. split; [reflexivity|].
    assert (Er : ranked = [0%nat; 1%nat]).
    { assert (G : ArgList ranked = ArgList [0%nat; 1%nat])
        by (rewrite <- E; reflexivity).
      inversion G. reflexivity. }
    subst ranked. apply Hsorted.
    intros r [<- | [<- | []]]; reflexivity.
Defined.

(** X20.  A search without images, which is how the multi-modal query
    endpoint calls it, changes nothing of a stored result but its score:
    identifier, title, content, source type, URL and metadata stay as they
    were. *)
Theorem search_without_images_keeps_results :
  forall (self : t) (query : Py.value) (text_results : results_arg) (h : Heap.t)
         (r : Heap.ref) (x : SearchResult.t),
    Heap.read h r = Some x ->
    exists score,
      Heap.read (snd (multi_modal_search self query text_results [] h)) r
      = Some (set_confidence_score x score).
Proof.
  intros self query text_results h r x Hx.
  assert (Hx' : Heap.read h r
                = Some (set_confidence_score x (SearchResult.confidence_score x))).
  { rewrite Hx. destruct x. reflexivity. }
  destruct text_results as [|refs|refs e].
  - cbn. eexists. exact Hx'.
  - destruct (search_on_list self query refs [] h) as [charts [links [E _]]].
    cbn zeta in E. rewrite E. cbn [snd].
    apply rescore_all_keeps_fields.
    rewrite enhance_all_no_images.
    eexists. unfold Heap.read. rewrite nth_error_app1.
    + exact Hx'.
    + apply nth_error_Some. unfold Heap.read in Hx. rewrite Hx. discriminate.
  - rewrite search_failure by (intros refs'; discriminate). cbn [snd iter_results fst].
    rewrite enhance_all_no_images. eexists. exact Hx'.
Qed.

(** The theorem at one text result and a cache of one relevant analysis. *)
Lemma search_without_images_keeps_results_witness :
  let x :=
    SearchResult.mk "text_1" "Sample Document" "Sales analysis" DOCUMENT None 0.9%float
                    [("document_id", Py.VStr "doc_1")] in
  let analysis :=
    ChartAnalysis.mk (Py.VStr "bar_chart") (Py.VDict []) "sales by quarter"
                     (Py.VFloat (9 # 10) "0.9") [] None in
  exists score,
    Heap.read (snd (multi_modal_search (mk "gemini" true false [("u1", analysis)] [])
                                       (Py.VStr "sales") (ArgList [0%nat]) [] [x]))
              0%nat
    = Some (set_confidence_score x score).
Proof.
  cbv zeta. apply search_without_images_keeps_results. reflexivity.
Defined.

(** ** The endpoints *)

Section EndpointsMore.

Lemma dict_get_In {V : Type} (d : list (string * V)) (k : string) (v : V) :
  Py.dict_get d k = Some v -> In (k, v) d.
Proof.
  induction d as [|[k' v'] d IH]; simpl; [discriminate|].
  destruct (String.eqb k k') eqn:E.
  - apply String.eqb_eq in E. intros H. inversion H; subst. left. reflexivity.
  - intros H. right. apply IH. exact H.
Qed.



Lemma fold_visit_image (images : list DocumentImage.t)
    (results : MultiModalSetup.multimodal_results) :
  fold_left MultiModalSetup.visit_image images results = results.
Proof.
  revert results. induction images as [|image images IH]; intros results;
    [reflexivity|].
  cbn [fold_left].
  assert (E : MultiModalSetup.visit_image results image = results).
  { unfold MultiModalSetup.visit_image.
    destruct (MultiModalSetup.key_set (DocumentImage.image_url image));
      [reflexivity|].
    destruct (is_chart_like (DocumentImage.image_type image)); reflexivity. }
  rewrite E. apply IH.
Qed.

Lemma gemini_text_not_empty (w : remote) :
  text (_analyze_with_gemini w) <> EmptyString.
Proof.
  unfold _analyze_with_gemini. destruct w as [| |r]; cbn; try discriminate.
  destruct (String.eqb (text r) EmptyString) eqn:E; cbn; [discriminate|].
  apply String.eqb_neq. exact E.
Qed.

End EndpointsMore.

Lemma default_analysis_compliant :
  Endpoints.response_compliant
    (Endpoints.mk_chart_response true
       (ChartAnalysis.chart_type default_analysis)
       (ChartAnalysis.text_content default_analysis)
       (ChartAnalysis.data_insights default_analysis)
       (ChartAnalysis.queryable_facts default_analysis)
       (ChartAnalysis.confidence default_analysis))
  = true.
Proof. reflexivity. Qed.


(** A cached analysis whose confidence the model answered as [NaN]: the
    listing ends with the framework's 500. *)
Example chart_listing_nan_confidence :
  Endpoints.list_chart_analyses
    (Some (mk "gemini" true false
              [("u1", ChartAnalysis.mk (Py.VStr "bar_chart") (Py.VDict []) "sales"
                                       Py.VNaN [] None)]
              []))
  = Main.InternalServerError.
Proof. reflexivity. Qed.


(** X25.  In [main.py] as it is, the multi-modal service is never created:
    after a start-up that succeeds, every multi-modal endpoint answers 503,
    whatever it is asked. *)
Theorem multimodal_endpoints_are_unavailable :
  forall (services_start : bool) (g : Endpoints.globals),
    Endpoints.lifespan services_start = Some g ->
    (forall document_id,
        Main.get_visual_text_links (Endpoints.multimodal_service g) document_id
        = Main.HTTPException 503 "Multi-modal service not initialized")
    /\ Endpoints.list_chart_analyses (Endpoints.multimodal_service g)
       = Main.HTTPException 503 "Multi-modal service not initialized"
    /\ (forall file w,
          fst (Endpoints.analyze_chart (Endpoints.multimodal_service g) file w)
          = Main.HTTPException 503 "Multi-modal service not initialized")
    /\ (forall file w,
          Endpoints.analyze_image_content (Endpoints.multimodal_service g) file w
          = Main.HTTPException 503 "Multi-modal service not initialized").
Proof.
  intros services_start g H. unfold Endpoints.lifespan in H.
  destruct services_start; [|discriminate]. inversion H; subst.
  repeat split.
Qed.

(** The theorem at a start-up that succeeds. *)
Lemma multimodal_endpoints_are_unavailable_witness :
  Main.get_visual_text_links
    (Endpoints.multimodal_service (Endpoints.mk_globals true true None)) "doc_1"
  = Main.HTTPException 503 "Multi-modal service not initialized".
Proof.
  apply (multimodal_endpoints_are_unavailable true). reflexivity.
Defined.

(** X26.  Captioning always returns the three captions [technical],
    [keywords] and [functional], in this order, never the error dictionary.
    Without a client each caption is the notice that captioning is not
    available; with the Gemini client no caption is ever empty; and with a
    client each of the three calls that fails gives its own caption the text
    ["Analysis failed"], whatever the other two calls did. *)
Theorem captions_are_always_three :
  forall (self : t) (w : MultiModalSetup.caption_world) (context : string),
    exists technical keywords functional,
      MultiModalSetup.generate_smart_image_captions self w context
      = [("technical", technical); ("keywords", keywords); ("functional", functional)]
      /\ (provider_of self = NoProvider ->
          technical = "Caption generation not available"%string
          /\ keywords = "Caption generation not available"%string
          /\ functional = "Caption generation not available"%string)
      /\ (provider_of self = Gemini ->
          technical <> EmptyString /\ keywords <> EmptyString
          /\ functional <> EmptyString)
      /\ (provider_of self <> NoProvider ->
          (MultiModalSetup.technical_reply w = Fails ->
           technical = "Analysis failed"%string)
          /\ (MultiModalSetup.keyword_reply w = Fails ->
              keywords = "Analysis failed"%string)
          /\ (MultiModalSetup.functional_reply w = Fails ->
              functional = "Analysis failed"%string)).
Proof.
  intros self w context.
  unfold MultiModalSetup.generate_smart_image_captions, MultiModalSetup._generate_caption.
  cbn [Py.try_except]. eexists. eexists. eexists. split; [reflexivity|].
  destruct (provider_of self); (split; [|split]); try discriminate.
  - intros _. repeat split; apply gemini_text_not_empty.
  - intros _. repeat split; intros ->; reflexivity.
  - intros _. repeat split; intros ->; reflexivity.
  - intros _. repeat split.
  - intros H. contradiction.
Qed.

(** X27.  Processing the images of an upload analyses nothing: the lists of
    chart analyses, captions and searchable content are always empty.  Its
    result holds the links of [create_visual_text_links] over all the images,
    those with a URL included (the loop that skips them does nothing), and
    the service afterwards is the one the linker leaves. *)
Theorem upload_processing_only_links :
  forall (self : t) (oracle : nat -> remote)
         (images : list DocumentImage.t) (text_chunks : list DocumentChunk.t),
    MultiModalSetup.process_uploaded_images_for_multimodal self oracle images text_chunks
    = (Some (MultiModalSetup.mk_results
               []
               (fst (create_visual_text_links self oracle images text_chunks))
               [] []),
       snd (create_visual_text_links self oracle images text_chunks)).
Proof.
  intros self oracle images text_chunks.
  unfold MultiModalSetup.process_uploaded_images_for_multimodal.
  rewrite fold_visit_image.
  destruct (create_visual_text_links self oracle images text_chunks). reflexivity.
Qed.
